(** * The RAG answer pipeline of the FAQ chatbot backend

    A shallow embedding of
      - [backend/models.py]                    (the data model),
      - [backend/store/vector_store.py]        ([VectorStore]),
      - [backend/services/session_manager.py]  ([SessionManager]),
      - [backend/services/chat_service.py]     ([ChatService]),
    followed by the properties of the pipeline that the specification
    states about them.

    Python objects are records, [dict]s are [gmap]s, [async] methods are
    run sequentially in a state-and-exception monad over a world made of
    the MongoDB [sessions] collection and the transcript of the calls made
    to the external back ends (ChromaDB, the LLM provider, the MongoDB
    driver, the logger). *)

From Stdlib Require Import ZArith String Ascii List DecimalString QArith Lia.
From stdpp Require Import gmap strings list.

Local Close Scope Q_scope.
Local Open Scope string_scope.
Local Open Scope list_scope.
Local Open Scope Z_scope.

(* ===================================================================== *)
(** ** Python values that the embedding needs *)
(* ===================================================================== *)

(** Python's [float].  The pipeline only ever computes [1.0 - dist] on
    floats and compares scores, so the carrier and these operations are
    kept abstract; [Q_float] below is one instance. *)
Class FloatOps := {
  float : Type;
  f_one : float;                    (* the literal [1.0] *)
  f_sub : float → float → float;    (* [a - b] *)
  f_le  : float → float → Prop      (* [a <= b] *)
}.

#[global] Instance Q_float : FloatOps :=
  {| float := Q; f_one := 1%Q; f_sub := Qminus; f_le := Qle |}.

(** Objects that a [raise] can throw.  [except Exception] only matches
    instances of [Exception]; [asyncio.CancelledError],
    [KeyboardInterrupt], [SystemExit] and [GeneratorExit] derive from
    [BaseException] directly. *)
Inductive PyExc :=
| ExceptionOf (cls : string)
| BaseExceptionOf (cls : string).

Definition is_Exception (e : PyExc) : bool :=
  match e with
  | ExceptionOf _ => true
  | BaseExceptionOf _ => false
  end.

Definition ValidationError : PyExc := ExceptionOf "ValidationError".
Definition ValueError : PyExc := ExceptionOf "ValueError".
Definition TypeError : PyExc := ExceptionOf "TypeError".
Definition IndexError : PyExc := ExceptionOf "IndexError".
Definition AttributeError : PyExc := ExceptionOf "AttributeError".

(** The result of evaluating a Python expression: a value or a raise. *)
Inductive Outcome (A : Type) :=
| Ok (a : A)
| Raise (e : PyExc).
Arguments Ok {A} a.
Arguments Raise {A} e.

#[global] Instance Outcome_ret : MRet Outcome := λ A a, Ok a.
#[global] Instance Outcome_bind : MBind Outcome := λ A B f m,
  match m with
  | Ok a => f a
  | Raise e => Raise e
  end.

(** [str(i)] for a non-negative [int]. *)
Definition str_of_nat (n : nat) : string :=
  NilZero.string_of_uint (Nat.to_uint n).

(** ["\n"]. *)
Definition LF : string := String "010"%char EmptyString.

(** [enumerate(l, start)]. *)
Fixpoint enumerate {A} (start : nat) (l : list A) : list (nat * A) :=
  match l with
  | [] => []
  | x :: l' => (start, x) :: enumerate (S start) l'
  end.

(** [zip(a, b, c)]: stops at the shortest argument. *)
Fixpoint zip3 {A B C} (a : list A) (b : list B) (c : list C)
  : list (A * B * C) :=
  match a, b, c with
  | x :: a', y :: b', z :: c' => (x, y, z) :: zip3 a' b' c'
  | _, _, _ => []
  end.

(** [l[start:]] for an arbitrary [int] [start] (negative counts from the
    end, out-of-range values are clamped). *)
Definition slice_from {A} (start : Z) (l : list A) : list A :=
  let len := Z.of_nat (length l) in
  let lo := if start <? 0 then Z.max (len + start) 0 else Z.min start len in
  drop (Z.to_nat lo) l.

(** [needle in haystack] on strings. *)
Definition contains (needle haystack : string) : Prop :=
  ∃ pre post, haystack = pre +:+ needle +:+ post.

(* ===================================================================== *)
(** ** [models.py] *)
(* ===================================================================== *)

Inductive ContentType := TEXT | IMAGE.

#[global] Instance ContentType_eq_dec : EqDecision ContentType.
Proof. solve_decision. Defined.

(** [ContentType.value]. *)
Definition ContentType_value (c : ContentType) : string :=
  match c with
  | TEXT => "text"
  | IMAGE => "image"
  end.

(** A key of the [QueryResult] dict of ChromaDB: missing, bound to
    [None], or bound to one row per query text. *)
Inductive QueryField (A : Type) :=
| KeyMissing
| KeyNone
| KeyRows (rows : list (list A)).
Arguments KeyMissing {A}.
Arguments KeyNone {A}.
Arguments KeyRows {A} rows.

Section Models.
Context `{FloatOps}.

(** A value stored in a [dict] (ChromaDB metadata holds [str], [int],
    [float] and [bool]; [.get] without a default yields [None]). *)
Inductive PyVal :=
| VNone
| VStr (s : string)
| VInt (z : Z)
| VFloat (f : float)
| VBool (b : bool).

(** [ContentType(v)]: lookup of an enum member by value. *)
Definition ContentType_of (v : PyVal) : Outcome ContentType :=
  match v with
  | VStr s =>
      if String.eqb s "text" then Ok TEXT
      else if String.eqb s "image" then Ok IMAGE
      else Raise ValueError
  | _ => Raise ValueError
  end.

(** pydantic validation of a field annotated [str]. *)
Definition validate_str (v : PyVal) : Outcome string :=
  match v with
  | VStr s => Ok s
  | _ => Raise ValidationError
  end.

(** pydantic validation of a field annotated [Optional[str]]. *)
Definition validate_optional_str (v : PyVal) : Outcome (option string) :=
  match v with
  | VNone => Ok None
  | VStr s => Ok (Some s)
  | _ => Raise ValidationError
  end.

Record SearchResult := {
  sr_content : string;
  sr_score : float;
  sr_metadata : gmap string PyVal;
  sr_content_type : ContentType
}.

Record SourceInfo := {
  si_content : string;
  si_source_file : string;
  si_content_type : ContentType;
  si_score : float;
  si_image_path : option string
}.

Record ChatMessage := {
  cm_question : string;
  cm_answer : string;
  cm_sources : list SourceInfo;
  cm_timestamp : string
}.

Record LLMResponse := {
  llm_content : string;
  llm_model : string;
  llm_usage : gmap string PyVal
}.

Record ChatResponse := {
  cr_answer : string;
  cr_sources : list SourceInfo;
  cr_session_id : string
}.

(** [AppConfig], the two options the pipeline reads. *)
Record AppConfig := {
  top_k : Z;
  history_limit : Z
}.

(** One entry of the OpenAI-style message list,
    [{"role": ..., "content": ...}]. *)
Record Message := {
  role : string;
  content : string
}.

(** *** The external back ends *)

Record QueryResult := {
  qr_documents : QueryField (option string);
  qr_metadatas : QueryField (option (gmap string PyVal));
  qr_distances : QueryField float
}.

(** A document of the MongoDB [sessions] collection.  Messages are kept
    in their validated form: [model_dump] followed by [model_validate]
    is the identity on a [ChatMessage]. *)
Record SessionDoc := {
  doc_session_id : string;
  doc_messages : list ChatMessage;
  doc_created_at : string
}.

(** A failure of the MongoDB driver on one operation: what it raises and
    whether the server had applied the operation before the failure. *)
Record MongoFault := {
  fault_exc : PyExc;
  fault_applied : bool
}.

(** The calls that leave the process, with what came back. *)
Inductive Event :=
| EvCount (r : Outcome nat)
| EvQuery (query_text : string) (n_results : Z) (r : Outcome QueryResult)
| EvChatCompletion (messages : list Message) (r : Outcome LLMResponse)
| EvFindOne (session_id : string) (f : option MongoFault)
| EvUpdateOne (session_id : string) (m : ChatMessage) (f : option MongoFault)
| EvInsertOne (d : SessionDoc) (f : option MongoFault)
| EvLogException (e : PyExc).

(** What the outside world answers, as a function of everything that
    has been exchanged with it so far. *)
Record Env := {
  chroma_count : list Event → Outcome nat;
  chroma_query : list Event → string → Z → Outcome QueryResult;
  llm_chat_completion : list Event → list Message → Outcome LLMResponse;
  mongo_fault : list Event → option MongoFault;
  utc_now_isoformat : list Event → string;
  uuid4 : list Event → string
}.

Record World := {
  sessions : list SessionDoc;
  trace : list Event
}.

(** *** The monad of the [async] methods *)

Definition M (A : Type) : Type := World → Outcome A * World.

#[global] Instance M_ret : MRet M := λ A a w, (Ok a, w).
#[global] Instance M_bind : MBind M := λ A B f m w,
  match m w with
  | (Ok a, w') => f a w'
  | (Raise e, w') => (Raise e, w')
  end.

(** A pure evaluation that may raise. *)
Definition lift {A} (o : Outcome A) : M A := λ w, (o, w).

(** [try: body / except Exception: handler]. *)
Definition try_except_Exception {A} (body : M A) (handler : PyExc → M A)
  : M A := λ w,
  match body w with
  | (Ok a, w') => (Ok a, w')
  | (Raise e, w') =>
      if is_Exception e then handler e w' else (Raise e, w')
  end.

Definition emit (ev : Event) (w : World) : World :=
  {| sessions := sessions w; trace := trace w ++ [ev] |}.

End Models.


(* ===================================================================== *)
(** ** [store/vector_store.py] *)
(* ===================================================================== *)

Module VectorStore.
Section VectorStore.
Context `{FloatOps} (env : Env).

(** [self._collection.count()]. *)
Definition collection_count : M nat := λ w,
  let r := chroma_count env (trace w) in
  (r, emit (EvCount r) w).

(** [self._collection.query(query_texts=[query_text], n_results=...,
    include=["documents", "metadatas", "distances"])]. *)
Definition collection_query (query_text : string) (n_results : Z)
  : M QueryResult := λ w,
  let r := chroma_query env (trace w) query_text n_results in
  (r, emit (EvQuery query_text n_results r) w).

(** [results.get(key, [[]])[0]]. *)
Definition first_row {A} (field : QueryField A) : Outcome (list A) :=
  match field with
  | KeyMissing => Ok []
  | KeyNone => Raise TypeError
  | KeyRows [] => Raise IndexError
  | KeyRows (row :: _) => Ok row
  end.

(** The body of the [for doc, meta, dist in zip(...)] loop, up to the
    [SearchResult] that it appends. *)
Definition make_result (doc : option string)
    (meta : option (gmap string PyVal)) (dist : float)
  : Outcome SearchResult :=
  let score := f_sub f_one dist in
  match meta with
  | None => Raise AttributeError
  | Some m =>
      content_type ← ContentType_of (default (VStr "text") (m !! "content_type"));
      mret {| sr_content := default "" doc;
              sr_score := score;
              sr_metadata := m;
              sr_content_type := content_type |}
  end.

Fixpoint search_loop
    (hits : list (option string * option (gmap string PyVal) * float))
    (search_results : list SearchResult) : Outcome (list SearchResult) :=
  match hits with
  | [] => Ok search_results
  | (doc, meta, dist) :: hits' =>
      r ← make_result doc meta dist;
      search_loop hits' (search_results ++ [r])
  end.

Definition search (query_text : string) (top_k : Z)
  : M (list SearchResult) :=
  count ← collection_count;
  if (count =? 0)%nat then mret []
  else
    let effective_k := Z.min top_k (Z.of_nat count) in
    results ← collection_query query_text effective_k;
    documents ← lift (first_row (qr_documents results));
    metadatas ← lift (first_row (qr_metadatas results));
    distances ← lift (first_row (qr_distances results));
    lift (search_loop (zip3 documents metadatas distances) []).

Definition is_empty : M bool :=
  count ← collection_count;
  mret (count =? 0)%nat.

End VectorStore.
End VectorStore.

(* ===================================================================== *)
(** ** [services/session_manager.py] *)
(* ===================================================================== *)

Module SessionManager.
Section SessionManager.
Context `{FloatOps} (env : Env).

(** The filter [{"session_id": session_id}]. *)
Definition matches (session_id : string) (d : SessionDoc) : bool :=
  String.eqb (doc_session_id d) session_id.

(** [{"$push": {"messages": m}}] applied to the first matching document;
    nothing is inserted when no document matches. *)
Fixpoint push_message (session_id : string) (m : ChatMessage)
    (docs : list SessionDoc) : list SessionDoc :=
  match docs with
  | [] => []
  | d :: docs' =>
      if matches session_id d
      then {| doc_session_id := doc_session_id d;
              doc_messages := doc_messages d ++ [m];
              doc_created_at := doc_created_at d |} :: docs'
      else d :: push_message session_id m docs'
  end.

(** [self._sessions.find_one({"session_id": session_id})]. *)
Definition find_one (session_id : string) : M (option SessionDoc) := λ w,
  let f := mongo_fault env (trace w) in
  let w' := emit (EvFindOne session_id f) w in
  match f with
  | Some flt => (Raise (fault_exc flt), w')
  | None => (Ok (List.find (matches session_id) (sessions w)), w')
  end.

(** [self._sessions.update_one({"session_id": session_id},
    {"$push": {"messages": m}})]. *)
Definition update_one_push (session_id : string) (m : ChatMessage)
  : M unit := λ w,
  let f := mongo_fault env (trace w) in
  let w' := emit (EvUpdateOne session_id m f) w in
  let applied := {| sessions := push_message session_id m (sessions w');
                    trace := trace w' |} in
  match f with
  | Some flt =>
      (Raise (fault_exc flt), if fault_applied flt then applied else w')
  | None => (Ok (), applied)
  end.

(** [self._sessions.insert_one(d)]. *)
Definition insert_one (d : SessionDoc) : M unit := λ w,
  let f := mongo_fault env (trace w) in
  let w' := emit (EvInsertOne d f) w in
  let applied := {| sessions := sessions w' ++ [d]; trace := trace w' |} in
  match f with
  | Some flt =>
      (Raise (fault_exc flt), if fault_applied flt then applied else w')
  | None => (Ok (), applied)
  end.

(** [datetime.now(timezone.utc).isoformat()]. *)
Definition now_isoformat : M string := λ w,
  (Ok (utc_now_isoformat env (trace w)), w).

(** [str(uuid.uuid4())]. *)
Definition new_uuid : M string := λ w, (Ok (uuid4 env (trace w)), w).

Definition create_session : M string :=
  session_id ← new_uuid;
  created_at ← now_isoformat;
  _ ← insert_one {| doc_session_id := session_id;
                    doc_messages := [];
                    doc_created_at := created_at |};
  mret session_id.

Definition add_message (session_id question answer : string)
    (sources : list SourceInfo) : M unit :=
  timestamp ← now_isoformat;
  let message := {| cm_question := question;
                    cm_answer := answer;
                    cm_sources := sources;
                    cm_timestamp := timestamp |} in
  update_one_push session_id message.

Definition get_recent_history (session_id : string) (n : Z)
  : M (list ChatMessage) :=
  doc ← find_one session_id;
  match doc with
  | None => mret []
  | Some d =>
      let messages_data := doc_messages d in
      let recent :=
        if Z.of_nat (length messages_data) >? n
        then slice_from (- n) messages_data
        else messages_data in
      mret recent
  end.

(** The sessions that are left when the first document matching
    [{"session_id": session_id}] is removed. *)
Fixpoint remove_first (session_id : string) (docs : list SessionDoc)
  : list SessionDoc :=
  match docs with
  | [] => []
  | d :: docs' =>
      if matches session_id d then docs'
      else d :: remove_first session_id docs'
  end.

(** [self._sessions.delete_one({"session_id": session_id})], giving
    [result.deleted_count].  The transcript has no entry for this call:
    it is not one of the calls of the answer pipeline. *)
Definition delete_one (session_id : string) : M Z := λ w,
  let deleted_count :=
    if existsb (matches session_id) (sessions w) then 1 else 0 in
  let applied := {| sessions := remove_first session_id (sessions w);
                    trace := trace w |} in
  match mongo_fault env (trace w) with
  | Some flt =>
      (Raise (fault_exc flt), if fault_applied flt then applied else w)
  | None => (Ok deleted_count, applied)
  end.

Definition get_full_history (session_id : string)
  : M (list ChatMessage) :=
  doc ← find_one session_id;
  match doc with
  | None => mret []
  | Some d => mret (doc_messages d)
  end.

Definition delete_session (session_id : string) : M bool :=
  deleted_count ← delete_one session_id;
  mret (deleted_count >? 0).

End SessionManager.

(** Python's [len(s)] and [s[:n]] on a [str] count characters, whatever
    the representation of the text; the listing below only needs these
    two operations.  [byte_str] reads a string as one character per
    byte. *)
Class StrOps := {
  str_len : string → nat;
  str_take : nat → string → string
}.

#[global] Instance byte_str : StrOps :=
  {| str_len := String.length;
     str_take := λ n s, String.substring 0 n s |}.

(** One entry of the list that [get_all_sessions] returns. *)
Record SessionSummary := {
  sum_session_id : string;
  sum_created_at : string;
  sum_message_count : Z;
  sum_last_message : string
}.

(** The text shown for a session without messages. *)
Definition NEW_CHAT : string := "新しいチャット".

Section Listing.
Context `{FloatOps} `{StrOps} (env : Env).

(** What the cursor [self._sessions.find().sort("created_at", -1)]
    yields for a collection: MongoDB's sort. *)
Context (find_sorted_by_created_at_desc : list SessionDoc → list SessionDoc).

(** The body of the [async for doc in cursor] loop, up to the dict that
    it appends. *)
Definition summarise (doc : SessionDoc) : SessionSummary :=
  let messages := doc_messages doc in
  let last_message :=
    match last messages with
    | Some m => cm_question m
    | None => NEW_CHAT
    end in
  {| sum_session_id := doc_session_id doc;
     sum_created_at := doc_created_at doc;
     sum_message_count := Z.of_nat (length messages);
     sum_last_message :=
       str_take 50 last_message
       +:+ (if (50 <? str_len last_message)%nat then "..." else "") |}.

Definition get_all_sessions : M (list SessionSummary) := λ w,
  match mongo_fault env (trace w) with
  | Some flt => (Raise (fault_exc flt), w)
  | None =>
      (Ok (fold_left (λ sessions doc, sessions ++ [summarise doc])
                     (find_sorted_by_created_at_desc (sessions w)) []),
       w)
  end.

End Listing.

End SessionManager.

(* ===================================================================== *)
(** ** [services/chat_service.py] *)
(* ===================================================================== *)

Module ChatService.

Definition SYSTEM_PROMPT : string :=
  "あなたはFAQチャットボットです。"
  +:+ "提供されたFAQコンテキストに基づいてのみ回答してください。"
  +:+ "コンテキストに含まれない情報については「該当する情報が見つかりませんでした」と回答してください。"
  +:+ "回答は簡潔かつ正確に、日本語で行ってください。".

(** The answer text of the empty-store branch. *)
Definition KNOWLEDGE_BASE_NOT_BUILT : string :=
  "ナレッジベースが未構築です。先にデータの取り込みを実行してください。".

(** The answer text of the [except] branch. *)
Definition GENERATION_FAILED : string :=
  "回答の生成に失敗しました。しばらくしてから再度お試しください。".

(** The prefix of the context message; the f-string ends in two line
    feeds. *)
Definition CONTEXT_HEADER : string :=
  "以下はFAQコンテキストです:" +:+ LF +:+ LF.

Section ChatService.
Context `{FloatOps} (env : Env) (config : AppConfig).

(** [self._llm.chat_completion(messages)]. *)
Definition chat_completion (messages : list Message) : M LLMResponse := λ w,
  let r := llm_chat_completion env (trace w) messages in
  (r, emit (EvChatCompletion messages r) w).

(** [logger.exception(...)] inside the handler. *)
Definition logger_exception (e : PyExc) : M unit := λ w,
  (Ok (), emit (EvLogException e) w).

(** [f"[{i}] {result.content}"]. *)
Definition context_part (i : nat) (result : SearchResult) : string :=
  "[" +:+ str_of_nat i +:+ "] " +:+ sr_content result.

(** [_build_prompt], statement by statement: [messages] and
    [context_parts] are the lists the method appends to. *)
Definition _build_prompt (question : string) (context : list SearchResult)
    (history : list ChatMessage) : list Message :=
  let messages := [] in
  let messages :=
    messages ++ [{| role := "system"; content := SYSTEM_PROMPT |}] in
  let messages :=
    match context with
    | [] => messages
    | _ :: _ =>
        let context_parts :=
          fold_left (λ parts ir, parts ++ [context_part (fst ir) (snd ir)])
                    (enumerate 1 context) [] in
        let context_text := String.concat (LF +:+ LF) context_parts in
        messages ++ [{| role := "system";
                        content := CONTEXT_HEADER +:+ context_text |}]
    end in
  let messages :=
    fold_left
      (λ messages msg,
         (messages ++ [{| role := "user"; content := cm_question msg |}])
         ++ [{| role := "assistant"; content := cm_answer msg |}])
      history messages in
  messages ++ [{| role := "user"; content := question |}].

(** The [SourceInfo(...)] call of [_build_sources]: the arguments are
    read from the result, then pydantic validates the two fields that
    come out of the metadata dict. *)
Definition make_source (r : SearchResult) : Outcome SourceInfo :=
  let source_file_arg :=
    default (VStr "") (sr_metadata r !! "source_file") in
  let image_path_arg :=
    if decide (sr_content_type r = IMAGE)
    then default VNone (sr_metadata r !! "image_path")
    else VNone in
  source_file ← validate_str source_file_arg;
  image_path ← validate_optional_str image_path_arg;
  mret {| si_content := sr_content r;
          si_source_file := source_file;
          si_content_type := sr_content_type r;
          si_score := sr_score r;
          si_image_path := image_path |}.

Fixpoint build_sources_loop (search_results : list SearchResult)
    (sources : list SourceInfo) : Outcome (list SourceInfo) :=
  match search_results with
  | [] => Ok sources
  | r :: rest =>
      source ← make_source r;
      build_sources_loop rest (sources ++ [source])
  end.

Definition _build_sources (search_results : list SearchResult)
  : Outcome (list SourceInfo) :=
  build_sources_loop search_results [].

(** The statements inside [try:]. *)
Definition answer_try (question session_id : string) : M ChatResponse :=
  search_results ← VectorStore.search env question (top_k config);
  history ←
    SessionManager.get_recent_history env session_id (history_limit config);
  let messages := _build_prompt question search_results history in
  llm_response ← chat_completion messages;
  sources ← lift (_build_sources search_results);
  _ ← SessionManager.add_message env session_id question
        (llm_content llm_response) sources;
  mret {| cr_answer := llm_content llm_response;
          cr_sources := sources;
          cr_session_id := session_id |}.

(** The statements under [except Exception:]. *)
Definition answer_except (session_id : string) (e : PyExc)
  : M ChatResponse :=
  _ ← logger_exception e;
  mret {| cr_answer := GENERATION_FAILED;
          cr_sources := [];
          cr_session_id := session_id |}.

Definition answer (question session_id : string) : M ChatResponse :=
  empty ← VectorStore.is_empty env;
  if (empty : bool)
  then mret {| cr_answer := KNOWLEDGE_BASE_NOT_BUILT;
               cr_sources := [];
               cr_session_id := session_id |}
  else try_except_Exception (answer_try question session_id)
                            (answer_except session_id).

End ChatService.
End ChatService.

(* ===================================================================== *)
(** ** Transcripts of one [answer] call *)
(* ===================================================================== *)

Section Transcripts.
Context `{FloatOps}.

(** The calls of the retrieval and history-recall stages: they read, and
    neither reach the provider nor write to MongoDB. *)
Definition quiet (ev : Event) : Prop :=
  match ev with
  | EvCount _ | EvQuery _ _ _ | EvFindOne _ _ => True
  | _ => False
  end.

(** The provider was called. *)
Definition provider_called (evs : list Event) : Prop :=
  ∃ messages r, EvChatCompletion messages r ∈ evs.

(** An append to a session history was sent to MongoDB. *)
Definition history_append_sent (evs : list Event) : Prop :=
  ∃ session_id m f, EvUpdateOne session_id m f ∈ evs.

(** The response of the [except Exception:] branch. *)
Definition failure_response (session_id : string) : ChatResponse :=
  {| cr_answer := ChatService.GENERATION_FAILED;
     cr_sources := [];
     cr_session_id := session_id |}.

(** What the caller of [answer] sees when the [try] block raises [e]. *)
Definition degraded (session_id : string) (e : PyExc)
  : Outcome ChatResponse :=
  if is_Exception e then Ok (failure_response session_id) else Raise e.

(** What the handler adds to the transcript when the [try] block raises
    [e]. *)
Definition logged (e : PyExc) : list Event :=
  if is_Exception e then [EvLogException e] else [].

(** The shapes that one call [answer(question, session_id)] can take:
    what it returns or raises, the calls it made, in order, and the
    [sessions] collection it leaves, given the one it found. *)
Inductive AnswerRun (session_id : string) (before : list SessionDoc)
  : Outcome ChatResponse → list Event → list SessionDoc → Prop :=
| RunGuardRaises (e : PyExc) :
    AnswerRun session_id before (Raise e) [EvCount (Raise e)] before
| RunEmptyStore :
    AnswerRun session_id before
      (Ok {| cr_answer := ChatService.KNOWLEDGE_BASE_NOT_BUILT;
             cr_sources := [];
             cr_session_id := session_id |})
      [EvCount (Ok 0%nat)] before
| RunFailsBeforeGeneration (c : nat) (pre : list Event) (e : PyExc) :
    c ≠ 0%nat → Forall quiet pre →
    AnswerRun session_id before (degraded session_id e)
      (EvCount (Ok c) :: pre ++ logged e) before
| RunGenerationFails (c : nat) (pre : list Event) (messages : list Message)
    (e : PyExc) :
    c ≠ 0%nat → Forall quiet pre →
    AnswerRun session_id before (degraded session_id e)
      (EvCount (Ok c) :: pre ++ EvChatCompletion messages (Raise e) :: logged e)
      before
| RunCitationFails (c : nat) (pre : list Event) (messages : list Message)
    (resp : LLMResponse) (e : PyExc) :
    c ≠ 0%nat → Forall quiet pre →
    AnswerRun session_id before (degraded session_id e)
      (EvCount (Ok c) :: pre ++ EvChatCompletion messages (Ok resp) :: logged e)
      before
| RunAppendFails (c : nat) (pre : list Event) (messages : list Message)
    (resp : LLMResponse) (m : ChatMessage) (flt : MongoFault) :
    c ≠ 0%nat → Forall quiet pre →
    cm_answer m = llm_content resp →
    AnswerRun session_id before (degraded session_id (fault_exc flt))
      (EvCount (Ok c) :: pre
         ++ EvChatCompletion messages (Ok resp)
         :: EvUpdateOne session_id m (Some flt)
         :: logged (fault_exc flt))
      (if fault_applied flt
       then SessionManager.push_message session_id m before
       else before)
| RunSucceeds (c : nat) (pre : list Event) (messages : list Message)
    (resp : LLMResponse) (m : ChatMessage) :
    c ≠ 0%nat → Forall quiet pre →
    cm_answer m = llm_content resp →
    AnswerRun session_id before
      (Ok {| cr_answer := llm_content resp;
             cr_sources := cm_sources m;
             cr_session_id := session_id |})
      (EvCount (Ok c) :: pre
         ++ [EvChatCompletion messages (Ok resp);
             EvUpdateOne session_id m None])
      (SessionManager.push_message session_id m before).

(** The world that the [except Exception:] clause leaves when the [try]
    block raised [e] in world [w]. *)
Definition after_handler (e : PyExc) (w : World) : World :=
  if is_Exception e then emit (EvLogException e) w else w.

End Transcripts.

(* ===================================================================== *)
(** ** The stages of the guarded block *)
(* ===================================================================== *)

(** The steps inside [try:] that call out or validate, in the order of
    the code.  Prompt assembly sits between history recall and
    generation; [_build_prompt] only concatenates strings and lists and
    has no raising path of its own. *)
Inductive Stage :=
| Retrieval
| HistoryRecall
| Generation
| CitationDerivation
| Persistence.

Section Stages.
Context `{FloatOps} (env : Env) (config : AppConfig).

(** [stage_raises question session_id w0 stage e]: started in world [w0]
    (just after the emptiness guard), the guarded block runs every stage
    before [stage] to completion and [stage] raises [e]. *)
Definition stage_raises (question session_id : string) (w0 : World)
    (stage : Stage) (e : PyExc) : Prop :=
  match stage with
  | Retrieval =>
      ∃ w1, VectorStore.search env question (top_k config) w0 = (Raise e, w1)
  | HistoryRecall =>
      ∃ results w1 w2,
        VectorStore.search env question (top_k config) w0 = (Ok results, w1)
        ∧ SessionManager.get_recent_history env session_id
            (history_limit config) w1 = (Raise e, w2)
  | Generation =>
      ∃ results w1 history w2,
        VectorStore.search env question (top_k config) w0 = (Ok results, w1)
        ∧ SessionManager.get_recent_history env session_id
            (history_limit config) w1 = (Ok history, w2)
        ∧ llm_chat_completion env (trace w2)
            (ChatService._build_prompt question results history) = Raise e
  | CitationDerivation =>
      ∃ results w1 history w2 resp,
        VectorStore.search env question (top_k config) w0 = (Ok results, w1)
        ∧ SessionManager.get_recent_history env session_id
            (history_limit config) w1 = (Ok history, w2)
        ∧ llm_chat_completion env (trace w2)
            (ChatService._build_prompt question results history) = Ok resp
        ∧ ChatService._build_sources results = Raise e
  | Persistence =>
      ∃ results w1 history w2 resp sources w4,
        VectorStore.search env question (top_k config) w0 = (Ok results, w1)
        ∧ SessionManager.get_recent_history env session_id
            (history_limit config) w1 = (Ok history, w2)
        ∧ llm_chat_completion env (trace w2)
            (ChatService._build_prompt question results history) = Ok resp
        ∧ ChatService._build_sources results = Ok sources
        ∧ SessionManager.add_message env session_id question
            (llm_content resp) sources
            (emit (EvChatCompletion
                     (ChatService._build_prompt question results history)
                     (Ok resp)) w2)
          = (Raise e, w4)
  end.

End Stages.

(* ===================================================================== *)
(** ** The prompt layout and the citation rules, as the specification
       words them *)
(* ===================================================================== *)

Module PromptLayout.
Section PromptLayout.
Context `{FloatOps}.

Definition system_message (text : string) : Message :=
  {| role := "system"; content := text |}.
Definition user_message (text : string) : Message :=
  {| role := "user"; content := text |}.
Definition assistant_message (text : string) : Message :=
  {| role := "assistant"; content := text |}.

(** Every retrieved content, numbered from 1 in retrieval order, one
    paragraph each. *)
Definition numbered_context (context : list SearchResult) : string :=
  String.concat (LF +:+ LF)
    (imap (λ i result, ChatService.context_part (S i) result) context).

(** No evidence message without evidence, otherwise exactly one. *)
Definition evidence (context : list SearchResult) : list Message :=
  match context with
  | [] => []
  | _ :: _ =>
      [system_message (ChatService.CONTEXT_HEADER +:+ numbered_context context)]
  end.

(** One user/assistant pair per prior turn, oldest first. *)
Definition prior_turns (history : list ChatMessage) : list Message :=
  history ≫= λ msg,
    [user_message (cm_question msg); assistant_message (cm_answer msg)].

(** Instruction, evidence, prior turns, current ask. *)
Definition layout (question : string) (context : list SearchResult)
    (history : list ChatMessage) : list Message :=
  [system_message ChatService.SYSTEM_PROMPT]
  ++ evidence context
  ++ prior_turns history
  ++ [user_message question].

End PromptLayout.
End PromptLayout.

Section Citations.
Context `{FloatOps}.

(** The metadata entries that [_build_sources] reads hold strings where
    they are present: ["source_file"] always, ["image_path"] (which may
    also be [None]) for an image result. *)
Definition citable (r : SearchResult) : Prop :=
  match sr_metadata r !! "source_file" with
  | None | Some (VStr _) => True
  | Some _ => False
  end
  ∧ (sr_content_type r = IMAGE →
     match sr_metadata r !! "image_path" with
     | None | Some VNone | Some (VStr _) => True
     | Some _ => False
     end).

(** The origin file name recorded in the metadata, [""] when there is
    none. *)
Definition metadata_source_file (r : SearchResult) : string :=
  match sr_metadata r !! "source_file" with
  | Some (VStr name) => name
  | _ => ""
  end.

(** The image path recorded in the metadata, if any. *)
Definition metadata_image_path (r : SearchResult) : option string :=
  match sr_metadata r !! "image_path" with
  | Some (VStr path) => Some path
  | _ => None
  end.

(** [s] cites [r] as the code derives citations. *)
Definition cites (s : SourceInfo) (r : SearchResult) : Prop :=
  si_content s = sr_content r
  ∧ si_score s = sr_score r
  ∧ si_content_type s = sr_content_type r
  ∧ si_source_file s = metadata_source_file r
  ∧ si_image_path s =
      (if decide (sr_content_type r = IMAGE)
       then metadata_image_path r else None).

End Citations.

(* ===================================================================== *)
(** ** What [search] relies on from ChromaDB *)
(* ===================================================================== *)

Section Retrieval.
Context `{FloatOps}.

(** Neighbouring entries never decrease. *)
Definition ascending (distances : list float) : Prop :=
  ∀ i a b, distances !! i = Some a → distances !! S i = Some b → f_le a b.

(** Neighbouring entries never increase. *)
Definition non_increasing (scores : list float) : Prop :=
  ∀ i a b, scores !! i = Some a → scores !! S i = Some b → f_le b a.

(** A metadata dict as [add_chunks] and [add_image_documents] store
    them: its ["content_type"], when present, is the value of a
    [ContentType]. *)
Definition stored_metadata (meta : option (gmap string PyVal)) : Prop :=
  ∃ m, meta = Some m
       ∧ (m !! "content_type" = None
          ∨ ∃ c, m !! "content_type" = Some (VStr (ContentType_value c))).

(** The answer of [collection.query] to one query text with the three
    requested columns: one row per column, holding the document, the
    metadata and the distance of every hit; at most [n_results] hits,
    nearest first. *)
Definition chroma_contract (n_results : Z) (qr : QueryResult)
    (documents : list (option string))
    (metadatas : list (option (gmap string PyVal)))
    (distances : list float) : Prop :=
  qr = {| qr_documents := KeyRows [documents];
          qr_metadatas := KeyRows [metadatas];
          qr_distances := KeyRows [distances] |}
  ∧ length documents = length distances
  ∧ length metadatas = length distances
  ∧ Z.of_nat (length distances) ≤ n_results
  ∧ ascending distances
  ∧ Forall stored_metadata metadatas.

(** [1.0 - d] reverses the order of distances. *)
Definition sub_from_one_antitone : Prop :=
  ∀ a b, f_le a b → f_le (f_sub f_one b) (f_sub f_one a).

(** [r] is the [SearchResult] made of the hit [(doc, meta, dist)]: its
    score is [1.0 - dist], its content the document (the empty text for
    [None]), its metadata the dict of the hit, and its content type the
    one that the dict names, text when it names none. *)
Definition result_of_hit (r : SearchResult)
    (hit : option string * option (gmap string PyVal) * float) : Prop :=
  sr_score r = f_sub f_one hit.2
  ∧ sr_content r = default "" hit.1.1
  ∧ hit.1.2 = Some (sr_metadata r)
  ∧ ContentType_of (default (VStr "text") (sr_metadata r !! "content_type"))
    = Ok (sr_content_type r).

End Retrieval.

(* ===================================================================== *)
(** ** Recording turns and reading them back *)
(* ===================================================================== *)

Section RecordAndRecall.
Context `{FloatOps} (env : Env).

(** [for question, answer, sources in turns:
       await manager.add_message(session_id, question, answer, sources)]. *)
Fixpoint add_messages (session_id : string)
    (turns : list (string * string * list SourceInfo)) : M unit :=
  match turns with
  | [] => mret ()
  | (question, answer, sources) :: rest =>
      _ ← SessionManager.add_message env session_id question answer sources;
      add_messages session_id rest
  end.

(** A session is created, the turns are appended to it in order, and the
    last [n] are asked for. *)
Definition record_and_recall
    (turns : list (string * string * list SourceInfo)) (n : Z)
  : M (list ChatMessage) :=
  session_id ← SessionManager.create_session env;
  _ ← add_messages session_id turns;
  SessionManager.get_recent_history env session_id n.

(** [msg] holds what was written for [turn]. *)
Definition recorded (msg : ChatMessage)
    (turn : string * string * list SourceInfo) : Prop :=
  cm_question msg = turn.1.1
  ∧ cm_answer msg = turn.1.2
  ∧ cm_sources msg = turn.2.

End RecordAndRecall.

(* ===================================================================== *)
(** ** Concrete worlds *)
(* ===================================================================== *)

(** Small closed instances of the back ends, over rational scores, on
    which the definitions above can be run. *)
Module Scenario.

Definition is_chat_event (ev : Event) : bool :=
  match ev with
  | EvChatCompletion _ _ => true
  | _ => false
  end.

(** Back ends that answer the same thing at every call; the MongoDB
    driver may behave differently before and after the provider has been
    called (that is, for [find_one] and for [update_one]). *)
Definition scripted (count : Outcome nat) (query : Outcome QueryResult)
    (chat : Outcome LLMResponse)
    (fault_on_read fault_on_write : option MongoFault) : Env :=
  {| chroma_count := λ _, count;
     chroma_query := λ _ _ _, query;
     llm_chat_completion := λ _ _, chat;
     mongo_fault := λ tr,
       if existsb is_chat_event tr then fault_on_write else fault_on_read;
     utc_now_isoformat := λ _, "2025-01-01T00:00:00+00:00";
     uuid4 := λ _, "550e8400-e29b-41d4-a716-446655440000" |}.

Definition config : AppConfig := {| top_k := 3; history_limit := 5 |}.

Definition text_meta : gmap string PyVal :=
  {[ "source_file" := VStr "faq.xlsx"; "content_type" := VStr "text" ]}.

(** An image document whose metadata carries no ["image_path"]. *)
Definition bare_image_meta : gmap string PyVal :=
  {[ "content_type" := VStr "image" ]}.

(** One hit, stored without metadata entries. *)
Definition one_hit : QueryResult :=
  {| qr_documents := KeyRows [[Some "VPN"]];
     qr_metadatas := KeyRows [[Some ∅]];
     qr_distances := KeyRows [[(1 # 10)%Q]] |}.

(** Three stored chunks, the two nearest returned: A at distance 0.1 and
    C at distance 0.2. *)
Definition two_hits : QueryResult :=
  {| qr_documents := KeyRows [[Some "A"; Some "C"]];
     qr_metadatas := KeyRows [[Some text_meta; Some text_meta]];
     qr_distances := KeyRows [[(1 # 10)%Q; (2 # 10)%Q]] |}.

Definition reply : LLMResponse :=
  {| llm_content := "generated"; llm_model := "gpt-4o"; llm_usage := ∅ |}.

Definition ConnectionFailure : MongoFault :=
  {| fault_exc := ExceptionOf "pymongo.errors.AutoReconnect";
     fault_applied := false |}.

Definition CancelledError : PyExc :=
  BaseExceptionOf "asyncio.CancelledError".

Definition sid : string := "s1".

Definition turn (q a : string) : ChatMessage :=
  {| cm_question := q; cm_answer := a; cm_sources := [];
     cm_timestamp := "2025-01-01T00:00:00+00:00" |}.

(** One session, freshly created. *)
Definition fresh : World :=
  {| sessions := [ {| doc_session_id := sid;
                      doc_messages := [];
                      doc_created_at := "2025-01-01T00:00:00+00:00" |} ];
     trace := [] |}.

(** Everything works. *)
Definition healthy : Env :=
  scripted (Ok 1%nat) (Ok one_hit) (Ok reply) None None.

(** The history append fails in the driver. *)
Definition append_fails : Env :=
  scripted (Ok 1%nat) (Ok one_hit) (Ok reply) None (Some ConnectionFailure).

(** The request is cancelled while the provider call is awaited. *)
Definition cancelled : Env :=
  scripted (Ok 1%nat) (Ok one_hit) (Raise CancelledError) None None.

(** The provider fails. *)
Definition ProviderError : PyExc := ExceptionOf "openai.APIConnectionError".

Definition generation_fails : Env :=
  scripted (Ok 1%nat) (Ok one_hit) (Raise ProviderError) None None.

(** Nothing has been ingested yet. *)
Definition empty_store : Env :=
  scripted (Ok 0%nat) (Ok one_hit) (Ok reply) None None.

(** ChromaDB fails on [count()]. *)
Definition guard_fails : Env :=
  scripted (Raise (ExceptionOf "chromadb.errors.InternalError"))
           (Ok one_hit) (Ok reply) None None.

(** Three chunks stored, the two nearest asked for. *)
Definition three_chunks : Env :=
  scripted (Ok 3%nat) (Ok two_hits) (Ok reply) None None.

(** An image hit without image path. *)
Definition bare_image : SearchResult :=
  {| sr_content := "diagram"; sr_score := (9 # 10)%Q;
     sr_metadata := bare_image_meta; sr_content_type := IMAGE |}.

(** A text hit with its origin file. *)
Definition text_hit : SearchResult :=
  {| sr_content := "VPN"; sr_score := (8 # 10)%Q;
     sr_metadata := text_meta; sr_content_type := TEXT |}.

(** An image hit with its path. *)
Definition image_hit : SearchResult :=
  {| sr_content := "screenshot"; sr_score := (7 # 10)%Q;
     sr_metadata := {[ "image_path" := VStr "img/vpn.png";
                       "source_file" := VStr "vpn.png";
                       "content_type" := VStr "image" ]};
     sr_content_type := IMAGE |}.

End Scenario.

(* ===================================================================== *)
(** ** More about the transcript of one [answer] call *)
(* ===================================================================== *)

Section Origins.
Context `{FloatOps} (env : Env).

(** Where a provider call or a history append of
    [answer(question, session_id)] comes from: the prompt is the one
    [_build_prompt] assembles for the question and the outcome is the
    provider's; the append is for the session and the question of the
    call. *)
Definition from_answer (question session_id : string) (ev : Event) : Prop :=
  match ev with
  | EvChatCompletion messages o =>
      (∃ results history,
         messages = ChatService._build_prompt question results history)
      ∧ ∃ tr, o = llm_chat_completion env tr messages
  | EvUpdateOne s m f => s = session_id ∧ cm_question m = question
  | _ => True
  end.

(** Provider calls of a transcript. *)
Definition is_provider_event (ev : Event) : bool :=
  match ev with
  | EvChatCompletion _ _ => true
  | _ => false
  end.

(** [update_one] entries of a transcript. *)
Definition is_update_event (ev : Event) : bool :=
  match ev with
  | EvUpdateOne _ _ _ => true
  | _ => false
  end.

(** The documents of the other sessions, in collection order. *)
Definition other_sessions (session_id : string) (docs : list SessionDoc)
  : list SessionDoc :=
  List.filter (λ d, negb (SessionManager.matches session_id d)) docs.

End Origins.

(* ===================================================================== *)
(** ** Reading a whole history back, and listing sessions *)
(* ===================================================================== *)

Section RecordAndList.
Context `{FloatOps} (env : Env).

(** A session is created, the turns are appended to it in order, and the
    whole history is asked for. *)
Definition record_and_read_all
    (turns : list (string * string * list SourceInfo))
  : M (list ChatMessage) :=
  session_id ← SessionManager.create_session env;
  _ ← add_messages env session_id turns;
  SessionManager.get_full_history env session_id.

End RecordAndList.

(** What the listing needs from [len] and slicing on [str]. *)
Record StrLaws `{SessionManager.StrOps} : Prop := {
  str_take_all : ∀ n s,
    (SessionManager.str_len s ≤ n)%nat → SessionManager.str_take n s = s;
  str_len_take : ∀ n s,
    SessionManager.str_len (SessionManager.str_take n s)
    = (n `min` SessionManager.str_len s)%nat;
  str_len_app : ∀ a b,
    SessionManager.str_len (a +:+ b)
    = (SessionManager.str_len a + SessionManager.str_len b)%nat;
  str_len_ellipsis : SessionManager.str_len "..." = 3%nat;
  str_len_new_chat : (SessionManager.str_len SessionManager.NEW_CHAT ≤ 50)%nat
}.

Section Previews.
Context `{FloatOps} `{SessionManager.StrOps}.

(** [s] is the summary of [doc]: its id, creation time and message
    count, and as preview the question of its last message, whole when
    it has at most 50 characters and cut to 50 characters plus ["..."]
    otherwise; a session without messages shows the placeholder. *)
Definition summarises (s : SessionManager.SessionSummary)
    (doc : SessionDoc) : Prop :=
  SessionManager.sum_session_id s = doc_session_id doc
  ∧ SessionManager.sum_created_at s = doc_created_at doc
  ∧ SessionManager.sum_message_count s = Z.of_nat (length (doc_messages doc))
  ∧ (SessionManager.str_len (SessionManager.sum_last_message s) ≤ 53)%nat
  ∧ match last (doc_messages doc) with
    | None =>
        SessionManager.sum_last_message s = SessionManager.NEW_CHAT
    | Some m =>
        if decide (SessionManager.str_len (cm_question m) ≤ 50)%nat
        then SessionManager.sum_last_message s = cm_question m
        else SessionManager.sum_last_message s
             = SessionManager.str_take 50 (cm_question m) +:+ "..."
    end.

End Previews.

(* ===================================================================== *)
(** ** [api/routes.py]: the session and chat endpoints *)
(* ===================================================================== *)

Module Routes.

(** [HTTPException(status_code=...)], an [Exception]. *)
Definition HTTPException (status_code : nat) : PyExc :=
  ExceptionOf ("fastapi.HTTPException " +:+ str_of_nat status_code).

Section Routes.
Context `{FloatOps} (env : Env) (config : AppConfig).

(** [SessionHistoryResponse]; the messages are kept in their validated
    form, as in [SessionDoc]. *)
Record SessionHistoryResponse := {
  shr_session_id : string;
  shr_messages : list ChatMessage
}.

Record DeleteSessionResponse := {
  dsr_success : bool;
  dsr_message : string
}.

(** [POST /api/chat]. *)
Definition chat (question session_id : string) : M ChatResponse :=
  ChatService.answer env config question session_id.

(** [POST /api/session]; the response holds the session id only. *)
Definition create_session : M string :=
  session_id ← SessionManager.create_session env;
  mret session_id.

(** [GET /api/sessions/{session_id}]. *)
Definition get_session_history (session_id : string)
  : M SessionHistoryResponse :=
  messages ← SessionManager.get_full_history env session_id;
  _ ← match messages with
      | [] =>
          doc ← SessionManager.find_one env session_id;
          match doc with
          | None => lift (Raise (HTTPException 404))
          | Some _ => mret ()
          end
      | _ :: _ => mret ()
      end;
  mret {| shr_session_id := session_id; shr_messages := messages |}.

(** [DELETE /api/sessions/{session_id}]. *)
Definition delete_session (session_id : string)
  : M DeleteSessionResponse :=
  success ← SessionManager.delete_session env session_id;
  if (success : bool)
  then mret {| dsr_success := true;
               dsr_message := "セッションを削除しました" |}
  else lift (Raise (HTTPException 404)).

(** A client creates a session and opens it. *)
Definition create_then_open : M SessionHistoryResponse :=
  session_id ← create_session;
  get_session_history session_id.

(** A client deletes a session and opens it again. *)
Definition delete_then_open (session_id : string)
  : M SessionHistoryResponse :=
  _ ← delete_session session_id;
  get_session_history session_id.

End Routes.
End Routes.

(* ===================================================================== *)
(** ** [llm/factory.py], [llm/openai_client.py], [llm/vertexai_client.py] *)
(* ===================================================================== *)

Module LLM.

Definition NotImplementedError : PyExc := ExceptionOf "NotImplementedError".

(** The two clients of the repository. *)
Inductive LLMClient :=
| OpenAIClient
| VertexAIClient.

(** [c.lower()] for one character of the ASCII range. *)
Definition ascii_lower (c : ascii) : ascii :=
  let n := nat_of_ascii c in
  if ((65 <=? n) && (n <=? 90))%nat then ascii_of_nat (n + 32) else c.

(** [s.lower()], on the ASCII letters of [s].  The names compared with
    below ("openai", "vertexai") hold no letter that a character
    outside ASCII lowers to, so the comparisons come out as in Python. *)
Fixpoint lower (s : string) : string :=
  match s with
  | EmptyString => EmptyString
  | String c s' => String (ascii_lower c) (lower s')
  end.

Definition create_llm_client (llm_provider : string) : Outcome LLMClient :=
  let provider := lower llm_provider in
  if String.eqb provider "openai" then Ok OpenAIClient
  else if String.eqb provider "vertexai" then Ok VertexAIClient
  else Raise ValueError.

Section Clients.
Context `{FloatOps}.

(** What [self._client.chat.completions.create] returns, as far as
    [chat_completion] reads it: the [message.content] of every choice,
    the model name and the three token counts of [usage], if any. *)
Record ChatCompletion := {
  cc_choices : list (option string);
  cc_model : string;
  cc_usage : option (Z * Z * Z)
}.

(** [OpenAIClient.chat_completion], after the awaited API call. *)
Definition openai_chat_completion (response : Outcome ChatCompletion)
  : Outcome LLMResponse :=
  response ← response;
  match cc_choices response with
  | [] => Raise IndexError
  | content :: _ =>
      mret {| llm_content := default "" content;
              llm_model := cc_model response;
              llm_usage :=
                match cc_usage response with
                | Some (prompt_tokens, completion_tokens, total_tokens) =>
                    {[ "prompt_tokens" := VInt prompt_tokens;
                       "completion_tokens" := VInt completion_tokens;
                       "total_tokens" := VInt total_tokens ]}
                | None => ∅
                end |}
  end.

(** [VertexAIClient.chat_completion]. *)
Definition vertexai_chat_completion (messages : list Message)
  : Outcome LLMResponse :=
  Raise NotImplementedError.

(** The provider behind [self._llm.chat_completion] for a client, given
    what the OpenAI API answers. *)
Definition client_chat_completion (client : LLMClient)
    (api : list Event → list Message → Outcome ChatCompletion)
  : list Event → list Message → Outcome LLMResponse :=
  match client with
  | OpenAIClient => λ tr messages, openai_chat_completion (api tr messages)
  | VertexAIClient => λ _ messages, vertexai_chat_completion messages
  end.

(** The back ends of [env] with the provider of [client]. *)
Definition with_client (env : Env) (client : LLMClient)
    (api : list Event → list Message → Outcome ChatCompletion) : Env :=
  {| chroma_count := chroma_count env;
     chroma_query := chroma_query env;
     llm_chat_completion := client_chat_completion client api;
     mongo_fault := mongo_fault env;
     utc_now_isoformat := utc_now_isoformat env;
     uuid4 := uuid4 env |}.

End Clients.
End LLM.

(* ===================================================================== *)
(** ** Ingestion: [models.py], [etl/excel_reader.py],
       [etl/image_processor.py], [etl/pipeline.py] and the write side of
       [store/vector_store.py] *)
(* ===================================================================== *)

(** [str(i)] for an [int]. *)
Definition str_of_Z (z : Z) : string :=
  if z <? 0 then "-" +:+ str_of_nat (Z.to_nat (- z))
  else str_of_nat (Z.to_nat z).

(** A [pathlib.Path], by what the code reads of it: [str(p)], [p.name]
    and [p.suffix]. *)
Record Path := {
  path_str : string;
  path_name : string;
  path_suffix : string
}.

(** A cell value of a worksheet row ([values_only=True]): [None], a
    [str], an [int], a [bool], or a value of another type (a [float], a
    [datetime], ...) given by its [bool(v)], [str(v)] and [int(v)]. *)
Inductive Cell :=
| CellNone
| CellStr (s : string)
| CellInt (z : Z)
| CellBool (b : bool)
| CellOther (truthy : bool) (text : string) (as_int : Outcome Z).

(** [bool(v)]. *)
Definition cell_truthy (v : Cell) : bool :=
  match v with
  | CellNone => false
  | CellStr s => negb (String.eqb s "")
  | CellInt z => negb (z =? 0)
  | CellBool b => b
  | CellOther truthy _ _ => truthy
  end.

(** [str(v or "")]. *)
Definition cell_str_or_empty (v : Cell) : string :=
  if cell_truthy v then
    match v with
    | CellNone => "None"
    | CellStr s => s
    | CellInt z => str_of_Z z
    | CellBool b => if b then "True" else "False"
    | CellOther _ text _ => text
    end
  else "".

(** One sheet as [read_faq_excel] walks it: its name, the rows that
    [ws.iter_rows(min_row=2, values_only=True)] yields, and the
    exception that ends the iteration, if any: [AttributeError] before
    any row for a chartsheet, which has no [iter_rows]; an error of the
    lazy reader after the rows read so far. *)
Record Sheet := {
  ws_name : string;
  ws_rows : list (list Cell);
  ws_error : option PyExc
}.

(** A workbook that opened: its sheets in the order of [wb.sheetnames],
    and the exception that [wb.close()] raises, if any. *)
Record Workbook := {
  wb_sheets : list Sheet;
  wb_close : option PyExc
}.

Record FAQEntry := {
  fe_no : Z;
  fe_status : string;
  fe_parent_category : string;
  fe_child_category : string;
  fe_title : string;
  fe_body : string;
  fe_source_file : string;
  fe_sheet_name : string;
  fe_row_number : Z
}.

Record ChunkMetadata := {
  cmeta_source_file : string;
  cmeta_sheet_name : string;
  cmeta_row_number : Z;
  cmeta_parent_category : string;
  cmeta_child_category : string;
  cmeta_title : string;
  cmeta_content_type : ContentType
}.

Record Chunk := {
  chunk_id : string;
  chunk_text : string;
  chunk_metadata : ChunkMetadata
}.

Record ImageMetadata := {
  imeta_image_path : string;
  imeta_source_file : string;
  imeta_content_type : ContentType
}.

Record ImageDocument := {
  image_doc_id : string;
  image_description : string;
  image_metadata : ImageMetadata
}.

Record IngestResult := {
  total_processed : Z;
  error_count : Z;
  details : string
}.

(** The two directories of [AppConfig] that ingestion reads. *)
Record IngestConfig := {
  faq_data_dir : Path;
  image_data_dir : Path
}.

Definition FileNotFoundError : PyExc := ExceptionOf "FileNotFoundError".

(** [except FileNotFoundError]. *)
Definition is_FileNotFoundError (e : PyExc) : bool :=
  match e with
  | ExceptionOf cls => String.eqb cls "FileNotFoundError"
  | BaseExceptionOf _ => false
  end.

(** [except (ValueError, TypeError)]. *)
Definition is_ValueError_or_TypeError (e : PyExc) : bool :=
  match e with
  | ExceptionOf cls =>
      String.eqb cls "ValueError" || String.eqb cls "TypeError"
  | BaseExceptionOf _ => false
  end.

Section IngestModel.
Context `{FloatOps}.

(** The arguments of one [collection.add(ids=, documents=, metadatas=)]. *)
Record AddRequest := {
  add_ids : list string;
  add_documents : list string;
  add_metadatas : list (gmap string PyVal)
}.

(** The state that ingestion works on: the [add] requests that ChromaDB
    has accepted, oldest first, and the number of calls made so far to
    the outside (the provider, ChromaDB, the workbook loader, the uuid
    generator). *)
Record Store := {
  added : list AddRequest;
  calls : nat
}.

(** The outside of ingestion.  The file system is read as it is when
    the call starts, and each of its four probes ([p.exists()],
    [p.is_file()], [sorted(p.iterdir())], [list(p.glob("*.xlsx"))]) may
    raise, as they do on a path that is no directory or may not be
    read; the other answers depend on the rank of the call. *)
Record Backends := {
  path_exists : Path → Outcome bool;
  path_is_file : Path → Outcome bool;
  sorted_iterdir : Path → Outcome (list Path);
  glob_xlsx : Path → Outcome (list Path);
  load_workbook : nat → Path → Outcome Workbook;
  describe_image : nat → Path → Outcome string;
  collection_add_fault : nat → AddRequest → option PyExc;
  uuid4_nth : nat → string;
  int_of_str : string → option Z;
  exc_str : PyExc → string
}.

Definition I (A : Type) : Type := Store → Outcome A * Store.

#[global] Instance I_ret : MRet I := λ A a s, (Ok a, s).
#[global] Instance I_bind : MBind I := λ A B f m s,
  match m s with
  | (Ok a, s') => f a s'
  | (Raise e, s') => (Raise e, s')
  end.

Definition raise {A} (e : PyExc) : I A := λ s, (Raise e, s).

(** A computation that leaves the state alone. *)
Definition pure_call {A} (o : Outcome A) : I A := λ s, (o, s).

Definition tick (s : Store) : Store :=
  {| added := added s; calls := S (calls s) |}.

(** The number of documents that ChromaDB has accepted. *)
Definition stored_count (s : Store) : Z :=
  Z.of_nat (sum_list_with (λ request, length (add_ids request)) (added s)).

End IngestModel.

(* --------------------------------------------------------------------- *)
(** *** [VectorStore.add_chunks], [VectorStore.add_image_documents] *)

Module VectorStoreWrite.
Section VectorStoreWrite.
Context `{FloatOps} (backends : Backends).

(** [self._collection.add(...)]. *)
Definition collection_add (request : AddRequest) : I unit := λ s,
  match collection_add_fault backends (calls s) request with
  | Some e => (Raise e, tick s)
  | None => (Ok (), {| added := added s ++ [request];
                       calls := S (calls s) |})
  end.

(** The metadata dict that [add_chunks] builds for a chunk. *)
Definition chunk_metadata_dict (c : Chunk) : gmap string PyVal :=
  {[ "source_file" := VStr (cmeta_source_file (chunk_metadata c));
     "sheet_name" := VStr (cmeta_sheet_name (chunk_metadata c));
     "row_number" := VInt (cmeta_row_number (chunk_metadata c));
     "parent_category" := VStr (cmeta_parent_category (chunk_metadata c));
     "child_category" := VStr (cmeta_child_category (chunk_metadata c));
     "title" := VStr (cmeta_title (chunk_metadata c));
     "content_type" :=
       VStr (ContentType_value (cmeta_content_type (chunk_metadata c))) ]}.

(** The metadata dict that [add_image_documents] builds for a document. *)
Definition image_metadata_dict (d : ImageDocument) : gmap string PyVal :=
  {[ "image_path" := VStr (imeta_image_path (image_metadata d));
     "source_file" := VStr (imeta_source_file (image_metadata d));
     "description" := VStr (image_description d);
     "content_type" :=
       VStr (ContentType_value (imeta_content_type (image_metadata d))) ]}.

Definition add_chunks (chunks : list Chunk) : I unit :=
  match chunks with
  | [] => mret ()
  | _ :: _ =>
      collection_add
        {| add_ids := chunk_id <$> chunks;
           add_documents := chunk_text <$> chunks;
           add_metadatas := chunk_metadata_dict <$> chunks |}
  end.

Definition add_image_documents (docs : list ImageDocument) : I unit :=
  match docs with
  | [] => mret ()
  | _ :: _ =>
      collection_add
        {| add_ids := image_doc_id <$> docs;
           add_documents := image_description <$> docs;
           add_metadatas := image_metadata_dict <$> docs |}
  end.

End VectorStoreWrite.
End VectorStoreWrite.

(* --------------------------------------------------------------------- *)
(** *** [ExcelReader] *)

Module ExcelReader.

Definition COL_NO : nat := 0.
Definition COL_STATUS : nat := 1.
Definition COL_PARENT_CATEGORY : nat := 2.
Definition COL_CHILD_CATEGORY : nat := 3.
Definition COL_TITLE : nat := 4.
Definition COL_BODY : nat := 5.

Definition PUBLISH_STATUS : string := "公開".

Section ExcelReader.
Context `{FloatOps} (backends : Backends).

(** [row[i]]. *)
Definition row_get (row : list Cell) (i : nat) : Outcome Cell :=
  match row !! i with
  | Some v => Ok v
  | None => Raise IndexError
  end.

(** [int(v)]. *)
Definition cell_int (v : Cell) : Outcome Z :=
  match v with
  | CellNone => Raise TypeError
  | CellStr s =>
      match int_of_str backends s with
      | Some z => Ok z
      | None => Raise ValueError
      end
  | CellInt z => Ok z
  | CellBool b => Ok (if b then 1 else 0)
  | CellOther _ _ as_int => as_int
  end.

(** The body of the loop over the rows of a sheet: [None] when the row
    is skipped, the entry otherwise. *)
Definition read_row (file_path : Path) (sheet_name : string)
    (row_idx : nat) (row : list Cell) : Outcome (option FAQEntry) :=
  no_cell ← row_get row COL_NO;
  match no_cell with
  | CellNone => mret None
  | _ =>
      no_val ←
        match cell_int no_cell with
        | Ok z => Ok z
        | Raise e =>
            if is_ValueError_or_TypeError e
            then Ok (Z.of_nat row_idx - 1)
            else Raise e
        end;
      status ← row_get row COL_STATUS;
      parent_category ← row_get row COL_PARENT_CATEGORY;
      child_category ← row_get row COL_CHILD_CATEGORY;
      title ← row_get row COL_TITLE;
      body ← row_get row COL_BODY;
      mret (Some {| fe_no := no_val;
                    fe_status := cell_str_or_empty status;
                    fe_parent_category := cell_str_or_empty parent_category;
                    fe_child_category := cell_str_or_empty child_category;
                    fe_title := cell_str_or_empty title;
                    fe_body := cell_str_or_empty body;
                    fe_source_file := path_name file_path;
                    fe_sheet_name := sheet_name;
                    fe_row_number := Z.of_nat row_idx |})
  end.

(** [for row_idx, row in enumerate(rows, start=...)], appending to
    [entries]. *)
Fixpoint read_rows (file_path : Path) (sheet_name : string)
    (rows : list (nat * list Cell)) (entries : list FAQEntry)
  : Outcome (list FAQEntry) :=
  match rows with
  | [] => Ok entries
  | (row_idx, row) :: rest =>
      entry ← read_row file_path sheet_name row_idx row;
      read_rows file_path sheet_name rest
        (match entry with
         | Some e => entries ++ [e]
         | None => entries
         end)
  end.

(** [for sheet_name in wb.sheetnames]: the rows that the sheet yields
    are read, then the iteration ends, with its exception if it has
    one. *)
Fixpoint read_sheets (file_path : Path) (sheets : list Sheet)
    (entries : list FAQEntry) : Outcome (list FAQEntry) :=
  match sheets with
  | [] => Ok entries
  | ws :: rest =>
      entries ←
        read_rows file_path (ws_name ws) (enumerate 2 (ws_rows ws)) entries;
      match ws_error ws with
      | Some e => Raise e
      | None => read_sheets file_path rest entries
      end
  end.

(** [openpyxl.load_workbook(file_path, read_only=True, data_only=True)]. *)
Definition open_workbook (file_path : Path) : I Workbook := λ s,
  (load_workbook backends (calls s) file_path, tick s).

Definition read_faq_excel (file_path : Path) : I (list FAQEntry) :=
  found ← pure_call (path_exists backends file_path);
  if negb found then raise FileNotFoundError
  else
    wb ← open_workbook file_path;
    entries ← pure_call (read_sheets file_path (wb_sheets wb) []);
    match wb_close wb with
    | Some e => raise e
    | None => mret entries
    end.

Definition filter_published (entries : list FAQEntry) : list FAQEntry :=
  List.filter (λ e, String.eqb (fe_status e) PUBLISH_STATUS) entries.

(** [str(uuid.uuid4())]. *)
Definition new_uuid : I string := λ s,
  (Ok (uuid4_nth backends (calls s)), tick s).

Definition faq_entry_to_chunk (entry : FAQEntry) : I Chunk :=
  chunk_id ← new_uuid;
  mret {| chunk_id := chunk_id;
          chunk_text := fe_title entry +:+ LF +:+ fe_body entry;
          chunk_metadata :=
            {| cmeta_source_file := fe_source_file entry;
               cmeta_sheet_name := fe_sheet_name entry;
               cmeta_row_number := fe_row_number entry;
               cmeta_parent_category := fe_parent_category entry;
               cmeta_child_category := fe_child_category entry;
               cmeta_title := fe_title entry;
               cmeta_content_type := TEXT |} |}.

End ExcelReader.
End ExcelReader.

(* --------------------------------------------------------------------- *)
(** *** [ImageProcessor] *)

Module ImageProcessor.

Definition SUPPORTED_EXTENSIONS : list string := [".png"; ".jpg"; ".jpeg"].

(** [suffix.lower() in SUPPORTED_EXTENSIONS]; the three extensions hold
    no letter that a character outside ASCII lowers to. *)
Definition supported (p : Path) : bool :=
  existsb (String.eqb (LLM.lower (path_suffix p))) SUPPORTED_EXTENSIONS.

Section ImageProcessor.
Context `{FloatOps} (backends : Backends).

(** [self._llm_client.describe_image(image_path)]. *)
Definition llm_describe_image (image_path : Path) : I string := λ s,
  (describe_image backends (calls s) image_path, tick s).

Definition process_image (image_path : Path) : I ImageDocument :=
  found ← pure_call (path_exists backends image_path);
  if negb found then raise FileNotFoundError
  else if negb (supported image_path) then raise ValueError
  else
    description ← llm_describe_image image_path;
    doc_id ← ExcelReader.new_uuid backends;
    mret {| image_doc_id := doc_id;
            image_description := description;
            image_metadata :=
              {| imeta_image_path := path_str image_path;
                 imeta_source_file := path_name image_path;
                 imeta_content_type := IMAGE |} |}.

(** [[p for p in paths
        if p.is_file() and p.suffix.lower() in SUPPORTED_EXTENSIONS]]. *)
Fixpoint keep_images (paths : list Path) : Outcome (list Path) :=
  match paths with
  | [] => Ok []
  | p :: rest =>
      is_file ← path_is_file backends p;
      kept ← keep_images rest;
      mret (if is_file && supported p then p :: kept else kept)
  end.

Definition list_images (directory : Path) : Outcome (list Path) :=
  found ← path_exists backends directory;
  if negb found then Ok []
  else
    paths ← sorted_iterdir backends directory;
    keep_images paths.

End ImageProcessor.
End ImageProcessor.

(* --------------------------------------------------------------------- *)
(** *** [ETLPipeline] *)

Module ETLPipeline.
Section ETLPipeline.
Context `{FloatOps} (backends : Backends) (config : IngestConfig).

(** [[faq_entry_to_chunk(e) for e in published]]. *)
Fixpoint entries_to_chunks (published : list FAQEntry) : I (list Chunk) :=
  match published with
  | [] => mret []
  | e :: rest =>
      c ← ExcelReader.faq_entry_to_chunk backends e;
      cs ← entries_to_chunks rest;
      mret (c :: cs)
  end.

(** The statements of [ingest_excel] inside [try:], with the [return]
    that follows it. *)
Definition ingest_excel_try (file_path : Path) : I IngestResult :=
  entries ← ExcelReader.read_faq_excel backends file_path;
  let published := ExcelReader.filter_published entries in
  chunks ← entries_to_chunks published;
  match chunks with
  | [] =>
      mret {| total_processed := 0; error_count := 0;
              details := path_name file_path +:+ ": 公開エントリなし" |}
  | _ :: _ =>
      _ ← VectorStoreWrite.add_chunks backends chunks;
      let processed := Z.of_nat (length chunks) in
      mret {| total_processed := processed; error_count := 0;
              details := path_name file_path +:+ ": " +:+ str_of_Z processed
                         +:+ "件のチャンクを取り込み" |}
  end.

Definition ingest_excel (file_path : Path) : I IngestResult := λ s,
  match ingest_excel_try file_path s with
  | (Ok result, s') => (Ok result, s')
  | (Raise e, s') =>
      if is_FileNotFoundError e then
        (Ok {| total_processed := 0; error_count := 1;
               details := exc_str backends e |}, s')
      else if is_Exception e then
        (Ok {| total_processed := 0; error_count := 1;
               details := path_name file_path +:+ ": 取り込みエラー: "
                          +:+ exc_str backends e |}, s')
      else (Raise e, s')
  end.

(** The body of the loop of [ingest_images] for one image, on the two
    counters. *)
Definition ingest_image (image_path : Path) (counters : Z * Z)
  : I (Z * Z) := λ s,
  let '(processed, errors) := counters in
  match (doc ← ImageProcessor.process_image backends image_path;
         VectorStoreWrite.add_image_documents backends [doc]) s with
  | (Ok _, s') => (Ok (processed + 1, errors), s')
  | (Raise e, s') =>
      if is_Exception e then (Ok (processed, errors + 1), s')
      else (Raise e, s')
  end.

Fixpoint ingest_images_loop (image_paths : list Path) (counters : Z * Z)
  : I (Z * Z) :=
  match image_paths with
  | [] => mret counters
  | image_path :: rest =>
      counters ← ingest_image image_path counters;
      ingest_images_loop rest counters
  end.

Definition ingest_images (directory : Path) : I IngestResult :=
  image_paths ← pure_call (ImageProcessor.list_images backends directory);
  match image_paths with
  | [] =>
      mret {| total_processed := 0; error_count := 0;
              details := "対象画像ファイルが見つかりません: "
                         +:+ path_str directory |}
  | _ :: _ =>
      counters ← ingest_images_loop image_paths (0, 0);
      mret {| total_processed := counters.1; error_count := counters.2;
              details := "画像: " +:+ str_of_Z counters.1
                         +:+ "件取り込み, " +:+ str_of_Z counters.2
                         +:+ "件エラー" |}
  end.

(** The loop of [ingest_all] over the workbooks, on the two totals and
    the list of detail texts. *)
Fixpoint ingest_excel_files (xlsx_files : list Path)
    (acc : Z * Z * list string) : I (Z * Z * list string) :=
  match xlsx_files with
  | [] => mret acc
  | xlsx_path :: rest =>
      result ← ingest_excel xlsx_path;
      ingest_excel_files rest
        (acc.1.1 + total_processed result,
         acc.1.2 + error_count result,
         acc.2 ++ [details result])
  end.

(** [list(faq_dir.glob("*.xlsx")) if faq_dir.exists() else []]. *)
Definition find_xlsx_files (faq_dir : Path) : Outcome (list Path) :=
  found ← path_exists backends faq_dir;
  if found : bool then glob_xlsx backends faq_dir else Ok [].

Definition ingest_all : I IngestResult :=
  let faq_dir := faq_data_dir config in
  xlsx_files ← pure_call (find_xlsx_files faq_dir);
  acc ←
    match xlsx_files with
    | [] =>
        mret (0, 0, ["対象Excelファイルが見つかりません: "
                     +:+ path_str faq_dir])
    | _ :: _ => ingest_excel_files xlsx_files (0, 0, [])
    end;
  img_result ← ingest_images (image_data_dir config);
  mret {| total_processed := acc.1.1 + total_processed img_result;
          error_count := acc.1.2 + error_count img_result;
          details := String.concat "; " (acc.2 ++ [details img_result]) |}.

End ETLPipeline.
End ETLPipeline.

(* --------------------------------------------------------------------- *)
(** *** What ingestion is checked against *)

Section IngestSpec.
Context `{FloatOps} (backends : Backends).

(** A stored document comes back from [search] as a result with the
    text and content kind it was stored with, and is cited with the
    file name and image path given. *)
Definition retrievable_as (document : string) (meta : gmap string PyVal)
    (kind : ContentType) (source_file : string) (image_path : option string)
  : Prop :=
  ∀ dist, ∃ r s,
    VectorStore.make_result (Some document) (Some meta) dist = Ok r
    ∧ sr_content r = document
    ∧ sr_content_type r = kind
    ∧ sr_score r = f_sub f_one dist
    ∧ ChatService.make_source r = Ok s
    ∧ si_content s = document
    ∧ si_content_type s = kind
    ∧ si_source_file s = source_file
    ∧ si_image_path s = image_path.

(** The rows of a workbook with their sheet name and spreadsheet row
    number (the header is row 1), in reading order. *)
Definition numbered_rows (wb : Workbook)
  : list (string * nat * list Cell) :=
  wb_sheets wb ≫= λ ws,
    (λ ir : nat * list Cell, (ws_name ws, ir.1, ir.2))
      <$> enumerate 2 (ws_rows ws).

(** Every sheet is iterated to its end, and the workbook closes. *)
Definition reads_to_the_end (wb : Workbook) : Prop :=
  Forall (λ ws, ws_error ws = None) (wb_sheets wb) ∧ wb_close wb = None.

(** A row whose first cell is not empty. *)
Definition non_blank (row : string * nat * list Cell) : bool :=
  match row.2 !! 0%nat with
  | Some CellNone => false
  | _ => true
  end.

(** [e] is the entry read from the row [row] of [file_path]: the row
    has its six cells, its number is the [int] of the first cell, or the
    row number less one when that is no number, and the texts are the
    [str] of the cells, empty for a cell that is empty, zero or
    false. *)
Definition entry_of_row (file_path : Path) (e : FAQEntry)
    (row : string * nat * list Cell) : Prop :=
  ∃ c0 c1 c2 c3 c4 c5 rest,
    row.2 = c0 :: c1 :: c2 :: c3 :: c4 :: c5 :: rest
    ∧ c0 ≠ CellNone
    ∧ fe_no e = match ExcelReader.cell_int backends c0 with
                | Ok z => z
                | Raise _ => Z.of_nat row.1.2 - 1
                end
    ∧ fe_status e = cell_str_or_empty c1
    ∧ fe_parent_category e = cell_str_or_empty c2
    ∧ fe_child_category e = cell_str_or_empty c3
    ∧ fe_title e = cell_str_or_empty c4
    ∧ fe_body e = cell_str_or_empty c5
    ∧ fe_source_file e = path_name file_path
    ∧ fe_sheet_name e = row.1.1
    ∧ fe_row_number e = Z.of_nat row.1.2.

(** A row that [read_faq_excel] gets through: empty first cell, or six
    cells and a first cell whose [int] returns or raises [ValueError] or
    [TypeError]. *)
Definition readable (row : string * nat * list Cell) : Prop :=
  match row.2 with
  | [] => False
  | CellNone :: _ => True
  | c0 :: rest =>
      (5 ≤ length rest)%nat
      ∧ match ExcelReader.cell_int backends c0 with
        | Ok _ => True
        | Raise e => is_ValueError_or_TypeError e = true
        end
  end.

(** [c] is the chunk made of the entry [e]. *)
Definition chunk_of_entry (c : Chunk) (e : FAQEntry) : Prop :=
  chunk_text c = fe_title e +:+ LF +:+ fe_body e
  ∧ chunk_metadata c
    = {| cmeta_source_file := fe_source_file e;
         cmeta_sheet_name := fe_sheet_name e;
         cmeta_row_number := fe_row_number e;
         cmeta_parent_category := fe_parent_category e;
         cmeta_child_category := fe_child_category e;
         cmeta_title := fe_title e;
         cmeta_content_type := TEXT |}.

(** A request that stores, under its path, the description that the
    provider gave of one image of [images]. *)
Definition stores_one_image (images : list Path) (request : AddRequest)
  : Prop :=
  ∃ image_path doc_id description n,
    image_path ∈ images
    ∧ describe_image backends n image_path = Ok description
    ∧ add_ids request = [doc_id]
    ∧ add_documents request = [description]
    ∧ add_metadatas request
      = [VectorStoreWrite.image_metadata_dict
           {| image_doc_id := doc_id;
              image_description := description;
              image_metadata :=
                {| imeta_image_path := path_str image_path;
                   imeta_source_file := path_name image_path;
                   imeta_content_type := IMAGE |} |}].

End IngestSpec.

(* ===================================================================== *)
(** ** Concrete sessions, clients and files *)
(* ===================================================================== *)

Module Desk.

(** Two sessions: one with two turns, one freshly created. *)
Definition talked : World :=
  {| sessions :=
       [ {| doc_session_id := "s1";
            doc_messages := [Scenario.turn "q1" "a1"; Scenario.turn "q2" "a2"];
            doc_created_at := "2025-01-01T00:00:00+00:00" |};
         {| doc_session_id := "s2";
            doc_messages := [];
            doc_created_at := "2025-01-02T00:00:00+00:00" |} ];
     trace := [] |}.

Definition nothing_yet : World := {| sessions := []; trace := [] |}.

Definition two_turns : list (string * string * list SourceInfo) :=
  [("q1", "a1", []); ("q2", "a2", [])].

(** The OpenAI API answering with one choice and no usage record. *)
Definition one_choice
  : list Event → list Message → Outcome LLM.ChatCompletion :=
  λ _ _, Ok {| LLM.cc_choices := [Some "generated"];
               LLM.cc_model := "gpt-4o";
               LLM.cc_usage := None |}.

Definition faq_dir : Path :=
  {| path_str := "data/faq"; path_name := "faq"; path_suffix := "" |}.

Definition image_dir : Path :=
  {| path_str := "data/images"; path_name := "images"; path_suffix := "" |}.

Definition faq_file : Path :=
  {| path_str := "data/faq/faq.xlsx";
     path_name := "faq.xlsx";
     path_suffix := ".xlsx" |}.

Definition vpn_image : Path :=
  {| path_str := "data/images/vpn.PNG";
     path_name := "vpn.PNG";
     path_suffix := ".PNG" |}.

Definition notes_file : Path :=
  {| path_str := "data/images/notes.txt";
     path_name := "notes.txt";
     path_suffix := ".txt" |}.

(** One sheet: a published row, a row without number, a draft whose
    number is no number. *)
Definition faq_sheet : Sheet :=
  {| ws_name := "FAQ";
     ws_rows :=
       [ [CellInt 1; CellStr "公開"; CellStr "IT"; CellStr "VPN";
          CellStr "VPN"; CellStr "restart the client"];
         [CellNone; CellNone; CellNone; CellNone; CellNone; CellNone];
         [CellStr "x"; CellStr "下書き"; CellStr "IT"; CellNone;
          CellStr "Wi-Fi"; CellInt 0] ];
     ws_error := None |}.

Definition workbook : Workbook :=
  {| wb_sheets := [faq_sheet]; wb_close := None |}.

(** A chartsheet: it has no [iter_rows]. *)
Definition chart_sheet : Sheet :=
  {| ws_name := "Chart1"; ws_rows := []; ws_error := Some AttributeError |}.

(** The same workbook with a chartsheet after the sheet of entries. *)
Definition workbook_with_chart : Workbook :=
  {| wb_sheets := [faq_sheet; chart_sheet]; wb_close := None |}.

(** What [read_faq_excel] reads from [workbook]. *)
Definition entries : list FAQEntry :=
  [ {| fe_no := 1; fe_status := "公開"; fe_parent_category := "IT";
       fe_child_category := "VPN"; fe_title := "VPN";
       fe_body := "restart the client"; fe_source_file := "faq.xlsx";
       fe_sheet_name := "FAQ"; fe_row_number := 2 |};
    {| fe_no := 3; fe_status := "下書き"; fe_parent_category := "IT";
       fe_child_category := ""; fe_title := "Wi-Fi";
       fe_body := ""; fe_source_file := "faq.xlsx";
       fe_sheet_name := "FAQ"; fe_row_number := 4 |} ].

(** A file system with one workbook and one image, a provider that
    describes images and a store that accepts what it is sent. *)
Definition backends : Backends :=
  {| path_exists := λ _, Ok true;
     path_is_file := λ _, Ok true;
     sorted_iterdir := λ _, Ok [notes_file; vpn_image];
     glob_xlsx := λ _, Ok [faq_file];
     load_workbook := λ _ _, Ok workbook;
     describe_image := λ _ _, Ok "VPN settings screen";
     collection_add_fault := λ _ _, None;
     uuid4_nth := λ n, "id-" +:+ str_of_nat n;
     int_of_str := λ _, None;
     exc_str := λ _, "error" |}.

(** The same with the Vertex AI client behind [describe_image]. *)
Definition vertexai_backends : Backends :=
  {| path_exists := λ _, Ok true;
     path_is_file := λ _, Ok true;
     sorted_iterdir := λ _, Ok [notes_file; vpn_image];
     glob_xlsx := λ _, Ok [faq_file];
     load_workbook := λ _ _, Ok workbook;
     describe_image := λ _ _, Raise LLM.NotImplementedError;
     collection_add_fault := λ _ _, None;
     uuid4_nth := λ n, "id-" +:+ str_of_nat n;
     int_of_str := λ _, None;
     exc_str := λ _, "error" |}.

(** The workbook holds a chartsheet. *)
Definition chart_backends : Backends :=
  {| path_exists := λ _, Ok true;
     path_is_file := λ _, Ok true;
     sorted_iterdir := λ _, Ok [notes_file; vpn_image];
     glob_xlsx := λ _, Ok [faq_file];
     load_workbook := λ _ _, Ok workbook_with_chart;
     describe_image := λ _ _, Ok "VPN settings screen";
     collection_add_fault := λ _ _, None;
     uuid4_nth := λ n, "id-" +:+ str_of_nat n;
     int_of_str := λ _, None;
     exc_str := λ _, "error" |}.

Definition NotADirectoryError : PyExc := ExceptionOf "NotADirectoryError".

(** The image directory of the configuration is a file. *)
Definition no_directory_backends : Backends :=
  {| path_exists := λ _, Ok true;
     path_is_file := λ _, Ok true;
     sorted_iterdir := λ _, Raise NotADirectoryError;
     glob_xlsx := λ _, Ok [faq_file];
     load_workbook := λ _ _, Ok workbook;
     describe_image := λ _ _, Ok "VPN settings screen";
     collection_add_fault := λ _ _, None;
     uuid4_nth := λ n, "id-" +:+ str_of_nat n;
     int_of_str := λ _, None;
     exc_str := λ _, "error" |}.

Definition directories : IngestConfig :=
  {| faq_data_dir := faq_dir; image_data_dir := image_dir |}.

Definition empty : Store := {| added := []; calls := 0 |}.

Definition vpn_chunk : Chunk :=
  {| chunk_id := "id-1";
     chunk_text := "VPN" +:+ LF +:+ "restart the client";
     chunk_metadata :=
       {| cmeta_source_file := "faq.xlsx";
          cmeta_sheet_name := "FAQ";
          cmeta_row_number := 2;
          cmeta_parent_category := "IT";
          cmeta_child_category := "VPN";
          cmeta_title := "VPN";
          cmeta_content_type := TEXT |} |}.

Definition vpn_document : ImageDocument :=
  {| image_doc_id := "id-2";
     image_description := "VPN settings screen";
     image_metadata :=
       {| imeta_image_path := "data/images/vpn.PNG";
          imeta_source_file := "vpn.PNG";
          imeta_content_type := IMAGE |} |}.

End Desk.

(* ===================================================================== *)
(** ** Properties of [ChatService.answer]: the emptiness guard *)
(* ===================================================================== *)

Section AnswerGuard.
Context `{FloatOps} (env : Env) (config : AppConfig).

Lemma is_empty_run (w : World) :
  VectorStore.is_empty env w =
    (b ← chroma_count env (trace w); mret (b =? 0)%nat,
     emit (EvCount (chroma_count env (trace w))) w).
Proof.
  unfold VectorStore.is_empty, VectorStore.collection_count, mbind, M_bind.
  destruct (chroma_count env (trace w)); reflexivity.
Qed.

(** C3: when the vector store reports zero items, [answer] returns the
    fixed "knowledge base not built" text with no sources and the given
    session id; the [count()] of the guard is the only call that left the
    process, so the provider was not invoked and nothing was appended to
    a session history. *)
Theorem answer_empty_store (question session_id : string) (w : World) :
  chroma_count env (trace w) = Ok 0%nat →
  ∃ w',
    ChatService.answer env config question session_id w =
      (Ok {| cr_answer := ChatService.KNOWLEDGE_BASE_NOT_BUILT;
             cr_sources := [];
             cr_session_id := session_id |}, w')
    ∧ ∃ new, trace w' = trace w ++ new
             ∧ ¬ provider_called new
             ∧ ¬ history_append_sent new
             ∧ sessions w' = sessions w.
Proof.
  intros Hcount.
  exists (emit (EvCount (Ok 0%nat)) w).
  split.
  - unfold ChatService.answer, mbind, M_bind.
    rewrite is_empty_run, Hcount. reflexivity.
  - exists [EvCount (Ok 0%nat)]. repeat split.
    + intros (ms & r & Hin). apply list_elem_of_singleton in Hin. discriminate.
    + intros (s & m & f & Hin). apply list_elem_of_singleton in Hin.
      discriminate.
Qed.

(** C10: the emptiness check runs before the [try]; when the [count()]
    behind it raises, whatever the class of the exception, [answer]
    raises it to its caller, without logging and without a degraded
    answer. *)
Theorem answer_guard_raise_propagates (question session_id : string)
    (w : World) (e : PyExc) :
  chroma_count env (trace w) = Raise e →
  ChatService.answer env config question session_id w =
    (Raise e, emit (EvCount (Raise e)) w).
Proof.
  intros Hcount.
  unfold ChatService.answer, mbind, M_bind.
  rewrite is_empty_run, Hcount. reflexivity.
Qed.

End AnswerGuard.

(* ===================================================================== *)
(** ** Every call of [answer] has one of the transcript shapes *)
(* ===================================================================== *)

Section Runs.
Context `{FloatOps} (env : Env) (config : AppConfig).

Lemma search_frame (query_text : string) (k : Z) (w w1 : World)
    (r : Outcome (list SearchResult)) :
  VectorStore.search env query_text k w = (r, w1) →
  sessions w1 = sessions w
  ∧ ∃ evs, trace w1 = trace w ++ evs ∧ Forall quiet evs.
Proof.
  unfold VectorStore.search, VectorStore.collection_count,
    VectorStore.collection_query, lift, mbind, M_bind, mret, M_ret.
  destruct (chroma_count env (trace w)) as [c|e] eqn:Hc; cycle 1.
  { intros [= <- <-]. split; [done|].
    exists [EvCount (Raise e)]. split; [done|]. repeat constructor. }
  destruct (c =? 0)%nat.
  { intros [= <- <-]. split; [done|].
    exists [EvCount (Ok c)]. split; [done|]. repeat constructor. }
  set (w0 := emit (EvCount (Ok c)) w).
  destruct (chroma_query env (trace w0) query_text (Z.min k (Z.of_nat c)))
    as [qr|e] eqn:Hq; cycle 1.
  { intros [= <- <-]. split; [done|].
    exists [EvCount (Ok c); EvQuery query_text (Z.min k (Z.of_nat c)) (Raise e)].
    split; [subst w0; simpl; by rewrite <- app_assoc|]. repeat constructor. }
  intros Hrun.
  assert (w1 = emit (EvQuery query_text (Z.min k (Z.of_nat c)) (Ok qr)) w0) as ->.
  { repeat match type of Hrun with
           | context [VectorStore.first_row ?f] =>
               destruct (VectorStore.first_row f); simpl in Hrun
           end; congruence. }
  split; [done|].
  exists [EvCount (Ok c); EvQuery query_text (Z.min k (Z.of_nat c)) (Ok qr)].
  split; [subst w0; simpl; by rewrite <- app_assoc|]. repeat constructor.
Qed.

Lemma get_recent_history_frame (session_id : string) (n : Z) (w w1 : World)
    (r : Outcome (list ChatMessage)) :
  SessionManager.get_recent_history env session_id n w = (r, w1) →
  w1 = emit (EvFindOne session_id (mongo_fault env (trace w))) w.
Proof.
  unfold SessionManager.get_recent_history, SessionManager.find_one,
    mbind, M_bind, mret, M_ret.
  destruct (mongo_fault env (trace w)); [congruence|].
  destruct (List.find _ _); congruence.
Qed.

Lemma add_message_run (session_id question answer : string)
    (sources : list SourceInfo) (w : World) :
  let m := {| cm_question := question; cm_answer := answer;
              cm_sources := sources;
              cm_timestamp := utc_now_isoformat env (trace w) |} in
  let f := mongo_fault env (trace w) in
  let w' := emit (EvUpdateOne session_id m f) w in
  let applied :=
    {| sessions := SessionManager.push_message session_id m (sessions w);
       trace := trace w' |} in
  SessionManager.add_message env session_id question answer sources w =
    match f with
    | Some flt =>
        (Raise (fault_exc flt), if fault_applied flt then applied else w')
    | None => (Ok (), applied)
    end.
Proof. reflexivity. Qed.

Lemma handler_run (session_id : string) (e : PyExc) (w : World) :
  (if is_Exception e
   then ChatService.answer_except session_id e w
   else (Raise e, w))
  = (degraded session_id e, after_handler e w).
Proof. unfold degraded, after_handler. by destruct (is_Exception e). Qed.

Lemma trace_after_handler (e : PyExc) (w : World) :
  trace (after_handler e w) = trace w ++ logged e.
Proof.
  unfold after_handler, logged.
  destruct (is_Exception e); simpl; [done|by rewrite app_nil_r].
Qed.

Lemma sessions_after_handler (e : PyExc) (w : World) :
  sessions (after_handler e w) = sessions w.
Proof. unfold after_handler. by destruct (is_Exception e). Qed.

(** [answer] always terminates in one of the shapes of [AnswerRun]. *)
Lemma answer_run (question session_id : string) (w : World) :
  ∃ r w' new,
    ChatService.answer env config question session_id w = (r, w')
    ∧ trace w' = trace w ++ new
    ∧ AnswerRun session_id (sessions w) r new (sessions w').
Proof.
  unfold ChatService.answer, mbind at 1, M_bind at 1.
  rewrite is_empty_run.
  destruct (chroma_count env (trace w)) as [c|e]; simpl; cycle 1.
  { eexists _, _, _. split; [done|]. split; [done|]. constructor. }
  destruct (c =? 0)%nat eqn:Hc; simpl.
  { apply Nat.eqb_eq in Hc as ->.
    eexists _, _, _. split; [done|]. split; [done|]. constructor. }
  apply Nat.eqb_neq in Hc.
  unfold try_except_Exception, ChatService.answer_try,
    mbind, M_bind, mret, M_ret.
  (* retrieval *)
  destruct (VectorStore.search env question (top_k config) _)
    as [[results|e] w1] eqn:Hs;
    apply search_frame in Hs as (Hs1 & evs & Ht1 & Hq1);
    simpl in Hs1, Ht1; cycle 1.
  { rewrite handler_run. eexists _, _, (EvCount (Ok c) :: evs ++ logged e).
    split; [done|].
    rewrite trace_after_handler, sessions_after_handler, Ht1, Hs1.
    split; [by rewrite <- !app_assoc|]. by constructor. }
  (* history recall *)
  destruct (SessionManager.get_recent_history env session_id
              (history_limit config) w1) as [[history|e] w2] eqn:Hh;
    apply get_recent_history_frame in Hh;
    set (f := mongo_fault env (trace w1)) in Hh; clearbody f; cycle 1.
  { rewrite handler_run.
    eexists _, _, (EvCount (Ok c) :: (evs ++ [EvFindOne session_id _]) ++ logged e).
    split; [done|].
    rewrite trace_after_handler, sessions_after_handler, Hh. simpl.
    rewrite Ht1, Hs1.
    split; [by rewrite <- !app_assoc|].
    constructor; [done|]. apply Forall_app. split; [done|]. by repeat constructor. }
  set (pre := evs ++ [EvFindOne session_id f]).
  assert (Forall quiet pre) as Hpre.
  { apply Forall_app. split; [done|]. by repeat constructor. }
  assert (trace w2 = trace w ++ EvCount (Ok c) :: pre) as Ht2.
  { rewrite Hh. simpl. rewrite Ht1. simpl. by rewrite <- !app_assoc. }
  assert (sessions w2 = sessions w) as Hs2 by (by rewrite Hh).
  clearbody pre. clear Hh Ht1 Hs1 Hq1 evs w1.
  (* generation *)
  unfold ChatService.chat_completion.
  set (messages := ChatService._build_prompt question results history).
  destruct (llm_chat_completion env (trace w2) messages) as [resp|e]; simpl;
    cycle 1.
  { rewrite handler_run.
    eexists _, _,
      (EvCount (Ok c) :: pre ++ EvChatCompletion messages (Raise e) :: logged e).
    split; [done|].
    rewrite trace_after_handler, sessions_after_handler. simpl.
    rewrite Ht2, Hs2.
    split; [by rewrite <- !app_assoc|]. by constructor. }
  (* citations *)
  unfold lift.
  destruct (ChatService._build_sources results) as [sources|e]; simpl; cycle 1.
  { rewrite handler_run.
    eexists _, _,
      (EvCount (Ok c) :: pre ++ EvChatCompletion messages (Ok resp) :: logged e).
    split; [done|].
    rewrite trace_after_handler, sessions_after_handler. simpl.
    rewrite Ht2, Hs2.
    split; [by rewrite <- !app_assoc|]. by constructor. }
  (* persistence *)
  rewrite add_message_run. simpl.
  set (w3 := emit (EvChatCompletion messages (Ok resp)) w2).
  set (m := {| cm_question := question; cm_answer := llm_content resp;
               cm_sources := sources;
               cm_timestamp := utc_now_isoformat env (trace w2 ++ _) |}).
  destruct (mongo_fault env (trace w2 ++ _)) as [flt|]; simpl.
  - rewrite handler_run.
    eexists _, _,
      (EvCount (Ok c) :: pre ++ EvChatCompletion messages (Ok resp)
         :: EvUpdateOne session_id m (Some flt) :: logged (fault_exc flt)).
    split; [done|].
    rewrite trace_after_handler, sessions_after_handler.
    split.
    + destruct (fault_applied flt); simpl; rewrite Ht2;
        by rewrite <- !app_assoc.
    + replace (sessions (if fault_applied flt then _ else _))
        with (if fault_applied flt
              then SessionManager.push_message session_id m (sessions w)
              else sessions w).
      * by constructor.
      * destruct (fault_applied flt); simpl; by rewrite Hs2.
  - eexists _, _,
      (EvCount (Ok c) :: pre ++ [EvChatCompletion messages (Ok resp);
                                 EvUpdateOne session_id m None]).
    split; [done|]. simpl. rewrite Ht2, Hs2.
    split; [by rewrite <- !app_assoc|].
    by apply (RunSucceeds _ _ c pre messages resp m).
Qed.

End Runs.

(* ===================================================================== *)
(** ** Failure handling of [answer] *)
(* ===================================================================== *)

Section Failures.
Context `{FloatOps} (env : Env) (config : AppConfig).

Lemma answer_run_inv (question session_id : string) (w w' : World)
    (r : Outcome ChatResponse) (new : list Event) :
  ChatService.answer env config question session_id w = (r, w') →
  trace w' = trace w ++ new →
  AnswerRun session_id (sessions w) r new (sessions w').
Proof.
  intros Hrun Htr.
  destruct (answer_run env config question session_id w)
    as (r0 & w0 & new0 & Hrun0 & Htr0 & Hshape).
  rewrite Hrun in Hrun0. injection Hrun0 as <- <-.
  rewrite Htr in Htr0. apply app_inv_head in Htr0 as ->. exact Hshape.
Qed.

Lemma quiet_not_chat (pre : list Event) messages r :
  Forall quiet pre → EvChatCompletion messages r ∉ pre.
Proof.
  intros Hq Hin. rewrite Forall_forall in Hq. exact (Hq _ Hin).
Qed.

Lemma quiet_not_update (pre : list Event) s m f :
  Forall quiet pre → EvUpdateOne s m f ∉ pre.
Proof.
  intros Hq Hin. rewrite Forall_forall in Hq. exact (Hq _ Hin).
Qed.

Lemma logged_only_logs (e : PyExc) (ev : Event) :
  ev ∈ logged e → ev = EvLogException e.
Proof.
  unfold logged. destruct (is_Exception e).
  - by intros ->%list_elem_of_singleton.
  - by intros ?%elem_of_nil.
Qed.

(** Membership of an event in a transcript of [AnswerRun], split into
    the segments of the transcript. *)
Ltac split_membership :=
  repeat match goal with
         | H : _ ∈ _ :: _ |- _ => apply elem_of_cons in H as [H|H]
         | H : _ ∈ _ ++ _ |- _ => apply elem_of_app in H as [H|H]
         | H : _ ∈ [] |- _ => by apply elem_of_nil in H
         | H : _ ∈ logged _ |- _ => apply logged_only_logs in H
         | H : EvChatCompletion _ _ ∈ ?pre, Hq : Forall quiet ?pre |- _ =>
             by apply quiet_not_chat in H
         | H : EvUpdateOne _ _ _ ∈ ?pre, Hq : Forall quiet ?pre |- _ =>
             by apply quiet_not_update in H
         end.

(** C9: in every call of [answer] whose transcript shows a chat
    completion that raised, no history append was sent to MongoDB and the
    [sessions] collection is exactly as it was before the call. *)
Theorem generation_failure_leaves_history (question session_id : string)
    (w w' : World) (r : Outcome ChatResponse) (new : list Event)
    (messages : list Message) (e : PyExc) :
  ChatService.answer env config question session_id w = (r, w') →
  trace w' = trace w ++ new →
  EvChatCompletion messages (Raise e) ∈ new →
  ¬ history_append_sent new ∧ sessions w' = sessions w.
Proof.
  intros Hrun Htr Hin.
  pose proof (answer_run_inv _ _ _ _ _ _ Hrun Htr) as Hshape.
  inversion Hshape; subst; split_membership; try discriminate.
  split; [|done].
  intros (s & m & f & Hup). split_membership; discriminate.
Qed.

(** C1, as the code has it: when the store is not empty and a stage of
    the guarded block raises [e], [answer] returns the fixed failure
    message, no sources and the session id it was given if [e] is an
    instance of [Exception]; any other raised object passes through the
    [except Exception] clause to the caller. *)
Theorem answer_degrades_on_Exception (question session_id : string)
    (w : World) (c : nat) (stage : Stage) (e : PyExc) :
  chroma_count env (trace w) = Ok c →
  c ≠ 0%nat →
  stage_raises env config question session_id (emit (EvCount (Ok c)) w)
    stage e →
  ∃ w',
    ChatService.answer env config question session_id w =
      (if is_Exception e
       then Ok {| cr_answer := ChatService.GENERATION_FAILED;
                  cr_sources := [];
                  cr_session_id := session_id |}
       else Raise e, w').
Proof.
  intros Hcount Hc Hstage.
  apply Nat.eqb_neq in Hc.
  unfold ChatService.answer, mbind at 1, M_bind at 1.
  rewrite is_empty_run, Hcount. simpl. rewrite Hc.
  unfold try_except_Exception, ChatService.answer_try,
    mbind, M_bind, mret, M_ret.
  destruct stage; simpl in Hstage.
  - destruct Hstage as (w1 & ->).
    rewrite handler_run. unfold degraded, failure_response. eauto.
  - destruct Hstage as (results & w1 & w2 & -> & ->).
    rewrite handler_run. unfold degraded, failure_response. eauto.
  - destruct Hstage as (results & w1 & history & w2 & -> & -> & Hllm).
    unfold ChatService.chat_completion. rewrite Hllm.
    rewrite handler_run. unfold degraded, failure_response. eauto.
  - destruct Hstage
      as (results & w1 & history & w2 & resp & -> & -> & Hllm & Hsrc).
    unfold ChatService.chat_completion, lift. rewrite Hllm, Hsrc.
    rewrite handler_run. unfold degraded, failure_response. eauto.
  - destruct Hstage
      as (results & w1 & history & w2 & resp & sources & w4
          & -> & -> & Hllm & Hsrc & Hadd).
    unfold ChatService.chat_completion, lift. rewrite Hllm, Hsrc.
    simpl in Hadd |- *. rewrite Hadd.
    rewrite handler_run. unfold degraded, failure_response. eauto.
Qed.

(** C2, as the code has it: when the generation succeeded and the
    history append that followed raised, the generated text is not
    returned; for an instance of [Exception] the caller gets the fixed
    failure message with no sources, and any other raised object reaches
    the caller. *)
Theorem append_failure_degrades (question session_id : string)
    (w w' : World) (r : Outcome ChatResponse) (new : list Event)
    (messages : list Message) (resp : LLMResponse)
    (s : string) (m : ChatMessage) (flt : MongoFault) :
  ChatService.answer env config question session_id w = (r, w') →
  trace w' = trace w ++ new →
  EvChatCompletion messages (Ok resp) ∈ new →
  EvUpdateOne s m (Some flt) ∈ new →
  r = if is_Exception (fault_exc flt)
      then Ok {| cr_answer := ChatService.GENERATION_FAILED;
                 cr_sources := [];
                 cr_session_id := session_id |}
      else Raise (fault_exc flt).
Proof.
  intros Hrun Htr Hchat Hup.
  pose proof (answer_run_inv _ _ _ _ _ _ Hrun Htr) as Hshape.
  inversion Hshape; subst; split_membership; try discriminate.
  match goal with
  | Hev : EvUpdateOne _ _ _ = EvUpdateOne _ _ _ |- _ =>
      injection Hev as -> -> ->
  end.
  reflexivity.
Qed.

End Failures.

(* ===================================================================== *)
(** ** Prompt assembly *)
(* ===================================================================== *)

Section Prompt.
Context `{FloatOps}.

Lemma string_app_assoc (a b c : string) : (a +:+ b) +:+ c = a +:+ b +:+ c.
Proof.
  induction a as [|ch a IH]; [done|].
  change (String ch ((a +:+ b) +:+ c) = String ch (a +:+ b +:+ c)).
  by rewrite IH.
Qed.

Lemma string_app_nil_r (a : string) : a +:+ "" = a.
Proof.
  induction a as [|ch a IH]; [done|].
  change (String ch (a +:+ "") = String ch a). by rewrite IH.
Qed.

Lemma contains_refl (s : string) : contains s s.
Proof.
  exists "", "". change (s = s +:+ ""). by rewrite string_app_nil_r.
Qed.

Lemma contains_app_l (needle a b : string) :
  contains needle a → contains needle (a +:+ b).
Proof.
  intros (pre & post & ->). exists pre, (post +:+ b).
  by rewrite !string_app_assoc.
Qed.

Lemma contains_app_r (needle a b : string) :
  contains needle b → contains needle (a +:+ b).
Proof.
  intros (pre & post & ->). exists (a +:+ pre), post.
  by rewrite !string_app_assoc.
Qed.

(** Each joined part occurs in the result of [sep.join(parts)]. *)
Lemma contains_concat (sep : string) (parts : list string) (i : nat)
    (part : string) :
  parts !! i = Some part → contains part (String.concat sep parts).
Proof.
  revert i. induction parts as [|p parts IH]; intros i Hi; [done|].
  destruct parts as [|p' parts].
  - destruct i; [|done]. injection Hi as ->. apply contains_refl.
  - change (String.concat sep (p :: p' :: parts))
      with (p +:+ sep +:+ String.concat sep (p' :: parts)).
    destruct i as [|i].
    + injection Hi as ->. apply contains_app_l, contains_refl.
    + apply contains_app_r, contains_app_r, (IH i Hi).
Qed.

(** The [for i, result in enumerate(context, 1)] loop. *)
Lemma context_parts_loop (context : list SearchResult) (start : nat)
    (parts : list string) :
  fold_left
    (λ parts ir, parts ++ [ChatService.context_part (fst ir) (snd ir)])
    (enumerate start context) parts
  = parts ++ imap (λ i r, ChatService.context_part (start + i) r) context.
Proof.
  revert start parts.
  induction context as [|r context IH]; intros start parts; simpl.
  - by rewrite app_nil_r.
  - rewrite IH, <- app_assoc. simpl. rewrite Nat.add_0_r.
    do 2 f_equal. apply imap_ext. intros i x _. simpl. f_equal. lia.
Qed.

(** The [for msg in history] loop. *)
Lemma history_loop (history : list ChatMessage) (messages : list Message) :
  fold_left
    (λ messages msg,
       (messages ++ [{| role := "user"; content := cm_question msg |}])
       ++ [{| role := "assistant"; content := cm_answer msg |}])
    history messages
  = messages ++ PromptLayout.prior_turns history.
Proof.
  revert messages.
  induction history as [|msg history IH]; intros messages; simpl.
  - by rewrite app_nil_r.
  - rewrite IH, <- !app_assoc. reflexivity.
Qed.

Lemma prior_turns_cons (msg : ChatMessage) (history : list ChatMessage) :
  PromptLayout.prior_turns (msg :: history)
  = PromptLayout.user_message (cm_question msg)
    :: PromptLayout.assistant_message (cm_answer msg)
    :: PromptLayout.prior_turns history.
Proof. reflexivity. Qed.

Lemma prior_turns_lookup (history : list ChatMessage) (i : nat)
    (msg : ChatMessage) :
  history !! i = Some msg →
  PromptLayout.prior_turns history !! (2 * i)%nat
    = Some (PromptLayout.user_message (cm_question msg))
  ∧ PromptLayout.prior_turns history !! (2 * i + 1)%nat
    = Some (PromptLayout.assistant_message (cm_answer msg)).
Proof.
  revert i. induction history as [|m history IH]; intros i Hi; [done|].
  rewrite prior_turns_cons.
  destruct i as [|i]; [by injection Hi as ->|].
  replace (2 * S i)%nat with (S (S (2 * i))) by lia.
  replace (S (S (2 * i)) + 1)%nat with (S (S (2 * i + 1))) by lia.
  exact (IH i Hi).
Qed.

(** C4: the assembled prompt is exactly the fixed instruction, then (only
    with a non-empty retrieval) one system message that carries every
    retrieved content numbered in retrieval order, then one
    user/assistant pair per history message, oldest first, then the
    question as the final user message; nothing else. *)
Theorem build_prompt_layout (question : string)
    (context : list SearchResult) (history : list ChatMessage) :
  ChatService._build_prompt question context history
    = PromptLayout.layout question context history
  ∧ length (PromptLayout.evidence context)
    = (if decide (context = []) then 0 else 1)%nat
  ∧ (∀ i result, context !! i = Some result →
       contains ("[" +:+ str_of_nat (S i) +:+ "] " +:+ sr_content result)
                (PromptLayout.numbered_context context))
  ∧ length (PromptLayout.prior_turns history) = (2 * length history)%nat
  ∧ (∀ i msg, history !! i = Some msg →
       PromptLayout.prior_turns history !! (2 * i)%nat
         = Some {| role := "user"; content := cm_question msg |}
       ∧ PromptLayout.prior_turns history !! (2 * i + 1)%nat
         = Some {| role := "assistant"; content := cm_answer msg |}).
Proof.
  split; [|split; [|split; [|split]]].
  - unfold ChatService._build_prompt, PromptLayout.layout.
    rewrite history_loop.
    destruct context as [|r context]; [by rewrite <- app_assoc|].
    rewrite context_parts_loop, <- !app_assoc. reflexivity.
  - by destruct context.
  - intros i result Hi. unfold PromptLayout.numbered_context.
    apply (contains_concat _ _ i).
    by rewrite list_lookup_imap, Hi.
  - induction history as [|msg history IH]; [done|].
    rewrite prior_turns_cons. simpl length. rewrite IH. lia.
  - intros i msg Hi. exact (prior_turns_lookup history i msg Hi).
Qed.

End Prompt.

(* ===================================================================== *)
(** ** Citations *)
(* ===================================================================== *)

Section CitationProofs.
Context `{FloatOps}.

Lemma make_source_citable (r : SearchResult) :
  citable r → ∃ s, ChatService.make_source r = Ok s ∧ cites s r.
Proof.
  intros [Hfile Himage].
  unfold ChatService.make_source, cites, metadata_source_file,
    metadata_image_path.
  destruct (sr_metadata r !! "source_file") as [[]|]; try done; simpl.
  - destruct (decide (sr_content_type r = IMAGE)) as [Hkind|]; simpl.
    + specialize (Himage Hkind).
      destruct (sr_metadata r !! "image_path") as [[]|]; try done;
        simpl; eauto 10.
    + eauto 10.
  - destruct (decide (sr_content_type r = IMAGE)) as [Hkind|]; simpl.
    + specialize (Himage Hkind).
      destruct (sr_metadata r !! "image_path") as [[]|]; try done;
        simpl; eauto 10.
    + eauto 10.
Qed.

Lemma build_sources_loop_citable (rs : list SearchResult)
    (sources : list SourceInfo) :
  Forall citable rs →
  ∃ ss, ChatService.build_sources_loop rs sources = Ok (sources ++ ss)
        ∧ Forall2 cites ss rs.
Proof.
  intros Hrs. revert sources.
  induction Hrs as [|r rs Hr _ IH]; intros sources; simpl.
  - exists []. by rewrite app_nil_r.
  - destruct (make_source_citable r Hr) as (s & -> & Hs). simpl.
    destruct (IH (sources ++ [s])) as (ss & -> & Hss).
    exists (s :: ss). rewrite <- app_assoc. split; [done|]. by constructor.
Qed.

(** C5, as the code has it: the citations come out one per result and in
    the order of the results; each copies content, score and content
    kind, takes the file name from the metadata ([""] when there is
    none), and carries an image path only for an image result, namely the
    one recorded in the metadata, if any. *)
Theorem build_sources_cites (rs : list SearchResult) :
  Forall citable rs →
  ∃ ss, ChatService._build_sources rs = Ok ss
        ∧ Forall2 cites ss rs
        ∧ Forall2 (λ s r, is_Some (si_image_path s) →
                          sr_content_type r = IMAGE) ss rs.
Proof.
  intros Hrs.
  destruct (build_sources_loop_citable rs [] Hrs) as (ss & Hrun & Hss).
  exists ss. split; [exact Hrun|]. split; [exact Hss|].
  eapply Forall2_impl; [exact Hss|].
  intros s r (_ & _ & _ & _ & Hpath) [p Hp].
  destruct (decide (sr_content_type r = IMAGE)); [done|congruence].
Qed.

End CitationProofs.

(* ===================================================================== *)
(** ** The session store *)
(* ===================================================================== *)

Section SessionStore.
Context `{FloatOps} (env : Env).

Lemma push_message_no_match (session_id : string) (m : ChatMessage)
    (docs : list SessionDoc) :
  (∀ d, d ∈ docs → doc_session_id d ≠ session_id) →
  SessionManager.push_message session_id m docs = docs.
Proof.
  induction docs as [|d docs IH]; intros Hno; simpl; [done|].
  unfold SessionManager.matches.
  destruct (String.eqb_spec (doc_session_id d) session_id) as [Heq|_].
  - exfalso. apply (Hno d); [left|done].
  - f_equal. apply IH. intros d' Hd'. apply Hno. by right.
Qed.

Lemma find_no_match (session_id : string) (docs : list SessionDoc) :
  (∀ d, d ∈ docs → doc_session_id d ≠ session_id) →
  List.find (SessionManager.matches session_id) docs = None.
Proof.
  induction docs as [|d docs IH]; intros Hno; simpl; [done|].
  unfold SessionManager.matches at 1.
  destruct (String.eqb_spec (doc_session_id d) session_id) as [Heq|_].
  - exfalso. apply (Hno d); [left|done].
  - apply IH. intros d' Hd'. apply Hno. by right.
Qed.

(** C8: [add_message] for a session id that no document carries leaves
    the [sessions] collection as it is, and returns normally whenever
    the driver call itself goes through. *)
Theorem add_message_unknown_session (session_id question answer : string)
    (sources : list SourceInfo) (w : World) :
  (∀ d, d ∈ sessions w → doc_session_id d ≠ session_id) →
  sessions (SessionManager.add_message env session_id question answer
              sources w).2 = sessions w
  ∧ (mongo_fault env (trace w) = None →
     (SessionManager.add_message env session_id question answer
        sources w).1 = Ok ()).
Proof.
  intros Hno. rewrite add_message_run.
  destruct (mongo_fault env (trace w)) as [flt|]; simpl.
  - split; [|done]. destruct (fault_applied flt); simpl; [|done].
    by apply push_message_no_match.
  - split; [|done]. by apply push_message_no_match.
Qed.

(** [get_recent_history] for a session id that no document carries. *)
Lemma get_recent_history_unknown_session (session_id : string) (n : Z)
    (w : World) :
  mongo_fault env (trace w) = None →
  (∀ d, d ∈ sessions w → doc_session_id d ≠ session_id) →
  (SessionManager.get_recent_history env session_id n w).1 = Ok [].
Proof.
  intros Hok Hno.
  unfold SessionManager.get_recent_history, SessionManager.find_one,
    mbind, M_bind, mret, M_ret.
  by rewrite Hok, find_no_match.
Qed.

(** [get_recent_history] on an existing session, for [n >= 1]: the last
    [min(n, len)] messages, oldest first. *)
Lemma get_recent_history_positive (session_id : string) (n : Z)
    (w : World) (d : SessionDoc) :
  mongo_fault env (trace w) = None →
  List.find (SessionManager.matches session_id) (sessions w) = Some d →
  0 < n →
  (SessionManager.get_recent_history env session_id n w).1
  = Ok (drop (length (doc_messages d)
              - Z.to_nat (Z.min n (Z.of_nat (length (doc_messages d)))))
             (doc_messages d)).
Proof.
  intros Hok Hfind Hn.
  unfold SessionManager.get_recent_history, SessionManager.find_one,
    mbind, M_bind, mret, M_ret.
  rewrite Hok, Hfind. simpl. f_equal.
  destruct (Z.gtb_spec (Z.of_nat (length (doc_messages d))) n) as [Hgt|Hle].
  - unfold slice_from.
    destruct (Z.ltb_spec (- n) 0) as [_|?]; [|lia]. f_equal. lia.
  - replace (_ - _)%nat with 0%nat by lia. by rewrite drop_0.
Qed.

(** [get_recent_history] on an existing session, for [n = 0]: the guard
    [len(messages_data) > 0] sends a non-empty history to the slice
    [messages_data[-0:]], which is the whole list. *)
Lemma get_recent_history_zero (session_id : string) (w : World)
    (d : SessionDoc) :
  mongo_fault env (trace w) = None →
  List.find (SessionManager.matches session_id) (sessions w) = Some d →
  (SessionManager.get_recent_history env session_id 0 w).1
  = Ok (doc_messages d).
Proof.
  intros Hok Hfind.
  unfold SessionManager.get_recent_history, SessionManager.find_one,
    mbind, M_bind, mret, M_ret.
  rewrite Hok, Hfind. simpl. f_equal.
  destruct (Z.of_nat (length (doc_messages d)) >? 0); [|done].
  unfold slice_from. change (- 0 <? 0) with false. cbv iota.
  change (- 0) with 0. by rewrite Z.min_l by lia.
Qed.

End SessionStore.

(* ===================================================================== *)
(** ** Retrieval *)
(* ===================================================================== *)

Section RetrievalProofs.
Context `{FloatOps} (env : Env).

Lemma zip3_lookup {A B C} (a : list A) (b : list B) (c : list C) (i : nat)
    (x : A) (y : B) (z : C) :
  zip3 a b c !! i = Some (x, y, z) →
  a !! i = Some x ∧ b !! i = Some y ∧ c !! i = Some z.
Proof.
  revert b c i.
  induction a as [|x' a IH]; intros [|y' b] [|z' c] i Hi; try done.
  destruct i as [|i]; simpl in Hi.
  - by injection Hi as -> -> ->.
  - exact (IH _ _ _ Hi).
Qed.

Lemma Forall_zip3_metadata {A C} (P : option (gmap string PyVal) → Prop)
    (a : list A) (b : list (option (gmap string PyVal))) (c : list C) :
  Forall P b → Forall (λ hit, P hit.1.2) (zip3 a b c).
Proof.
  intros Hb. revert a c.
  induction Hb as [|y b Hy _ IH]; intros [|x a] [|z c]; simpl;
    try constructor; auto.
Qed.

Lemma length_zip3 {A B C} (a : list A) (b : list B) (c : list C) :
  length a = length c → length b = length c →
  length (zip3 a b c) = length c.
Proof.
  revert b c. induction a as [|x a IH]; intros [|y b] [|z c] Ha Hb;
    simpl in *; try done.
  f_equal. apply IH; lia.
Qed.

Lemma make_result_stored (doc : option string)
    (meta : option (gmap string PyVal)) (dist : float) :
  stored_metadata meta →
  ∃ r, VectorStore.make_result doc meta dist = Ok r
       ∧ result_of_hit r (doc, meta, dist).
Proof.
  intros (m & -> & Hkind). unfold VectorStore.make_result, result_of_hit.
  destruct Hkind as [Hm | [[] Hm]]; rewrite Hm; simpl; eexists;
    (split; [done|]); simpl; by rewrite Hm.
Qed.

Lemma search_loop_stored
    (hits : list (option string * option (gmap string PyVal) * float))
    (acc : list SearchResult) :
  Forall (λ hit, stored_metadata hit.1.2) hits →
  ∃ rs, VectorStore.search_loop hits acc = Ok (acc ++ rs)
        ∧ Forall2 result_of_hit rs hits.
Proof.
  intros Hhits. revert acc.
  induction Hhits as [|[[doc meta] dist] hits Hhit _ IH]; intros acc; simpl.
  - exists []. by rewrite app_nil_r.
  - destruct (make_result_stored doc meta dist Hhit) as (r & -> & Hr). simpl.
    destruct (IH (acc ++ [r])) as (rs & -> & Hrs).
    exists (r :: rs). rewrite <- app_assoc. split; [done|]. by constructor.
Qed.

(** C6: [search] on a store that reports [c] items.  For [c = 0] it
    returns the empty list and sends no query.  For [c > 0] it sends one
    query with [n_results = min(top_k, c)]; when that query raises, as
    ChromaDB does for [n_results <= 0], [search] raises the same
    exception; when it is answered as ChromaDB answers (one document,
    metadata dict and distance per hit, at most [n_results] hits,
    nearest first), [search] returns one result per hit, in the order of
    the hits, hence at most [min(top_k, c)] results; each result holds
    the document and the metadata of its hit and the score [1.0 - dist]
    for the distance of that same hit, and the scores never increase
    along the list. *)
Theorem search_ranked (query_text : string) (k : Z) (w : World) (c : nat) :
  sub_from_one_antitone →
  chroma_count env (trace w) = Ok c →
  let answer :=
    chroma_query env (trace w ++ [EvCount (Ok c)]) query_text
      (Z.min k (Z.of_nat c)) in
  (c = 0%nat →
   VectorStore.search env query_text k w
   = (Ok [], emit (EvCount (Ok 0%nat)) w))
  ∧ (c ≠ 0%nat → ∀ e,
       answer = Raise e →
       (VectorStore.search env query_text k w).1 = Raise e)
  ∧ (c ≠ 0%nat → ∀ qr documents metadatas distances,
       answer = Ok qr →
       chroma_contract (Z.min k (Z.of_nat c)) qr documents metadatas
         distances →
       ∃ rs,
         (VectorStore.search env query_text k w).1 = Ok rs
         ∧ length rs = length distances
         ∧ Z.of_nat (length rs) ≤ Z.min k (Z.of_nat c)
         ∧ Forall2 result_of_hit rs (zip3 documents metadatas distances)
         ∧ (∀ i r, rs !! i = Some r →
              ∃ d, distances !! i = Some d
                   ∧ sr_score r = f_sub f_one d)
         ∧ non_increasing (sr_score <$> rs)).
Proof.
  intros Hanti Hcount answer. subst answer.
  unfold VectorStore.search, VectorStore.collection_count,
    VectorStore.collection_query, lift, mbind, M_bind, mret, M_ret.
  rewrite Hcount.
  split; [by intros ->|]. split.
  - intros Hc e Hq. apply Nat.eqb_neq in Hc as ->. simpl. by rewrite Hq.
  - intros Hc qr documents metadatas distances Hq
      (-> & Hdocs & Hmetas & Hlen & Hasc & Hmeta).
    apply Nat.eqb_neq in Hc as ->. simpl. rewrite Hq. simpl.
    destruct (search_loop_stored (zip3 documents metadatas distances) [])
      as (rs & -> & Hrs).
    { by apply Forall_zip3_metadata. }
    exists rs. split; [done|].
    assert (length rs = length distances) as Hrs_len.
    { rewrite (Forall2_length _ _ _ Hrs). by apply length_zip3. }
    assert (∀ i r, rs !! i = Some r →
              ∃ d, distances !! i = Some d ∧ sr_score r = f_sub f_one d)
      as Hscore.
    { intros i r Hi.
      destruct (Forall2_lookup_l _ _ _ _ _ Hrs Hi)
        as ([[doc meta] d] & Hhit & Hr & _).
      apply zip3_lookup in Hhit as (_ & _ & Hd). eauto. }
    split; [exact Hrs_len|]. split; [lia|]. split; [exact Hrs|].
    split; [exact Hscore|].
    intros i a b Ha Hb.
    rewrite list_lookup_fmap in Ha, Hb.
    destruct (rs !! i) as [ra|] eqn:Hra; [|done].
    destruct (rs !! S i) as [rb|] eqn:Hrb; [|done].
    injection Ha as <-. injection Hb as <-.
    destruct (Hscore _ _ Hra) as (da & Hda & ->).
    destruct (Hscore _ _ Hrb) as (db & Hdb & ->).
    apply Hanti, (Hasc i); done.
Qed.

End RetrievalProofs.

(* ===================================================================== *)
(** ** History round trip *)
(* ===================================================================== *)

Section RoundTrip.
Context `{FloatOps} (env : Env).

Lemma push_message_last (session_id : string) (m : ChatMessage)
    (old : list SessionDoc) (d : SessionDoc) :
  (∀ d', d' ∈ old → doc_session_id d' ≠ session_id) →
  doc_session_id d = session_id →
  SessionManager.push_message session_id m (old ++ [d])
  = old ++ [{| doc_session_id := doc_session_id d;
               doc_messages := doc_messages d ++ [m];
               doc_created_at := doc_created_at d |}].
Proof.
  intros Hold Hd.
  induction old as [|d' old IH]; simpl.
  - unfold SessionManager.matches. rewrite Hd. by rewrite String.eqb_refl.
  - unfold SessionManager.matches at 1.
    destruct (String.eqb_spec (doc_session_id d') session_id) as [Heq|_].
    + exfalso. apply (Hold d'); [left|done].
    + f_equal. apply IH. intros d'' Hd''. apply Hold. by right.
Qed.

Lemma find_last (session_id : string) (old : list SessionDoc)
    (d : SessionDoc) :
  (∀ d', d' ∈ old → doc_session_id d' ≠ session_id) →
  doc_session_id d = session_id →
  List.find (SessionManager.matches session_id) (old ++ [d]) = Some d.
Proof.
  intros Hold Hd.
  induction old as [|d' old IH]; simpl.
  - unfold SessionManager.matches. rewrite Hd. by rewrite String.eqb_refl.
  - unfold SessionManager.matches at 1.
    destruct (String.eqb_spec (doc_session_id d') session_id) as [Heq|_].
    + exfalso. apply (Hold d'); [left|done].
    + apply IH. intros d'' Hd''. apply Hold. by right.
Qed.

Lemma add_messages_run (session_id : string)
    (turns : list (string * string * list SourceInfo))
    (w : World) (old : list SessionDoc) (d : SessionDoc) :
  (∀ tr, mongo_fault env tr = None) →
  (∀ d', d' ∈ old → doc_session_id d' ≠ session_id) →
  doc_session_id d = session_id →
  sessions w = old ++ [d] →
  ∃ w' msgs,
    add_messages env session_id turns w = (Ok (), w')
    ∧ sessions w' = old ++ [{| doc_session_id := session_id;
                               doc_messages := doc_messages d ++ msgs;
                               doc_created_at := doc_created_at d |}]
    ∧ Forall2 recorded msgs turns.
Proof.
  intros Hok Hold. revert w d.
  induction turns as [|[[q a] srcs] turns IH]; intros w d Hd Hw; simpl.
  - exists w, []. rewrite app_nil_r, Hw, <- Hd. by destruct d.
  - unfold mbind, M_bind. rewrite add_message_run, Hok.
    set (m := {| cm_question := q; cm_answer := a; cm_sources := srcs;
                 cm_timestamp := utc_now_isoformat env (trace w) |}).
    set (w1 := {| sessions := _; trace := _ |}).
    destruct (IH w1 {| doc_session_id := doc_session_id d;
                       doc_messages := doc_messages d ++ [m];
                       doc_created_at := doc_created_at d |})
      as (w' & msgs & Hrun & Hsess & Hrec); [done| |].
    { subst w1. simpl. rewrite Hw. by apply push_message_last. }
    exists w', (m :: msgs). split; [done|]. simpl in Hsess.
    split; [by rewrite Hsess, <- app_assoc|]. by constructor.
Qed.

(** X12: the history round trip for [n >= 1]: with a freshly generated id and
    a driver that does not fail, asking for the last [n] of the turns
    just appended returns the last [min(n, count)] of them, oldest
    first, each with the question, answer and sources written. *)
Lemma history_round_trip
    (turns : list (string * string * list SourceInfo)) (n : Z) (w : World) :
  (∀ tr, mongo_fault env tr = None) →
  (∀ d, d ∈ sessions w → doc_session_id d ≠ uuid4 env (trace w)) →
  0 < n →
  ∃ history,
    (record_and_recall env turns n w).1 = Ok history
    ∧ Forall2 recorded history
        (drop (length turns - Z.to_nat (Z.min n (Z.of_nat (length turns))))
              turns).
Proof.
  intros Hok Hfresh Hn.
  unfold record_and_recall, SessionManager.create_session,
    SessionManager.new_uuid, SessionManager.now_isoformat,
    SessionManager.insert_one, mbind at 1 2 3 4 5, M_bind, mret, M_ret.
  rewrite Hok.
  set (sid := uuid4 env (trace w)) in *.
  set (d := {| doc_session_id := sid; doc_messages := [];
               doc_created_at := utc_now_isoformat env (trace w) |}).
  set (w1 := {| sessions := _; trace := _ |}).
  destruct (add_messages_run sid turns w1 (sessions w) d)
    as (w2 & msgs & -> & Hsess & Hrec); [done..|].
  simpl in Hsess.
  erewrite get_recent_history_positive; [|done| |done].
  2:{ rewrite Hsess. by apply find_last. }
  eexists. split; [done|]. simpl.
  rewrite (Forall2_length _ _ _ Hrec). by apply Forall2_drop.
Qed.

(** The same round trip for [n = 0]: every turn comes back. *)
Lemma history_round_trip_zero
    (turns : list (string * string * list SourceInfo)) (w : World) :
  (∀ tr, mongo_fault env tr = None) →
  (∀ d, d ∈ sessions w → doc_session_id d ≠ uuid4 env (trace w)) →
  ∃ history,
    (record_and_recall env turns 0 w).1 = Ok history
    ∧ Forall2 recorded history turns.
Proof.
  intros Hok Hfresh.
  unfold record_and_recall, SessionManager.create_session,
    SessionManager.new_uuid, SessionManager.now_isoformat,
    SessionManager.insert_one, mbind at 1 2 3 4 5, M_bind, mret, M_ret.
  rewrite Hok.
  set (sid := uuid4 env (trace w)) in *.
  set (d := {| doc_session_id := sid; doc_messages := [];
               doc_created_at := utc_now_isoformat env (trace w) |}).
  set (w1 := {| sessions := _; trace := _ |}).
  destruct (add_messages_run sid turns w1 (sessions w) d)
    as (w2 & msgs & -> & Hsess & Hrec); [done..|].
  simpl in Hsess.
  erewrite get_recent_history_zero; [|done|].
  2:{ rewrite Hsess. by apply find_last. }
  eexists. split; [done|]. exact Hrec.
Qed.

End RoundTrip.

(* ===================================================================== *)
(** ** The properties on concrete worlds *)
(* ===================================================================== *)

Section Concrete.
Import Scenario.

Ltac find_event :=
  repeat first [ apply list_elem_of_here | apply list_elem_of_further ].

(** [answer_empty_store] on a store into which nothing was ingested. *)
Lemma answer_empty_store_witness :
  chroma_count empty_store (trace fresh) = Ok 0%nat
  ∧ ∃ w',
      ChatService.answer empty_store config "q?" sid fresh =
        (Ok {| cr_answer := ChatService.KNOWLEDGE_BASE_NOT_BUILT;
               cr_sources := [];
               cr_session_id := sid |}, w')
      ∧ ∃ new, trace w' = trace fresh ++ new
               ∧ ¬ provider_called new
               ∧ ¬ history_append_sent new
               ∧ sessions w' = sessions fresh.
Proof.
  split; [reflexivity|].
  apply (answer_empty_store empty_store config "q?" sid fresh).
  reflexivity.
Defined.

(** [answer_guard_raise_propagates] when ChromaDB fails on [count()]. *)
Lemma answer_guard_raise_propagates_witness :
  chroma_count guard_fails (trace fresh)
    = Raise (ExceptionOf "chromadb.errors.InternalError")
  ∧ ChatService.answer guard_fails config "q?" sid fresh
    = (Raise (ExceptionOf "chromadb.errors.InternalError"),
       emit (EvCount (Raise (ExceptionOf "chromadb.errors.InternalError")))
            fresh).
Proof.
  split; [reflexivity|].
  apply (answer_guard_raise_propagates guard_fails config "q?" sid fresh).
  reflexivity.
Defined.

(** [generation_failure_leaves_history] when the provider is
    unreachable. *)
Lemma generation_failure_leaves_history_witness :
  let run := ChatService.answer generation_fails config "q?" sid fresh in
  (∃ messages,
     EvChatCompletion messages (Raise ProviderError) ∈ trace run.2)
  ∧ ¬ history_append_sent (trace run.2)
  ∧ sessions run.2 = sessions fresh.
Proof.
  intros run.
  assert (∃ messages,
            EvChatCompletion messages (Raise ProviderError) ∈ trace run.2)
    as Hin.
  { vm_compute. eexists. find_event. }
  split; [exact Hin|].
  destruct Hin as [messages Hin].
  apply (generation_failure_leaves_history generation_fails config "q?" sid
           fresh run.2 run.1 (trace run.2) messages ProviderError).
  - apply surjective_pairing.
  - reflexivity.
  - exact Hin.
Defined.

(** C1 as stated does not hold: the store is not empty, the awaited
    provider call is cancelled, which raises [asyncio.CancelledError] in
    the generation stage, and [answer] lets it through to its caller. *)
Lemma answer_reraises_cancellation :
  chroma_count cancelled (trace fresh) = Ok 1%nat
  ∧ stage_raises cancelled config "q?" sid (emit (EvCount (Ok 1%nat)) fresh)
      Generation CancelledError
  ∧ (ChatService.answer cancelled config "q?" sid fresh).1
    = Raise CancelledError.
Proof.
  split; [reflexivity|]. split; [|vm_compute; reflexivity].
  simpl. eexists _, _, _, _.
  split; [vm_compute; reflexivity|].
  split; [vm_compute; reflexivity|]. reflexivity.
Qed.

(** [answer_degrades_on_Exception] when the provider is unreachable. *)
Lemma answer_degrades_on_Exception_witness :
  chroma_count generation_fails (trace fresh) = Ok 1%nat
  ∧ stage_raises generation_fails config "q?" sid
      (emit (EvCount (Ok 1%nat)) fresh) Generation ProviderError
  ∧ ∃ w',
      ChatService.answer generation_fails config "q?" sid fresh =
        (Ok {| cr_answer := ChatService.GENERATION_FAILED;
               cr_sources := [];
               cr_session_id := sid |}, w').
Proof.
  assert (stage_raises generation_fails config "q?" sid
            (emit (EvCount (Ok 1%nat)) fresh) Generation ProviderError)
    as Hstage.
  { simpl. eexists _, _, _, _.
    split; [vm_compute; reflexivity|].
    split; [vm_compute; reflexivity|]. reflexivity. }
  split; [reflexivity|]. split; [exact Hstage|].
  apply (answer_degrades_on_Exception generation_fails config "q?" sid fresh
           1%nat Generation ProviderError).
  - reflexivity.
  - lia.
  - exact Hstage.
Defined.

(** C2 as stated does not hold: the provider answered, the append that
    followed raised, and the caller received the fixed failure message
    instead of the generated text. *)
Lemma append_failure_loses_generated_answer :
  let run := ChatService.answer append_fails config "q?" sid fresh in
  (∃ messages, EvChatCompletion messages (Ok reply) ∈ trace run.2)
  ∧ (∃ m, EvUpdateOne sid m (Some ConnectionFailure) ∈ trace run.2)
  ∧ run.1 = Ok (failure_response sid)
  ∧ cr_answer (failure_response sid) ≠ llm_content reply.
Proof.
  intros run. split; [|split; [|split]].
  - vm_compute. eexists. find_event.
  - vm_compute. eexists. find_event.
  - vm_compute. reflexivity.
  - vm_compute. discriminate.
Qed.

(** [append_failure_degrades] when MongoDB drops the connection on the
    append. *)
Lemma append_failure_degrades_witness :
  let run := ChatService.answer append_fails config "q?" sid fresh in
  (∃ messages, EvChatCompletion messages (Ok reply) ∈ trace run.2)
  ∧ (∃ m, EvUpdateOne sid m (Some ConnectionFailure) ∈ trace run.2)
  ∧ run.1 = Ok {| cr_answer := ChatService.GENERATION_FAILED;
                  cr_sources := [];
                  cr_session_id := sid |}.
Proof.
  intros run.
  assert (∃ messages, EvChatCompletion messages (Ok reply) ∈ trace run.2)
    as Hchat.
  { vm_compute. eexists. find_event. }
  assert (∃ m, EvUpdateOne sid m (Some ConnectionFailure) ∈ trace run.2)
    as Hup.
  { vm_compute. eexists. find_event. }
  split; [exact Hchat|]. split; [exact Hup|].
  destruct Hchat as [messages Hchat]. destruct Hup as [m Hup].
  apply (append_failure_degrades append_fails config "q?" sid fresh run.2
           run.1 (trace run.2) messages reply sid m ConnectionFailure).
  - apply surjective_pairing.
  - reflexivity.
  - exact Hchat.
  - exact Hup.
Defined.

(** C5 as stated does not hold: an image result whose metadata records
    no image path is cited without one. *)
Lemma image_cited_without_path :
  ∃ s, ChatService._build_sources [bare_image] = Ok [s]
       ∧ sr_content_type bare_image = IMAGE
       ∧ si_content_type s = IMAGE
       ∧ si_image_path s = None.
Proof. eexists. vm_compute. repeat split. Qed.

(** [build_sources_cites] on an image without path, a text chunk and an
    image with its path. *)
Lemma build_sources_cites_witness :
  Forall citable [bare_image; text_hit; image_hit]
  ∧ ∃ ss, ChatService._build_sources [bare_image; text_hit; image_hit] = Ok ss
          ∧ Forall2 cites ss [bare_image; text_hit; image_hit]
          ∧ Forall2 (λ s r, is_Some (si_image_path s) →
                            sr_content_type r = IMAGE)
              ss [bare_image; text_hit; image_hit].
Proof.
  assert (Forall citable [bare_image; text_hit; image_hit]) as Hrs.
  { repeat constructor; vm_compute; try exact I; discriminate. }
  split; [exact Hrs|].
  apply (build_sources_cites [bare_image; text_hit; image_hit] Hrs).
Defined.

(** On rationals [1 - d] reverses the order. *)
Lemma Q_sub_from_one_antitone : sub_from_one_antitone.
Proof.
  intros a b Hab. simpl in *. unfold Qminus.
  apply Qplus_le_compat; [apply Qle_refl|]. by apply Qopp_le_compat.
Qed.

(** [search_ranked] on three stored chunks at distances 0.1, 0.4 and 0.2
    with [top_k = 2]: ChromaDB returns the chunks at 0.1 and 0.2, and
    [search] returns one result for each, in that order. *)
Lemma search_ranked_witness :
  sub_from_one_antitone
  ∧ chroma_count three_chunks (trace fresh) = Ok 3%nat
  ∧ chroma_contract 2 two_hits [Some "A"; Some "C"]
      [Some text_meta; Some text_meta] [(1 # 10)%Q; (2 # 10)%Q]
  ∧ ∃ rs,
      (VectorStore.search three_chunks "q?" 2 fresh).1 = Ok rs
      ∧ length rs = 2%nat
      ∧ Z.of_nat (length rs) ≤ 2
      ∧ Forall2 result_of_hit rs
          [(Some "A", Some text_meta, (1 # 10)%Q);
           (Some "C", Some text_meta, (2 # 10)%Q)]
      ∧ (∀ i r, rs !! i = Some r →
           ∃ d, [(1 # 10)%Q; (2 # 10)%Q] !! i = Some d
                ∧ sr_score r = f_sub f_one d)
      ∧ non_increasing (sr_score <$> rs).
Proof.
  assert (chroma_contract 2 two_hits [Some "A"; Some "C"]
            [Some text_meta; Some text_meta] [(1 # 10)%Q; (2 # 10)%Q])
    as Hcontract.
  { split; [reflexivity|]. split; [reflexivity|]. split; [reflexivity|].
    split; [simpl; lia|]. split.
    - intros [|[|i]] a b Ha Hb; try discriminate.
      injection Ha as <-. injection Hb as <-. vm_compute. discriminate.
    - repeat constructor; exists text_meta; split; try reflexivity;
        right; exists TEXT; reflexivity. }
  split; [exact Q_sub_from_one_antitone|]. split; [reflexivity|].
  split; [exact Hcontract|].
  destruct (search_ranked three_chunks "q?" 2 fresh 3
              Q_sub_from_one_antitone eq_refl) as (_ & _ & Hreturns).
  apply (Hreturns (Nat.neq_succ_0 2) two_hits [Some "A"; Some "C"]
           [Some text_meta; Some text_meta] [(1 # 10)%Q; (2 # 10)%Q]
           eq_refl Hcontract).
Defined.

(** With [top_k = 0] on the same store, [search] asks for
    [n_results = 0]; ChromaDB rejects the query, and [search] raises
    what the query raised. *)
Example search_raises_what_query_raises :
  (VectorStore.search
     (scripted (Ok 3%nat) (Raise TypeError) (Ok reply) None None)
     "q?" 0 fresh).1
  = Raise TypeError.
Proof. reflexivity. Qed.

(** [add_message_unknown_session] on a store whose only session has
    another id. *)
Lemma add_message_unknown_session_witness :
  (∀ d, d ∈ sessions fresh → doc_session_id d ≠ "unknown")
  ∧ sessions (SessionManager.add_message healthy "unknown" "q?" "a" []
                fresh).2 = sessions fresh
  ∧ (mongo_fault healthy (trace fresh) = None →
     (SessionManager.add_message healthy "unknown" "q?" "a" [] fresh).1
     = Ok ()).
Proof.
  assert (∀ d, d ∈ sessions fresh → doc_session_id d ≠ "unknown") as Hno.
  { intros d Hd. apply list_elem_of_singleton in Hd. subst d. discriminate. }
  split; [exact Hno|].
  apply (add_message_unknown_session healthy "unknown" "q?" "a" [] fresh Hno).
Defined.

(** C7 fails on the code for [n = 0]: a session is created, two turns are
    appended, and [get_recent_history(session_id, 0)] returns both of
    them, where the last [min(0, 2) = 0] messages are none. *)
Theorem recent_history_zero_returns_everything :
  (record_and_recall healthy [("q1", "a1", []); ("q2", "a2", [])] 0
     {| sessions := []; trace := [] |}).1
  = Ok [turn "q1" "a1"; turn "q2" "a2"].
Proof. vm_compute. reflexivity. Qed.

(** The same session asked for its last turn. *)
Example recent_history_one :
  (record_and_recall healthy [("q1", "a1", []); ("q2", "a2", [])] 1
     {| sessions := []; trace := [] |}).1
  = Ok [turn "q2" "a2"].
Proof. vm_compute. reflexivity. Qed.

End Concrete.

(* ===================================================================== *)
(** ** What one [answer] call records, sends and leaves alone *)
(* ===================================================================== *)

Section AnswerDetail.
Context `{FloatOps} (env : Env) (config : AppConfig).

Lemma quiet_from_answer (question session_id : string) (pre : list Event) :
  Forall quiet pre → Forall (from_answer env question session_id) pre.
Proof.
  intros Hq. eapply Forall_impl; [exact Hq|]. intros ev. by destruct ev.
Qed.

Lemma logged_from_answer (question session_id : string) (e : PyExc) :
  Forall (from_answer env question session_id) (logged e).
Proof. unfold logged. destruct (is_Exception e); by repeat constructor. Qed.

(** Every provider call and every history append in the transcript of
    [answer(question, session_id)] is one that the call's own prompt and
    question account for. *)
Lemma answer_events_from_answer (question session_id : string)
    (w w' : World) (r : Outcome ChatResponse) (new : list Event) :
  ChatService.answer env config question session_id w = (r, w') →
  trace w' = trace w ++ new →
  Forall (from_answer env question session_id) new.
Proof.
  intros Hrun Htr. revert Hrun.
  unfold ChatService.answer, mbind at 1, M_bind at 1.
  rewrite is_empty_run.
  destruct (chroma_count env (trace w)) as [c|e]; simpl; cycle 1.
  { intros [= <- <-]. simpl in Htr. apply app_inv_head in Htr as <-.
    by repeat constructor. }
  destruct (c =? 0)%nat eqn:Hc; simpl.
  { intros [= <- <-]. simpl in Htr. apply app_inv_head in Htr as <-.
    by repeat constructor. }
  unfold try_except_Exception, ChatService.answer_try,
    mbind, M_bind, mret, M_ret.
  destruct (VectorStore.search env question (top_k config) _)
    as [[results|e] w1] eqn:Hs;
    apply search_frame in Hs as (Hs1 & evs & Ht1 & Hq1);
    simpl in Hs1, Ht1; cycle 1.
  { rewrite handler_run. intros [= <- <-].
    rewrite trace_after_handler, Ht1, <- !app_assoc in Htr.
    apply app_inv_head in Htr as <-. simpl.
    constructor; [done|]. apply Forall_app. split.
    - by apply quiet_from_answer.
    - apply logged_from_answer. }
  destruct (SessionManager.get_recent_history env session_id
              (history_limit config) w1) as [[history|e] w2] eqn:Hh;
    apply get_recent_history_frame in Hh;
    set (f := mongo_fault env (trace w1)) in Hh; clearbody f; cycle 1.
  { rewrite handler_run. intros [= <- <-].
    rewrite trace_after_handler, Hh in Htr. simpl in Htr.
    rewrite Ht1, <- !app_assoc in Htr.
    apply app_inv_head in Htr as <-. simpl.
    constructor; [done|]. apply Forall_app. split.
    - by apply quiet_from_answer.
    - constructor; [done|]. apply logged_from_answer. }
  set (pre := evs ++ [EvFindOne session_id f]).
  assert (Forall (from_answer env question session_id) pre) as Hpre.
  { apply Forall_app. split; [by apply quiet_from_answer|].
    by repeat constructor. }
  assert (trace w2 = trace w ++ EvCount (Ok c) :: pre) as Ht2.
  { rewrite Hh. simpl. rewrite Ht1. by rewrite <- !app_assoc. }
  clearbody pre. clear Hh Ht1 Hs1 Hq1 evs w1.
  unfold ChatService.chat_completion.
  set (messages := ChatService._build_prompt question results history).
  assert (∀ o, o = llm_chat_completion env (trace w2) messages →
               from_answer env question session_id
                 (EvChatCompletion messages o)) as Hchat.
  { intros o ->. split; [by exists results, history|by eexists]. }
  destruct (llm_chat_completion env (trace w2) messages) as [resp|e] eqn:Hllm;
    simpl; cycle 1.
  { rewrite handler_run. intros [= <- <-].
    rewrite trace_after_handler in Htr. simpl in Htr.
    rewrite Ht2, <- !app_assoc in Htr.
    apply app_inv_head in Htr as <-. simpl.
    constructor; [done|]. apply Forall_app. split; [done|].
    constructor; [by apply Hchat|]. apply logged_from_answer. }
  unfold lift.
  destruct (ChatService._build_sources results) as [sources|e]; simpl; cycle 1.
  { rewrite handler_run. intros [= <- <-].
    rewrite trace_after_handler in Htr. simpl in Htr.
    rewrite Ht2, <- !app_assoc in Htr.
    apply app_inv_head in Htr as <-. simpl.
    constructor; [done|]. apply Forall_app. split; [done|].
    constructor; [by apply Hchat|]. apply logged_from_answer. }
  rewrite add_message_run. simpl.
  destruct (mongo_fault env (trace w2 ++ _)) as [flt|]; simpl.
  - rewrite handler_run. intros [= <- <-].
    rewrite trace_after_handler in Htr.
    destruct (fault_applied flt); simpl in Htr;
      rewrite Ht2, <- !app_assoc in Htr;
      apply app_inv_head in Htr as <-; simpl;
      (constructor; [done|]); (apply Forall_app; split; [done|]);
      (constructor; [by apply Hchat|]); (constructor; [done|]);
      apply logged_from_answer.
  - intros [= <- <-]. simpl in Htr.
    rewrite Ht2, <- !app_assoc in Htr.
    apply app_inv_head in Htr as <-. simpl.
    constructor; [done|]. apply Forall_app. split; [done|].
    constructor; [by apply Hchat|]. by repeat constructor.
Qed.

Ltac split_events :=
  repeat match goal with
         | H : _ ∈ _ :: _ |- _ => apply elem_of_cons in H as [H|H]
         | H : _ ∈ _ ++ _ |- _ => apply elem_of_app in H as [H|H]
         | H : _ ∈ [] |- _ => by apply elem_of_nil in H
         | H : _ ∈ logged _ |- _ => apply logged_only_logs in H
         | H : EvChatCompletion _ _ ∈ ?pre, Hq : Forall quiet ?pre |- _ =>
             by apply quiet_not_chat in H
         | H : EvUpdateOne _ _ _ ∈ ?pre, Hq : Forall quiet ?pre |- _ =>
             by apply quiet_not_update in H
         end.

(** X1: the history records what the caller was shown: when the transcript
    of a call holds an append that MongoDB acknowledged, the call
    returned the answer and the sources of the appended message, the
    message is for the question and the session of the call, and the
    collection afterwards is the one before with that message pushed. *)
Theorem answer_records_what_it_returns (question session_id : string)
    (w w' : World) (r : Outcome ChatResponse) (new : list Event)
    (s : string) (m : ChatMessage) :
  ChatService.answer env config question session_id w = (r, w') →
  trace w' = trace w ++ new →
  EvUpdateOne s m None ∈ new →
  r = Ok {| cr_answer := cm_answer m;
            cr_sources := cm_sources m;
            cr_session_id := session_id |}
  ∧ s = session_id
  ∧ cm_question m = question
  ∧ sessions w' = SessionManager.push_message session_id m (sessions w).
Proof.
  intros Hrun Htr Hin.
  pose proof (answer_events_from_answer _ _ _ _ _ _ Hrun Htr) as Horigin.
  rewrite Forall_forall in Horigin.
  destruct (Horigin _ Hin) as [-> Hq].
  pose proof (answer_run_inv _ _ _ _ _ _ _ _ Hrun Htr) as Hshape.
  inversion Hshape; subst; split_events; try discriminate.
  match goal with
  | Hev : EvUpdateOne _ _ _ = EvUpdateOne _ _ _ |- _ =>
      injection Hev as ->
  end.
  match goal with
  | Hans : cm_answer _ = llm_content _ |- _ => rewrite <- Hans
  end.
  done.
Qed.

Lemma other_sessions_push (session_id : string) (m : ChatMessage)
    (docs : list SessionDoc) :
  other_sessions session_id (SessionManager.push_message session_id m docs)
  = other_sessions session_id docs.
Proof.
  unfold other_sessions.
  induction docs as [|d docs IH]; simpl; [done|].
  destruct (SessionManager.matches session_id d) eqn:Hd; simpl.
  - unfold SessionManager.matches in *. simpl. by rewrite Hd.
  - by rewrite Hd, IH.
Qed.

Lemma ids_push (session_id : string) (m : ChatMessage)
    (docs : list SessionDoc) :
  doc_session_id <$> SessionManager.push_message session_id m docs
  = doc_session_id <$> docs.
Proof.
  induction docs as [|d docs IH]; [done|].
  simpl SessionManager.push_message.
  destruct (SessionManager.matches session_id d); rewrite !fmap_cons;
    [done|by rewrite IH].
Qed.

(** X2: whatever happens during [answer(question, session_id)], the
    documents of every other session are afterwards what they were, and
    no session has been created or removed. *)
Theorem answer_leaves_other_sessions (question session_id : string)
    (w : World) :
  let w' := (ChatService.answer env config question session_id w).2 in
  other_sessions session_id (sessions w')
  = other_sessions session_id (sessions w)
  ∧ doc_session_id <$> sessions w' = doc_session_id <$> sessions w.
Proof.
  destruct (answer_run env config question session_id w)
    as (r & w' & new & Hrun & Htr & Hshape).
  rewrite Hrun. simpl.
  inversion Hshape; subst; try done.
  - destruct (fault_applied flt); [|done].
    by rewrite other_sessions_push, ids_push.
  - by rewrite other_sessions_push, ids_push.
Qed.

Lemma filter_quiet_chat (pre : list Event) :
  Forall quiet pre → List.filter is_provider_event pre = [].
Proof.
  induction 1 as [|ev pre Hev _ IH]; simpl; [done|].
  destruct ev; simpl; try done.
Qed.

Lemma filter_quiet_update (pre : list Event) :
  Forall quiet pre → List.filter is_update_event pre = [].
Proof.
  induction 1 as [|ev pre Hev _ IH]; simpl; [done|].
  destruct ev; simpl; try done.
Qed.

Lemma filter_logged_chat (e : PyExc) :
  List.filter is_provider_event (logged e) = [].
Proof. unfold logged. by destruct (is_Exception e). Qed.

Lemma filter_logged_update (e : PyExc) :
  List.filter is_update_event (logged e) = [].
Proof. unfold logged. by destruct (is_Exception e). Qed.

(** X3: one call of [answer] reaches the provider at most once and sends at
    most one history append, and never an append without a provider
    call: there is no retry and no second write. *)
Theorem answer_calls_at_most_once (question session_id : string)
    (w w' : World) (r : Outcome ChatResponse) (new : list Event) :
  ChatService.answer env config question session_id w = (r, w') →
  trace w' = trace w ++ new →
  (length (List.filter is_update_event new)
   ≤ length (List.filter is_provider_event new))%nat
  ∧ (length (List.filter is_provider_event new) ≤ 1)%nat.
Proof.
  intros Hrun Htr.
  pose proof (answer_run_inv _ _ _ _ _ _ _ _ Hrun Htr) as Hshape.
  inversion Hshape; subst; simpl;
    rewrite ?List.filter_app; simpl;
    rewrite ?filter_quiet_chat, ?filter_quiet_update,
      ?filter_logged_chat, ?filter_logged_update by done;
    simpl; lia.
Qed.

Lemma build_prompt_ends (question : string) (results : list SearchResult)
    (history : list ChatMessage) :
  ∃ middle,
    ChatService._build_prompt question results history
    = {| role := "system"; content := ChatService.SYSTEM_PROMPT |}
      :: middle ++ [{| role := "user"; content := question |}].
Proof.
  unfold ChatService._build_prompt. rewrite history_loop.
  destruct results as [|r results]; simpl.
  - by eexists.
  - eexists (_ :: _). reflexivity.
Qed.

(** X4: whatever the retrieval and the history hold, the message list that
    reaches the provider opens with the fixed instruction and closes
    with the question of the call, and the outcome recorded for the call
    is the provider's own. *)
Theorem answer_prompt_sent (question session_id : string)
    (w w' : World) (r : Outcome ChatResponse) (new : list Event)
    (messages : list Message) (o : Outcome LLMResponse) :
  ChatService.answer env config question session_id w = (r, w') →
  trace w' = trace w ++ new →
  EvChatCompletion messages o ∈ new →
  (∃ middle,
     messages
     = {| role := "system"; content := ChatService.SYSTEM_PROMPT |}
       :: middle ++ [{| role := "user"; content := question |}])
  ∧ ∃ tr, o = llm_chat_completion env tr messages.
Proof.
  intros Hrun Htr Hin.
  pose proof (answer_events_from_answer _ _ _ _ _ _ Hrun Htr) as Horigin.
  rewrite Forall_forall in Horigin.
  destruct (Horigin _ Hin) as [(results & history & ->) Ho].
  split; [apply build_prompt_ends|exact Ho].
Qed.

(** X5: for a session id that no document carries, [answer] runs as for any
    other and leaves the [sessions] collection as it found it: the turn
    is answered and not recorded. *)
Theorem answer_unknown_session_records_nothing
    (question session_id : string) (w : World) :
  (∀ d, d ∈ sessions w → doc_session_id d ≠ session_id) →
  sessions (ChatService.answer env config question session_id w).2
  = sessions w.
Proof.
  intros Hno.
  destruct (answer_run env config question session_id w)
    as (r & w' & new & Hrun & Htr & Hshape).
  rewrite Hrun. simpl.
  inversion Hshape; subst; try done.
  - destruct (fault_applied flt); [|done].
    by apply push_message_no_match.
  - by apply push_message_no_match.
Qed.

(** X6: [answer] raises in two cases only: the emptiness check raised, or
    an object that is not an [Exception] was raised inside the guarded
    block. *)
Theorem answer_raises_only (question session_id : string) (w : World)
    (e : PyExc) :
  (ChatService.answer env config question session_id w).1 = Raise e →
  chroma_count env (trace w) = Raise e ∨ is_Exception e = false.
Proof.
  unfold ChatService.answer, mbind at 1, M_bind at 1.
  rewrite is_empty_run.
  destruct (chroma_count env (trace w)) as [c|e0]; simpl.
  - destruct (c =? 0)%nat; simpl; [done|].
    unfold try_except_Exception.
    destruct (ChatService.answer_try env config question session_id _)
      as [[a|e1] w1]; simpl; [done|].
    rewrite handler_run. simpl. unfold degraded.
    destruct (is_Exception e1) eqn:He1; [done|].
    intros [= ->]. by right.
  - intros [= ->]. by left.
Qed.

End AnswerDetail.

(* ===================================================================== *)
(** ** The session store: creation, appends, deletion, listing *)
(* ===================================================================== *)

Section SessionStoreMore.
Context `{FloatOps} (env : Env).

Lemma find_push_other (session_id other : string) (m : ChatMessage)
    (docs : list SessionDoc) :
  other ≠ session_id →
  List.find (SessionManager.matches other)
    (SessionManager.push_message session_id m docs)
  = List.find (SessionManager.matches other) docs.
Proof.
  intros Hne.
  induction docs as [|d docs IH]; simpl; [done|].
  destruct (SessionManager.matches session_id d) eqn:Hd; simpl.
  - unfold SessionManager.matches in *. simpl.
    apply String.eqb_eq in Hd. rewrite Hd.
    by destruct (String.eqb_spec session_id other); [congruence|].
  - by rewrite IH.
Qed.

Lemma find_push_same (session_id : string) (m : ChatMessage)
    (docs : list SessionDoc) (d : SessionDoc) :
  List.find (SessionManager.matches session_id) docs = Some d →
  List.find (SessionManager.matches session_id)
    (SessionManager.push_message session_id m docs)
  = Some {| doc_session_id := doc_session_id d;
            doc_messages := doc_messages d ++ [m];
            doc_created_at := doc_created_at d |}.
Proof.
  induction docs as [|d' docs IH]; simpl; [done|].
  destruct (SessionManager.matches session_id d') eqn:Hd; simpl.
  - intros [= ->]. unfold SessionManager.matches in *. simpl. by rewrite Hd.
  - rewrite Hd. exact IH.
Qed.

Lemma find_app_other (other : string) (docs : list SessionDoc)
    (d : SessionDoc) :
  doc_session_id d ≠ other →
  List.find (SessionManager.matches other) (docs ++ [d])
  = List.find (SessionManager.matches other) docs.
Proof.
  intros Hne.
  induction docs as [|d' docs IH]; simpl.
  - unfold SessionManager.matches.
    by destruct (String.eqb_spec (doc_session_id d) other).
  - destruct (SessionManager.matches other d'); [done|exact IH].
Qed.

Lemma get_full_history_run (session_id : string) (w : World) :
  mongo_fault env (trace w) = None →
  (SessionManager.get_full_history env session_id w).1
  = Ok (match List.find (SessionManager.matches session_id) (sessions w) with
        | Some d => doc_messages d
        | None => []
        end).
Proof.
  intros Hok.
  unfold SessionManager.get_full_history, SessionManager.find_one,
    mbind, M_bind, mret, M_ret.
  rewrite Hok. by destruct (List.find _ _).
Qed.

Lemma create_session_run (w : World) :
  mongo_fault env (trace w) = None →
  SessionManager.create_session env w
  = (Ok (uuid4 env (trace w)),
     {| sessions := sessions w
                    ++ [{| doc_session_id := uuid4 env (trace w);
                           doc_messages := [];
                           doc_created_at :=
                             utc_now_isoformat env (trace w) |}];
        trace := trace w
                 ++ [EvInsertOne
                       {| doc_session_id := uuid4 env (trace w);
                          doc_messages := [];
                          doc_created_at :=
                            utc_now_isoformat env (trace w) |} None] |}).
Proof.
  intros Hok.
  unfold SessionManager.create_session, SessionManager.new_uuid,
    SessionManager.now_isoformat, SessionManager.insert_one,
    mbind, M_bind, mret, M_ret.
  by rewrite Hok.
Qed.

(** X7: a session created under an id that the store does not hold yet has
    an empty history, whole or recent, and the documents found under
    every other id are the ones that were there. *)
Theorem create_session_starts_empty (n : Z) (w : World) :
  (∀ tr, mongo_fault env tr = None) →
  (∀ d, d ∈ sessions w → doc_session_id d ≠ uuid4 env (trace w)) →
  ∃ w',
    SessionManager.create_session env w = (Ok (uuid4 env (trace w)), w')
    ∧ (SessionManager.get_full_history env (uuid4 env (trace w)) w').1
      = Ok []
    ∧ (SessionManager.get_recent_history env (uuid4 env (trace w)) n w').1
      = Ok []
    ∧ ∀ other, other ≠ uuid4 env (trace w) →
        List.find (SessionManager.matches other) (sessions w')
        = List.find (SessionManager.matches other) (sessions w).
Proof.
  intros Hok Hfresh.
  eexists. split; [by apply create_session_run|].
  set (sid := uuid4 env (trace w)) in *.
  set (d := {| doc_session_id := sid; doc_messages := [];
               doc_created_at := utc_now_isoformat env (trace w) |}).
  assert (List.find (SessionManager.matches sid) (sessions w ++ [d]) = Some d)
    as Hfind by (by apply find_last).
  split; [|split].
  - rewrite get_full_history_run by done. simpl. by rewrite Hfind.
  - unfold SessionManager.get_recent_history, SessionManager.find_one,
      mbind, M_bind, mret, M_ret.
    rewrite Hok. simpl. rewrite Hfind. simpl.
    destruct (_ >? n); [|done]. unfold slice_from. by rewrite drop_nil.
  - intros other Hne. simpl. by apply find_app_other.
Qed.

(** X8: [add_message] on an existing session appends one message, holding
    the question, answer and sources given, at the end of the first
    document of that session, and what is found under every other id
    stays as it was. *)
Theorem add_message_appends_to_its_session
    (session_id question answer : string) (sources : list SourceInfo)
    (w : World) (d : SessionDoc) :
  mongo_fault env (trace w) = None →
  List.find (SessionManager.matches session_id) (sessions w) = Some d →
  let run :=
    SessionManager.add_message env session_id question answer sources w in
  run.1 = Ok ()
  ∧ (∃ m,
       List.find (SessionManager.matches session_id) (sessions run.2)
       = Some {| doc_session_id := doc_session_id d;
                 doc_messages := doc_messages d ++ [m];
                 doc_created_at := doc_created_at d |}
       ∧ recorded m (question, answer, sources))
  ∧ ∀ other, other ≠ session_id →
      List.find (SessionManager.matches other) (sessions run.2)
      = List.find (SessionManager.matches other) (sessions w).
Proof.
  intros Hok Hfind run. subst run.
  rewrite add_message_run, Hok. simpl.
  split; [done|]. split.
  - eexists. split; [by apply find_push_same|done].
  - intros other Hne. by apply find_push_other.
Qed.

Lemma existsb_matches (session_id : string) (docs : list SessionDoc) :
  existsb (SessionManager.matches session_id) docs = true
  ↔ ∃ d, d ∈ docs ∧ doc_session_id d = session_id.
Proof.
  rewrite existsb_exists. split.
  - intros (d & Hd & Hm). exists d. split; [by apply list_elem_of_In|].
    by apply String.eqb_eq.
  - intros (d & Hd & Hm). exists d. split; [by apply list_elem_of_In|].
    by apply String.eqb_eq.
Qed.

Lemma remove_first_no_match (session_id : string) (docs : list SessionDoc) :
  existsb (SessionManager.matches session_id) docs = false →
  SessionManager.remove_first session_id docs = docs.
Proof.
  induction docs as [|d docs IH]; simpl; [done|].
  destruct (SessionManager.matches session_id d); simpl; [done|].
  intros Hd. by rewrite IH.
Qed.

Lemma other_sessions_remove (session_id : string) (docs : list SessionDoc) :
  other_sessions session_id (SessionManager.remove_first session_id docs)
  = other_sessions session_id docs.
Proof.
  unfold other_sessions.
  induction docs as [|d docs IH]; simpl; [done|].
  destruct (SessionManager.matches session_id d) eqn:Hd; simpl; [done|].
  by rewrite Hd, IH.
Qed.

Lemma length_remove_first (session_id : string) (docs : list SessionDoc) :
  existsb (SessionManager.matches session_id) docs = true →
  S (length (SessionManager.remove_first session_id docs)) = length docs.
Proof.
  induction docs as [|d docs IH]; simpl; [done|].
  destruct (SessionManager.matches session_id d); simpl; [done|].
  intros Hd. by rewrite IH.
Qed.

(** X9: [delete_session] answers [True] exactly when a document carries the
    id; it then removes one document, and in every case the documents
    of the other sessions are kept, in order; for an unknown id the
    collection is unchanged. *)
Theorem delete_session_removes_one (session_id : string) (w : World) :
  mongo_fault env (trace w) = None →
  ∃ (deleted : bool) w',
    SessionManager.delete_session env session_id w = (Ok deleted, w')
    ∧ (deleted = true
       ↔ ∃ d, d ∈ sessions w ∧ doc_session_id d = session_id)
    ∧ other_sessions session_id (sessions w')
      = other_sessions session_id (sessions w)
    ∧ (length (sessions w') + (if deleted then 1 else 0)
       = length (sessions w))%nat
    ∧ (deleted = false → sessions w' = sessions w).
Proof.
  intros Hok.
  unfold SessionManager.delete_session, SessionManager.delete_one,
    mbind, M_bind, mret, M_ret.
  rewrite Hok.
  destruct (existsb (SessionManager.matches session_id) (sessions w))
    eqn:Hex.
  - exists true. eexists. split; [done|]. simpl.
    split; [by rewrite <- existsb_matches|].
    split; [apply other_sessions_remove|].
    split; [|done]. rewrite <- (length_remove_first _ _ Hex). lia.
  - exists false. eexists. split; [done|]. simpl.
    rewrite remove_first_no_match by done.
    split; [|split; [done|split; [lia|done]]].
    split; [done|]. intros Hd%existsb_matches. congruence.
Qed.

Lemma find_remove_first_unique (session_id : string)
    (docs : list SessionDoc) :
  NoDup (doc_session_id <$> docs) →
  List.find (SessionManager.matches session_id)
    (SessionManager.remove_first session_id docs) = None.
Proof.
  induction docs as [|d docs IH]; [done|].
  rewrite fmap_cons, NoDup_cons. intros [Hd Hnd]. simpl.
  destruct (SessionManager.matches session_id d) eqn:Hm; simpl.
  - apply find_no_match. intros d' Hd' Heq. apply Hd.
    apply String.eqb_eq in Hm. rewrite Hm, <- Heq.
    apply list_elem_of_fmap. by exists d'.
  - rewrite Hm. by apply IH.
Qed.

(** X10: when session ids are unique in the store, a deleted session is
    gone: its history reads as empty afterwards, whole or recent. *)
Theorem delete_session_forgets (session_id : string) (n : Z) (w : World) :
  (∀ tr, mongo_fault env tr = None) →
  NoDup (doc_session_id <$> sessions w) →
  let w' := (SessionManager.delete_session env session_id w).2 in
  (SessionManager.get_full_history env session_id w').1 = Ok []
  ∧ (SessionManager.get_recent_history env session_id n w').1 = Ok [].
Proof.
  intros Hok Hnd w'.
  assert (List.find (SessionManager.matches session_id) (sessions w') = None)
    as Hfind.
  { subst w'.
    unfold SessionManager.delete_session, SessionManager.delete_one,
      mbind, M_bind, mret, M_ret.
    rewrite Hok. simpl. by apply find_remove_first_unique. }
  split.
  - rewrite get_full_history_run by done. by rewrite Hfind.
  - unfold SessionManager.get_recent_history, SessionManager.find_one,
      mbind, M_bind, mret, M_ret.
    rewrite Hok. simpl. by rewrite Hfind.
Qed.

(** X11: [get_recent_history] with [n <= 0] on an existing session: the
    history without its first [-n] messages; that is the whole history
    for [n = 0], and nothing once [-n] reaches the number of messages. *)
Theorem get_recent_history_nonpositive (session_id : string) (n : Z)
    (w : World) (d : SessionDoc) :
  mongo_fault env (trace w) = None →
  List.find (SessionManager.matches session_id) (sessions w) = Some d →
  n ≤ 0 →
  (SessionManager.get_recent_history env session_id n w).1
  = Ok (drop (Z.to_nat (- n)) (doc_messages d)).
Proof.
  intros Hok Hfind Hn.
  unfold SessionManager.get_recent_history, SessionManager.find_one,
    mbind, M_bind, mret, M_ret.
  rewrite Hok, Hfind. simpl. f_equal.
  destruct (Z.gtb_spec (Z.of_nat (length (doc_messages d))) n) as [Hgt|Hle].
  - unfold slice_from.
    destruct (Z.ltb_spec (- n) 0) as [?|_]; [lia|].
    destruct (Z.min_spec (- n) (Z.of_nat (length (doc_messages d))))
      as [[_ ->]|[Hlen ->]]; [done|].
    rewrite Nat2Z.id, drop_all. symmetry. apply drop_ge. lia.
  - assert (n = 0 ∧ doc_messages d = []) as [-> ->].
    { split; [lia|]. apply length_zero_iff_nil. lia. }
    done.
Qed.

(** X13: the whole-history round trip: with a freshly generated id and a
    driver that does not fail, [get_full_history] returns every turn
    appended, oldest first, each with the question, answer and sources
    written. *)
Theorem full_history_round_trip
    (turns : list (string * string * list SourceInfo)) (w : World) :
  (∀ tr, mongo_fault env tr = None) →
  (∀ d, d ∈ sessions w → doc_session_id d ≠ uuid4 env (trace w)) →
  ∃ history,
    (record_and_read_all env turns w).1 = Ok history
    ∧ Forall2 recorded history turns.
Proof.
  intros Hok Hfresh.
  unfold record_and_read_all, mbind at 1, M_bind at 1.
  rewrite create_session_run by done.
  unfold mbind at 1, M_bind at 1.
  set (sid := uuid4 env (trace w)) in *.
  set (d := {| doc_session_id := sid; doc_messages := [];
               doc_created_at := utc_now_isoformat env (trace w) |}).
  set (w1 := {| sessions := _; trace := _ |}).
  destruct (add_messages_run env sid turns w1 (sessions w) d)
    as (w2 & msgs & -> & Hsess & Hrec); [done..|].
  rewrite get_full_history_run by done.
  rewrite Hsess, find_last by done.
  eexists. split; [done|]. exact Hrec.
Qed.

End SessionStoreMore.

Section ListingProofs.
Context `{FloatOps} `{SessionManager.StrOps} (env : Env).
Context (find_sorted_by_created_at_desc : list SessionDoc → list SessionDoc).

Lemma summarise_loop (docs : list SessionDoc)
    (acc : list SessionManager.SessionSummary) :
  fold_left (λ sessions doc, sessions ++ [SessionManager.summarise doc])
            docs acc
  = acc ++ (SessionManager.summarise <$> docs).
Proof.
  revert acc. induction docs as [|d docs IH]; intros acc; simpl.
  - by rewrite app_nil_r.
  - by rewrite IH, <- app_assoc.
Qed.

Lemma summarise_summarises (doc : SessionDoc) :
  StrLaws → summarises (SessionManager.summarise doc) doc.
Proof.
  intros [Hall Htake Happ Hdots Hnew].
  unfold summarises, SessionManager.summarise. simpl.
  split; [done|]. split; [done|]. split; [done|].
  set (text := match last (doc_messages doc) with
               | Some m => cm_question m
               | None => SessionManager.NEW_CHAT
               end).
  assert ((SessionManager.str_len text ≤ 50)%nat →
          SessionManager.str_take 50 text
          +:+ (if (50 <? SessionManager.str_len text)%nat then "..." else "")
          = text) as Hshort.
  { intros Hle. destruct (Nat.ltb_spec 50 (SessionManager.str_len text));
      [lia|].
    rewrite Hall by done. apply string_app_nil_r. }
  split.
  - rewrite Happ, Htake.
    destruct (50 <? SessionManager.str_len text)%nat.
    + rewrite Hdots. lia.
    + assert (SessionManager.str_len "" = 0%nat) as ->; [|lia].
      pose proof (Happ "" "") as Hzero.
      change ("" +:+ "") with "" in Hzero. lia.
  - subst text. destruct (last (doc_messages doc)) as [m|].
    + destruct (decide (SessionManager.str_len (cm_question m) ≤ 50)%nat)
        as [Hle|Hgt]; [by apply Hshort|].
      destruct (Nat.ltb_spec 50 (SessionManager.str_len (cm_question m)));
        [done|lia].
    + by apply Hshort.
Qed.

(** X14: [get_all_sessions] returns one summary per document that the sorted
    cursor yields, in the cursor's order; each carries the id, creation
    time and message count of its session and a preview of at most 53
    characters: the last question when it has at most 50 characters,
    its first 50 characters followed by ["..."] otherwise, and the
    placeholder for a session without messages. *)
Theorem get_all_sessions_summaries (w : World) :
  StrLaws →
  mongo_fault env (trace w) = None →
  ∃ summaries,
    SessionManager.get_all_sessions env find_sorted_by_created_at_desc w
    = (Ok summaries, w)
    ∧ Forall2 summarises summaries
        (find_sorted_by_created_at_desc (sessions w)).
Proof.
  intros Hlaws Hok.
  unfold SessionManager.get_all_sessions. rewrite Hok.
  eexists. split; [done|].
  rewrite summarise_loop. simpl.
  apply Forall2_fmap_l, Forall_Forall2_diag, Forall_forall.
  intros doc _. by apply summarise_summarises.
Qed.

End ListingProofs.

(* ===================================================================== *)
(** ** The session endpoints *)
(* ===================================================================== *)

Section RouteProofs.
Context `{FloatOps} (env : Env) (config : AppConfig).

Lemma get_session_history_run (session_id : string) (w : World) :
  (∀ tr, mongo_fault env tr = None) →
  (Routes.get_session_history env session_id w).1
  = match List.find (SessionManager.matches session_id) (sessions w) with
    | None => Raise (Routes.HTTPException 404)
    | Some d => Ok {| Routes.shr_session_id := session_id;
                      Routes.shr_messages := doc_messages d |}
    end.
Proof.
  intros Hok.
  unfold Routes.get_session_history, SessionManager.get_full_history,
    SessionManager.find_one, lift, mbind, M_bind, mret, M_ret.
  rewrite Hok. simpl.
  destruct (List.find _ (sessions w)) as [d|] eqn:Hfind; simpl.
  - destruct (doc_messages d) eqn:Hmsgs; simpl; [|done].
    by rewrite Hok, Hfind.
  - by rewrite Hok, Hfind.
Qed.

(** X15: [GET /api/sessions/{id}] answers 404 exactly when no document
    carries the id; a session that exists and has no message yet is
    answered with an empty message list, and any other with all its
    messages, oldest first. *)
Theorem get_session_history_404_iff_absent (session_id : string)
    (w : World) :
  (∀ tr, mongo_fault env tr = None) →
  let r := (Routes.get_session_history env session_id w).1 in
  (r = Raise (Routes.HTTPException 404)
   ↔ ∀ d, d ∈ sessions w → doc_session_id d ≠ session_id)
  ∧ ∀ d, List.find (SessionManager.matches session_id) (sessions w) = Some d →
      r = Ok {| Routes.shr_session_id := session_id;
                Routes.shr_messages := doc_messages d |}.
Proof.
  intros Hok r. subst r. rewrite get_session_history_run by done.
  split.
  - destruct (List.find _ _) as [d|] eqn:Hfind.
    + split; [done|]. intros Hno.
      apply find_some in Hfind as [Hin Hm].
      apply String.eqb_eq in Hm.
      exfalso. by apply (Hno d); [apply list_elem_of_In|].
    + split; [|done]. intros _ d Hin Heq.
      apply list_elem_of_In in Hin.
      pose proof (find_none _ _ Hfind d Hin) as Hm.
      unfold SessionManager.matches in Hm.
      apply String.eqb_neq in Hm. done.
  - by intros d ->.
Qed.

(** X16: [DELETE /api/sessions/{id}] answers 404 and leaves the collection
    as it is when no document carries the id; otherwise it reports
    success, one document is gone and the documents of the other
    sessions are kept. *)
Theorem delete_session_route (session_id : string) (w : World) :
  mongo_fault env (trace w) = None →
  let run := Routes.delete_session env session_id w in
  if existsb (SessionManager.matches session_id) (sessions w)
  then (∃ message, run.1 = Ok {| Routes.dsr_success := true;
                                 Routes.dsr_message := message |})
       ∧ S (length (sessions run.2)) = length (sessions w)
       ∧ other_sessions session_id (sessions run.2)
         = other_sessions session_id (sessions w)
  else run.1 = Raise (Routes.HTTPException 404)
       ∧ sessions run.2 = sessions w.
Proof.
  intros Hok run. subst run.
  unfold Routes.delete_session, SessionManager.delete_session,
    SessionManager.delete_one, lift, mbind, M_bind, mret, M_ret.
  rewrite Hok.
  destruct (existsb _ _) eqn:Hex; simpl.
  - split; [by eexists|]. split.
    + by apply length_remove_first.
    + apply other_sessions_remove.
  - split; [done|]. by apply remove_first_no_match.
Qed.

(** X17: a session that was just created is found when it is opened: the
    answer is its id with an empty message list, never 404. *)
Theorem created_session_opens_empty (w : World) :
  (∀ tr, mongo_fault env tr = None) →
  (∀ d, d ∈ sessions w → doc_session_id d ≠ uuid4 env (trace w)) →
  (Routes.create_then_open env w).1
  = Ok {| Routes.shr_session_id := uuid4 env (trace w);
          Routes.shr_messages := [] |}.
Proof.
  intros Hok Hfresh.
  unfold Routes.create_then_open, Routes.create_session,
    mbind at 1 2, M_bind at 1 2, mret, M_ret.
  rewrite create_session_run by done.
  rewrite get_session_history_run by done. simpl.
  by rewrite find_last.
Qed.

(** X18: when session ids are unique in the store, opening a session after
    deleting it answers 404, whether or not it existed. *)
Theorem deleted_session_is_not_found (session_id : string) (w : World) :
  (∀ tr, mongo_fault env tr = None) →
  NoDup (doc_session_id <$> sessions w) →
  (Routes.delete_then_open env session_id w).1
  = Raise (Routes.HTTPException 404).
Proof.
  intros Hok Hnd.
  unfold Routes.delete_then_open, Routes.delete_session,
    SessionManager.delete_session, SessionManager.delete_one,
    lift, mbind at 1 2 3, M_bind at 1 2 3, mret, M_ret.
  rewrite Hok.
  destruct (existsb _ _) eqn:Hex; simpl; [|done].
  rewrite get_session_history_run by done. simpl.
  by rewrite find_remove_first_unique.
Qed.

End RouteProofs.

(* ===================================================================== *)
(** ** The pipeline over the two LLM clients *)
(* ===================================================================== *)

Section ClientProofs.
Context `{FloatOps} (env : Env) (config : AppConfig).

Ltac split_events :=
  repeat match goal with
         | H : _ ∈ _ :: _ |- _ => apply elem_of_cons in H as [H|H]
         | H : _ ∈ _ ++ _ |- _ => apply elem_of_app in H as [H|H]
         | H : _ ∈ [] |- _ => by apply elem_of_nil in H
         | H : _ ∈ logged _ |- _ => apply logged_only_logs in H
         | H : EvChatCompletion _ _ ∈ ?pre, Hq : Forall quiet ?pre |- _ =>
             by apply quiet_not_chat in H
         | H : EvUpdateOne _ _ _ ∈ ?pre, Hq : Forall quiet ?pre |- _ =>
             by apply quiet_not_update in H
         end.

(** With a provider that never returns, [answer] answers with one of
    its two fixed texts or raises, and writes nothing. *)
Lemma answer_without_provider (env' : Env) (question session_id : string)
    (w : World) :
  (∀ tr messages, ∃ e, llm_chat_completion env' tr messages = Raise e) →
  let run := ChatService.answer env' config question session_id w in
  sessions run.2 = sessions w
  ∧ ∀ resp, run.1 = Ok resp →
      cr_sources resp = []
      ∧ (cr_answer resp = ChatService.KNOWLEDGE_BASE_NOT_BUILT
         ∨ cr_answer resp = ChatService.GENERATION_FAILED).
Proof.
  intros Hdown run. subst run.
  destruct (answer_run env' config question session_id w)
    as (r & w' & new & Hrun & Htr & Hshape).
  pose proof (answer_events_from_answer _ _ _ _ _ _ _ _ Hrun Htr) as Horigin.
  rewrite Forall_forall in Horigin.
  assert (∀ messages resp, EvChatCompletion messages (Ok resp) ∉ new)
    as Hnone.
  { intros messages resp Hin.
    destruct (Horigin _ Hin) as [_ [tr Ho]].
    destruct (Hdown tr messages) as [e He]. congruence. }
  rewrite Hrun. simpl.
  assert (∀ e resp, degraded session_id e = Ok resp →
            cr_sources resp = []
            ∧ (cr_answer resp = ChatService.KNOWLEDGE_BASE_NOT_BUILT
               ∨ cr_answer resp = ChatService.GENERATION_FAILED)) as Hdeg.
  { intros e resp. unfold degraded.
    destruct (is_Exception e); [|done]. intros [= <-]. auto. }
  inversion Hshape; subst.
  - done.
  - split; [done|]. intros resp [= <-]. auto.
  - split; [done|]. apply Hdeg.
  - split; [done|]. apply Hdeg.
  - split; [done|]. apply Hdeg.
  - exfalso. eapply Hnone.
    apply elem_of_cons. right. apply elem_of_app. right. by left.
  - exfalso. eapply Hnone.
    apply elem_of_cons. right. apply elem_of_app. right. by left.
Qed.

(** X19: the factory accepts the provider name "vertexai" in any letter case,
    and with the client it returns no question is ever answered from the
    knowledge base: every call of [answer] returns one of the two fixed
    texts without sources (or raises), and no turn is recorded. *)
Theorem vertexai_never_answers (llm_provider : string)
    (api : list Event → list Message → Outcome LLM.ChatCompletion)
    (question session_id : string) (w : World) :
  LLM.lower llm_provider = "vertexai" →
  ∃ client,
    LLM.create_llm_client llm_provider = Ok client
    ∧ let run :=
        ChatService.answer (LLM.with_client env client api)
          config question session_id w in
      sessions run.2 = sessions w
      ∧ ∀ resp, run.1 = Ok resp →
          cr_sources resp = []
          ∧ (cr_answer resp = ChatService.KNOWLEDGE_BASE_NOT_BUILT
             ∨ cr_answer resp = ChatService.GENERATION_FAILED).
Proof.
  intros Hprovider. exists LLM.VertexAIClient. split.
  - unfold LLM.create_llm_client. by rewrite Hprovider.
  - apply answer_without_provider.
    intros tr messages. by exists LLM.NotImplementedError.
Qed.

(** X20: with the OpenAI client, the text that a call of [answer] gets from
    the provider is the content of the first choice of the completion,
    the empty text when that content is [None]; a completion without
    choices never counts as an answer. *)
Theorem openai_first_choice
    (api : list Event → list Message → Outcome LLM.ChatCompletion)
    (question session_id : string) (w w' : World)
    (r : Outcome ChatResponse) (new : list Event)
    (messages : list Message) (resp : LLMResponse) :
  ChatService.answer (LLM.with_client env LLM.OpenAIClient api)
    config question session_id w = (r, w') →
  trace w' = trace w ++ new →
  EvChatCompletion messages (Ok resp) ∈ new →
  ∃ tr completion content rest,
    api tr messages = Ok completion
    ∧ LLM.cc_choices completion = content :: rest
    ∧ llm_content resp = default "" content
    ∧ llm_model resp = LLM.cc_model completion.
Proof.
  intros Hrun Htr Hin.
  pose proof (answer_events_from_answer _ _ _ _ _ _ _ _ Hrun Htr) as Horigin.
  rewrite Forall_forall in Horigin.
  destruct (Horigin _ Hin) as [_ [tr Ho]].
  simpl in Ho. unfold LLM.openai_chat_completion in Ho.
  destruct (api tr messages) as [completion|e] eqn:Hapi; [|done].
  simpl in Ho.
  destruct (LLM.cc_choices completion) as [|content rest] eqn:Hch; [done|].
  injection Ho as ->. by exists tr, completion, content, rest.
Qed.

End ClientProofs.

(* ===================================================================== *)
(** ** Ingestion *)
(* ===================================================================== *)

Section StoredMetadata.
Context `{FloatOps}.

(** X21: what [add_chunks] sends for a chunk is enough for [search] and for
    the citation: the text, content kind and origin file of the chunk
    come back, and a chunk is never cited with an image path. *)
Theorem stored_chunk_is_retrievable (backends : Backends)
    (chunks : list Chunk) (i : nat) (c : Chunk) (s : Store) :
  chunks !! i = Some c →
  collection_add_fault backends (calls s)
    {| add_ids := chunk_id <$> chunks;
       add_documents := chunk_text <$> chunks;
       add_metadatas := VectorStoreWrite.chunk_metadata_dict <$> chunks |}
  = None →
  ∃ request meta,
    added (VectorStoreWrite.add_chunks backends chunks s).2
    = added s ++ [request]
    ∧ add_ids request !! i = Some (chunk_id c)
    ∧ add_documents request !! i = Some (chunk_text c)
    ∧ add_metadatas request !! i = Some meta
    ∧ retrievable_as (chunk_text c) meta
        (cmeta_content_type (chunk_metadata c))
        (cmeta_source_file (chunk_metadata c)) None.
Proof.
  intros Hi Hok.
  eexists _, (VectorStoreWrite.chunk_metadata_dict c).
  split; [|split; [|split; [|split]]].
  - destruct chunks as [|c0 chunks]; [done|].
    unfold VectorStoreWrite.add_chunks, VectorStoreWrite.collection_add.
    by rewrite Hok.
  - simpl. by rewrite list_lookup_fmap, Hi.
  - simpl. by rewrite list_lookup_fmap, Hi.
  - simpl. by rewrite list_lookup_fmap, Hi.
  - intros dist.
    unfold VectorStore.make_result, VectorStoreWrite.chunk_metadata_dict.
    rewrite !lookup_insert_ne by done. rewrite lookup_singleton_eq. simpl.
    destruct (cmeta_content_type (chunk_metadata c)) eqn:Hkind; simpl.
    + eexists _, _. split; [done|]. simpl.
      unfold ChatService.make_source. simpl.
      rewrite lookup_insert_eq. simpl. by repeat split.
    + eexists _, _. split; [done|]. simpl.
      unfold ChatService.make_source. simpl.
      rewrite lookup_insert_eq. simpl.
      rewrite !lookup_insert_ne by done. rewrite lookup_singleton_ne by done.
      simpl. by repeat split.
Qed.

End StoredMetadata.

Section StoredImages.
Context `{FloatOps}.

(** X22: what [add_image_documents] sends for an image document is enough
    for [search] and for the citation: the description, content kind
    and file name come back, and the document is cited with its image
    path exactly when its content kind is image. *)
Theorem stored_image_is_retrievable (backends : Backends)
    (docs : list ImageDocument) (i : nat) (d : ImageDocument) (s : Store) :
  docs !! i = Some d →
  collection_add_fault backends (calls s)
    {| add_ids := image_doc_id <$> docs;
       add_documents := image_description <$> docs;
       add_metadatas := VectorStoreWrite.image_metadata_dict <$> docs |}
  = None →
  ∃ request meta,
    added (VectorStoreWrite.add_image_documents backends docs s).2
    = added s ++ [request]
    ∧ add_ids request !! i = Some (image_doc_id d)
    ∧ add_documents request !! i = Some (image_description d)
    ∧ add_metadatas request !! i = Some meta
    ∧ retrievable_as (image_description d) meta
        (imeta_content_type (image_metadata d))
        (imeta_source_file (image_metadata d))
        (if decide (imeta_content_type (image_metadata d) = IMAGE)
         then Some (imeta_image_path (image_metadata d)) else None).
Proof.
  intros Hi Hok.
  eexists _, (VectorStoreWrite.image_metadata_dict d).
  split; [|split; [|split; [|split]]].
  - destruct docs as [|d0 docs]; [done|].
    unfold VectorStoreWrite.add_image_documents,
      VectorStoreWrite.collection_add.
    by rewrite Hok.
  - simpl. by rewrite list_lookup_fmap, Hi.
  - simpl. by rewrite list_lookup_fmap, Hi.
  - simpl. by rewrite list_lookup_fmap, Hi.
  - intros dist.
    unfold VectorStore.make_result, VectorStoreWrite.image_metadata_dict.
    rewrite !lookup_insert_ne by done. rewrite lookup_singleton_eq. simpl.
    destruct (imeta_content_type (image_metadata d)) eqn:Hkind; simpl.
    + eexists _, _. split; [done|]. simpl.
      unfold ChatService.make_source. simpl.
      rewrite (lookup_insert_ne _ "image_path" "source_file") by done.
      rewrite lookup_insert_eq. simpl. by repeat split.
    + eexists _, _. split; [done|]. simpl.
      unfold ChatService.make_source. simpl.
      rewrite (lookup_insert_ne _ "image_path" "source_file") by done.
      rewrite !lookup_insert_eq. simpl. by repeat split.
Qed.

End StoredImages.

Section ReaderProofs.
Context `{FloatOps} (backends : Backends).

Lemma read_row_sound (file_path : Path) (sheet_name : string)
    (row_idx : nat) (row : list Cell) (o : option FAQEntry) :
  ExcelReader.read_row backends file_path sheet_name row_idx row = Ok o →
  match o with
  | Some e =>
      non_blank (sheet_name, row_idx, row) = true
      ∧ entry_of_row backends file_path e (sheet_name, row_idx, row)
  | None => non_blank (sheet_name, row_idx, row) = false
  end.
Proof.
  unfold ExcelReader.read_row, ExcelReader.row_get, non_blank,
    entry_of_row.
  destruct row as [|c0 row]; [done|]. simpl.
  assert (c0 = CellNone ∨ c0 ≠ CellNone) as [->|Hc0]
    by (destruct c0; auto).
  { simpl. by intros [= <-]. }
  assert (∀ k : Outcome (option FAQEntry),
            match c0 with CellNone => mret None | _ => k end = k) as ->
    by (by destruct c0).
  destruct (ExcelReader.cell_int backends c0) as [z|e] eqn:Hint; simpl.
  - destruct row as [|c1 [|c2 [|c3 [|c4 [|c5 rest]]]]]; try done.
    simpl. intros [= <-]. split; [by destruct c0|].
    exists c0, c1, c2, c3, c4, c5, rest. simpl. by rewrite Hint.
  - destruct (is_ValueError_or_TypeError e); [|done]. simpl.
    destruct row as [|c1 [|c2 [|c3 [|c4 [|c5 rest]]]]]; try done.
    simpl. intros [= <-]. split; [by destruct c0|].
    exists c0, c1, c2, c3, c4, c5, rest. simpl. by rewrite Hint.
Qed.

Lemma read_row_readable (file_path : Path) (sheet_name : string)
    (row_idx : nat) (row : list Cell) :
  readable backends (sheet_name, row_idx, row) →
  ∃ o, ExcelReader.read_row backends file_path sheet_name row_idx row = Ok o.
Proof.
  unfold readable, ExcelReader.read_row, ExcelReader.row_get. simpl.
  destruct row as [|c0 row]; [done|]. simpl.
  assert (c0 = CellNone ∨ c0 ≠ CellNone) as [->|Hc0]
    by (destruct c0; auto).
  { by eexists. }
  assert (∀ k : Outcome (option FAQEntry),
            match c0 with CellNone => mret None | _ => k end = k) as ->
    by (by destruct c0).
  intros Hrow.
  assert ((5 ≤ length row)%nat
          ∧ match ExcelReader.cell_int backends c0 with
            | Ok _ => True
            | Raise e => is_ValueError_or_TypeError e = true
            end) as [Hlen Hint] by (by destruct c0).
  destruct row as [|c1 [|c2 [|c3 [|c4 [|c5 rest]]]]]; simpl in Hlen; try lia.
  destruct (ExcelReader.cell_int backends c0) as [z|e]; simpl.
  - by eexists.
  - rewrite Hint. simpl. by eexists.
Qed.

Lemma read_rows_sound (file_path : Path) (sheet_name : string)
    (rows : list (nat * list Cell)) (acc entries : list FAQEntry) :
  ExcelReader.read_rows backends file_path sheet_name rows acc = Ok entries →
  ∃ es, entries = acc ++ es
        ∧ Forall2 (entry_of_row backends file_path) es
            (List.filter non_blank
               ((λ ir : nat * list Cell, (sheet_name, ir.1, ir.2)) <$> rows)).
Proof.
  revert acc.
  induction rows as [|[row_idx row] rows IH]; intros acc; simpl.
  - intros [= <-]. exists []. by rewrite app_nil_r.
  - destruct (ExcelReader.read_row backends file_path sheet_name row_idx row)
      as [o|e] eqn:Hrow; [|done].
    simpl. intros Hrest.
    apply read_row_sound in Hrow.
    destruct (IH _ Hrest) as (es & -> & Hes).
    destruct o as [e|].
    + destruct Hrow as [-> He]. exists (e :: es).
      rewrite <- app_assoc. split; [done|]. by constructor.
    + rewrite Hrow. by exists es.
Qed.

Lemma read_rows_readable (file_path : Path) (sheet_name : string)
    (rows : list (nat * list Cell)) (acc : list FAQEntry) :
  Forall (readable backends)
    ((λ ir : nat * list Cell, (sheet_name, ir.1, ir.2)) <$> rows) →
  ∃ entries,
    ExcelReader.read_rows backends file_path sheet_name rows acc = Ok entries.
Proof.
  revert acc.
  induction rows as [|[row_idx row] rows IH]; intros acc Hrows; simpl.
  - by eexists.
  - rewrite fmap_cons in Hrows. apply Forall_cons in Hrows as [Hrow Hrows].
    destruct (read_row_readable file_path sheet_name row_idx row Hrow)
      as [o ->].
    simpl. by apply IH.
Qed.

Lemma numbered_rows_cons (ws : Sheet) (sheets : list Sheet)
    (close : option PyExc) :
  numbered_rows {| wb_sheets := ws :: sheets; wb_close := close |}
  = ((λ ir : nat * list Cell, (ws_name ws, ir.1, ir.2))
       <$> enumerate 2 (ws_rows ws))
    ++ numbered_rows {| wb_sheets := sheets; wb_close := close |}.
Proof. reflexivity. Qed.

Lemma read_sheets_sound (file_path : Path) (sheets : list Sheet)
    (close : option PyExc) (acc entries : list FAQEntry) :
  ExcelReader.read_sheets backends file_path sheets acc = Ok entries →
  Forall (λ ws, ws_error ws = None) sheets
  ∧ ∃ es, entries = acc ++ es
          ∧ Forall2 (entry_of_row backends file_path) es
              (List.filter non_blank
                 (numbered_rows {| wb_sheets := sheets;
                                   wb_close := close |})).
Proof.
  revert acc.
  induction sheets as [|ws sheets IH]; intros acc.
  - intros [= <-]. split; [done|]. exists []. by rewrite app_nil_r.
  - rewrite numbered_rows_cons. simpl ExcelReader.read_sheets.
    destruct (ExcelReader.read_rows backends file_path (ws_name ws)
                (enumerate 2 (ws_rows ws)) acc)
      as [entries1|e] eqn:Hrows; [|done].
    simpl. destruct (ws_error ws) as [e|] eqn:Herror; [done|].
    intros Hrest.
    apply read_rows_sound in Hrows as (es1 & -> & Hes1).
    destruct (IH _ Hrest) as (Hsheets & es2 & -> & Hes2).
    split; [by constructor|].
    exists (es1 ++ es2). rewrite <- app_assoc. split; [done|].
    rewrite List.filter_app. by apply Forall2_app.
Qed.

Lemma read_sheets_readable (file_path : Path) (sheets : list Sheet)
    (close : option PyExc) (acc : list FAQEntry) :
  Forall (λ ws, ws_error ws = None) sheets →
  Forall (readable backends)
    (numbered_rows {| wb_sheets := sheets; wb_close := close |}) →
  ∃ entries,
    ExcelReader.read_sheets backends file_path sheets acc = Ok entries.
Proof.
  revert acc.
  induction sheets as [|ws sheets IH]; intros acc Hends Hrows.
  - by eexists.
  - rewrite numbered_rows_cons in Hrows.
    apply Forall_app in Hrows as [Hrows Hrest].
    apply Forall_cons in Hends as [Hend Hends].
    simpl ExcelReader.read_sheets.
    destruct (read_rows_readable file_path (ws_name ws)
                (enumerate 2 (ws_rows ws)) acc Hrows) as [entries1 ->].
    simpl. rewrite Hend. by apply IH.
Qed.

(** The reader on a file that exists and a workbook that opens, by the
    sheets of the workbook. *)
Lemma read_faq_excel_run (file_path : Path) (wb : Workbook) (s : Store) :
  path_exists backends file_path = Ok true →
  load_workbook backends (calls s) file_path = Ok wb →
  ExcelReader.read_faq_excel backends file_path s
  = (match ExcelReader.read_sheets backends file_path (wb_sheets wb) [] with
     | Ok entries =>
         match wb_close wb with
         | Some e => Raise e
         | None => Ok entries
         end
     | Raise e => Raise e
     end, tick s).
Proof.
  intros Hexists Hload.
  unfold ExcelReader.read_faq_excel, ExcelReader.open_workbook, pure_call,
    raise, mbind, I_bind, mret, I_ret.
  rewrite Hexists. simpl. rewrite Hload.
  destruct (ExcelReader.read_sheets backends file_path (wb_sheets wb) [])
    as [entries|e]; [|done].
  by destruct (wb_close wb).
Qed.

(** X23: [read_faq_excel] on a file that exists and a workbook that opens.
    It returns when every sheet is iterated to its end, the workbook
    closes and every row can be read.  It returns only when every sheet
    was iterated to its end (a chartsheet makes it raise) and the
    workbook closed, and what it returns is one entry per row whose
    first cell is not empty, in reading order over the sheets, each
    carrying the file name, the sheet name, the spreadsheet row number
    and the texts of its row; rows with an empty first cell are left out
    without shifting the numbers of the rows after them. *)
Theorem read_faq_excel_entries (file_path : Path) (wb : Workbook)
    (s : Store) :
  path_exists backends file_path = Ok true →
  load_workbook backends (calls s) file_path = Ok wb →
  (reads_to_the_end wb →
   Forall (readable backends) (numbered_rows wb) →
   ∃ entries,
     (ExcelReader.read_faq_excel backends file_path s).1 = Ok entries)
  ∧ ∀ entries,
      (ExcelReader.read_faq_excel backends file_path s).1 = Ok entries →
      reads_to_the_end wb
      ∧ Forall2 (entry_of_row backends file_path) entries
          (List.filter non_blank (numbered_rows wb)).
Proof.
  intros Hexists Hload.
  rewrite (read_faq_excel_run file_path wb s Hexists Hload). simpl.
  destruct wb as [sheets close]. simpl. split.
  - intros [Hends Hclose] Hrows. simpl in Hends, Hclose.
    destruct (read_sheets_readable file_path sheets close [] Hends Hrows)
      as [entries ->].
    rewrite Hclose. by exists entries.
  - intros entries Hread.
    destruct (ExcelReader.read_sheets backends file_path sheets [])
      as [entries'|e] eqn:Hsheets; [|done].
    destruct close as [e|]; [done|]. injection Hread as ->.
    apply (read_sheets_sound _ _ None) in Hsheets
      as (Hends & es & -> & Hes).
    by split.
Qed.

End ReaderProofs.

Section PipelineProofs.
Context `{FloatOps} (backends : Backends) (config : IngestConfig).

Lemma I_bind_run {A B} (m : I A) (f : A → I B) (s : Store) :
  (m ≫= f) s
  = match m s with
    | (Ok a, s') => f a s'
    | (Raise e, s') => (Raise e, s')
    end.
Proof. done. Qed.

Lemma stored_count_app (s s' : Store) (new : list AddRequest) :
  added s' = added s ++ new →
  stored_count s'
  = stored_count s
    + Z.of_nat (sum_list_with (λ request, length (add_ids request)) new).
Proof.
  intros Hadd. unfold stored_count. rewrite Hadd, sum_list_with_app. lia.
Qed.

Lemma stored_count_same (s s' : Store) :
  added s' = added s → stored_count s' = stored_count s.
Proof. unfold stored_count. by intros ->. Qed.

Lemma read_faq_excel_frame (file_path : Path) (s : Store) :
  added (ExcelReader.read_faq_excel backends file_path s).2 = added s.
Proof.
  unfold ExcelReader.read_faq_excel, ExcelReader.open_workbook, pure_call,
    raise, mbind, I_bind, mret, I_ret.
  destruct (path_exists backends file_path) as [[|]|e]; simpl; try done.
  destruct (load_workbook backends (calls s) file_path) as [wb|e]; simpl;
    [|done].
  destruct (ExcelReader.read_sheets backends file_path (wb_sheets wb) []);
    simpl; [|done].
  by destruct (wb_close wb).
Qed.

Lemma entries_to_chunks_run (published : list FAQEntry) (s : Store) :
  ∃ chunks s',
    ETLPipeline.entries_to_chunks backends published s = (Ok chunks, s')
    ∧ added s' = added s
    ∧ Forall2 chunk_of_entry chunks published.
Proof.
  revert s. induction published as [|e published IH]; intros s.
  - by exists [], s.
  - simpl ETLPipeline.entries_to_chunks. rewrite I_bind_run.
    unfold ExcelReader.faq_entry_to_chunk at 1. rewrite I_bind_run.
    unfold ExcelReader.new_uuid at 1. simpl.
    rewrite I_bind_run.
    destruct (IH (tick s)) as (chunks & s' & -> & Hadd & Hchunks).
    eexists (_ :: chunks), s'. split; [done|]. split; [done|].
    constructor; [by split|done].
Qed.

(** The guarded part of [ingest_excel], by what it leaves in the store
    and what it reports. *)
Lemma ingest_excel_try_run (file_path : Path) (s : Store) :
  let run := ETLPipeline.ingest_excel_try backends file_path s in
  match run.1 with
  | Ok result =>
      error_count result = 0
      ∧ 0 ≤ total_processed result
      ∧ stored_count run.2 = stored_count s + total_processed result
  | Raise _ => added run.2 = added s
  end.
Proof.
  cbv zeta. unfold ETLPipeline.ingest_excel_try. rewrite I_bind_run.
  pose proof (read_faq_excel_frame file_path s) as Hread.
  destruct (ExcelReader.read_faq_excel backends file_path s)
    as [[entries|e] s1]; simpl in Hread; [|done].
  rewrite I_bind_run.
  destruct (entries_to_chunks_run (ExcelReader.filter_published entries) s1)
    as (chunks & s2 & -> & Hadd & _).
  destruct chunks as [|c chunks].
  - simpl. split; [done|]. split; [done|].
    rewrite Z.add_0_r. apply stored_count_same. congruence.
  - rewrite I_bind_run.
    unfold VectorStoreWrite.add_chunks, VectorStoreWrite.collection_add.
    destruct (collection_add_fault backends (calls s2) _); simpl.
    + congruence.
    + split; [done|]. split; [lia|].
      erewrite stored_count_app; [|simpl; by rewrite Hadd, Hread].
      simpl. rewrite length_fmap. lia.
Qed.

(** [ingest_excel], by what it leaves in the store and what it
    reports. *)
Lemma ingest_excel_run (file_path : Path) (s : Store) :
  let run := ETLPipeline.ingest_excel backends file_path s in
  match run.1 with
  | Ok result =>
      stored_count run.2 = stored_count s + total_processed result
      ∧ 0 ≤ total_processed result
      ∧ (error_count result = 0
         ∨ error_count result = 1 ∧ total_processed result = 0)
  | Raise e => is_Exception e = false
  end.
Proof.
  cbv zeta. unfold ETLPipeline.ingest_excel.
  pose proof (ingest_excel_try_run file_path s) as Htry. cbv zeta in Htry.
  destruct (ETLPipeline.ingest_excel_try backends file_path s)
    as [[result|e] s1]; simpl in Htry.
  - simpl. destruct Htry as (Herr & Hpos & Hcount). auto.
  - destruct (is_FileNotFoundError e); simpl.
    { rewrite Z.add_0_r. split; [by apply stored_count_same|].
      split; [lia|]. by right. }
    destruct (is_Exception e) eqn:He; simpl; [|done].
    rewrite Z.add_0_r. split; [by apply stored_count_same|].
    split; [lia|]. by right.
Qed.


(** X25: only published entries are stored: when the workbook was read and
    the store accepts the request, [ingest_excel] sends one request
    holding one chunk per entry whose status is "公開", in reading order,
    with text [title + "\n" + body] and the entry's provenance as
    metadata, and reports their number; with no such entry it sends
    nothing. *)
Theorem ingest_excel_stores_published (file_path : Path)
    (entries : list FAQEntry) (s s1 : Store) :
  ExcelReader.read_faq_excel backends file_path s = (Ok entries, s1) →
  (∀ n request, collection_add_fault backends n request = None) →
  let published :=
    List.filter (λ e, String.eqb (fe_status e) "公開") entries in
  let run := ETLPipeline.ingest_excel backends file_path s in
  ∃ chunks result,
    Forall2 chunk_of_entry chunks published
    ∧ run.1 = Ok result
    ∧ total_processed result = Z.of_nat (length published)
    ∧ error_count result = 0
    ∧ added run.2
      = added s
        ++ match chunks with
           | [] => []
           | _ :: _ =>
               [{| add_ids := chunk_id <$> chunks;
                   add_documents := chunk_text <$> chunks;
                   add_metadatas :=
                     VectorStoreWrite.chunk_metadata_dict <$> chunks |}]
           end.
Proof.
  intros Hread Hok. cbv zeta.
  pose proof (read_faq_excel_frame file_path s) as Hframe.
  rewrite Hread in Hframe. simpl in Hframe.
  unfold ETLPipeline.ingest_excel, ETLPipeline.ingest_excel_try.
  rewrite I_bind_run, Hread, I_bind_run.
  destruct (entries_to_chunks_run (ExcelReader.filter_published entries) s1)
    as (chunks & s2 & -> & Hadd & Hchunks).
  unfold ExcelReader.filter_published, ExcelReader.PUBLISH_STATUS in Hchunks.
  exists chunks.
  pose proof (Forall2_length _ _ _ Hchunks) as Hlen.
  destruct chunks as [|c chunks].
  - simpl. eexists. split; [done|]. split; [done|]. simpl.
    split; [by rewrite <- Hlen|]. split; [done|].
    rewrite app_nil_r. congruence.
  - rewrite I_bind_run.
    unfold VectorStoreWrite.add_chunks, VectorStoreWrite.collection_add.
    rewrite Hok. simpl.
    eexists. split; [done|]. split; [done|]. simpl.
    split; [by rewrite <- Hlen|]. split; [done|]. congruence.
Qed.

Lemma ingest_image_run (images : list Path) (image_path : Path)
    (counters : Z * Z) (s : Store) :
  image_path ∈ images →
  let run := ETLPipeline.ingest_image backends image_path counters s in
  match run.1 with
  | Ok counters' =>
      (counters' = (counters.1 + 1, counters.2)
       ∧ ∃ request, added run.2 = added s ++ [request]
                    ∧ stores_one_image backends images request)
      ∨ (counters' = (counters.1, counters.2 + 1) ∧ added run.2 = added s)
  | Raise e => is_Exception e = false
  end.
Proof.
  intros Hin. cbv zeta. destruct counters as [processed errors].
  unfold ETLPipeline.ingest_image, ImageProcessor.process_image,
    ImageProcessor.llm_describe_image, ExcelReader.new_uuid, raise,
    pure_call, VectorStoreWrite.add_image_documents,
    VectorStoreWrite.collection_add, mbind, I_bind, mret, I_ret.
  destruct (path_exists backends image_path) as [[|]|e]; simpl; cycle 1.
  { right. by split. }
  { destruct (is_Exception e) eqn:He; simpl; [|done]. right. by split. }
  destruct (ImageProcessor.supported image_path); simpl; cycle 1.
  { right. by split. }
  destruct (describe_image backends (calls s) image_path)
    as [description|e] eqn:Hdesc; simpl; cycle 1.
  { destruct (is_Exception e) eqn:He; simpl; [|done]. right. by split. }
  destruct (collection_add_fault backends _ _) as [e|]; simpl.
  { destruct (is_Exception e) eqn:He; simpl; [|done]. right. by split. }
  left. split; [done|]. eexists. split; [done|].
  by eexists image_path, _, description, (calls s).
Qed.

Lemma ingest_images_loop_run (images image_paths : list Path)
    (counters : Z * Z) (s : Store) :
  image_paths ⊆ images →
  let run := ETLPipeline.ingest_images_loop backends image_paths counters s in
  match run.1 with
  | Ok counters' =>
      ∃ new,
        added run.2 = added s ++ new
        ∧ Forall (stores_one_image backends images) new
        ∧ counters'.1 = counters.1 + Z.of_nat (length new)
        ∧ counters.2 ≤ counters'.2
        ∧ counters'.1 + counters'.2
          = counters.1 + counters.2 + Z.of_nat (length image_paths)
  | Raise e => is_Exception e = false
  end.
Proof.
  cbv zeta. revert counters s.
  induction image_paths as [|p image_paths IH]; intros counters s Hsub.
  - simpl. exists []. rewrite app_nil_r. simpl.
    split; [done|]. split; [done|]. split; [lia|]. split; lia.
  - simpl ETLPipeline.ingest_images_loop. rewrite I_bind_run.
    assert (p ∈ images) as Hp by (apply Hsub; by left).
    assert (image_paths ⊆ images) as Hrest
      by (intros x Hx; apply Hsub; by right).
    pose proof (ingest_image_run images p counters s Hp) as Hstep.
    cbv zeta in Hstep.
    destruct (ETLPipeline.ingest_image backends p counters s)
      as [[counters1|e] s1]; simpl in Hstep; [|done].
    specialize (IH counters1 s1 Hrest).
    destruct (ETLPipeline.ingest_images_loop backends image_paths counters1 s1)
      as [[counters2|e] s2]; simpl in IH |- *; [|done].
    destruct IH as (new2 & Hadd2 & Hnew2 & Hp2 & He2 & Hsum2).
    destruct Hstep as [[-> (request & Hadd1 & Hreq)]|[-> Hadd1]].
    + exists (request :: new2). simpl in *.
      rewrite Hadd2, Hadd1, <- app_assoc.
      split; [done|]. split; [by constructor|]. split; [lia|]. split; lia.
    + exists new2. simpl in *. rewrite Hadd2, Hadd1.
      split; [done|]. split; [done|]. split; [lia|]. split; lia.
Qed.

Lemma sum_single_requests (images : list Path) (new : list AddRequest) :
  Forall (stores_one_image backends images) new →
  sum_list_with (λ request, length (add_ids request)) new = length new.
Proof.
  induction 1 as [|request new (p & id & description & n & _ & _ & Hid & _)
                   _ IH];
    simpl; [done|]. by rewrite IH, Hid.
Qed.

(** [ingest_images], by the outcome of [list_images]: its exception is
    raised before anything is stored; on the images listed, the loop
    and the report by what they leave in the store. *)
Lemma ingest_images_run (directory : Path) (s : Store) :
  let run := ETLPipeline.ingest_images backends directory s in
  match ImageProcessor.list_images backends directory with
  | Raise e => run = (Raise e, s)
  | Ok images =>
      match run.1 with
      | Ok result =>
          ∃ new,
            added run.2 = added s ++ new
            ∧ Forall (stores_one_image backends images) new
            ∧ total_processed result = Z.of_nat (length new)
            ∧ 0 ≤ error_count result
            ∧ total_processed result + error_count result
              = Z.of_nat (length images)
      | Raise e => is_Exception e = false
      end
  end.
Proof.
  cbv zeta. unfold ETLPipeline.ingest_images. rewrite I_bind_run.
  unfold pure_call.
  destruct (ImageProcessor.list_images backends directory)
    as [images|e]; [|done].
  pose proof (ingest_images_loop_run images images (0, 0) s) as Hloop.
  cbv zeta in Hloop.
  destruct images as [|p rest].
  - simpl. exists []. rewrite app_nil_r. by repeat split.
  - rewrite I_bind_run.
    destruct (ETLPipeline.ingest_images_loop backends (p :: rest) (0, 0) s)
      as [[counters|e] s1]; simpl in Hloop |- *; [|by apply Hloop].
    destruct Hloop as (new & Hadd & Hnew & Hp & He & Hsum); [done|].
    exists new. simpl in *.
    split; [done|]. split; [done|]. split; [lia|]. split; lia.
Qed.

(** X26: [ingest_images] raises what [list_images] raises, before anything
    is stored; apart from that it never raises an [Exception]: an image
    that cannot be described or stored counts as one error and the loop
    goes on.  When it returns, the directory was listed, every image
    listed is counted once, as processed or as an error, and the store
    has accepted exactly one request per processed image, holding the
    description that the provider gave of one listed image, under the
    path of that image. *)
Theorem ingest_images_accounts (directory : Path) (s : Store) :
  let run := ETLPipeline.ingest_images backends directory s in
  (∀ e, ImageProcessor.list_images backends directory = Raise e →
        run = (Raise e, s))
  ∧ (∀ e, run.1 = Raise e →
          ImageProcessor.list_images backends directory = Raise e
          ∨ is_Exception e = false)
  ∧ ∀ result, run.1 = Ok result →
      ∃ images,
        ImageProcessor.list_images backends directory = Ok images
        ∧ total_processed result + error_count result
          = Z.of_nat (length images)
        ∧ 0 ≤ total_processed result
        ∧ 0 ≤ error_count result
        ∧ stored_count run.2 = stored_count s + total_processed result
        ∧ ∃ new,
            added run.2 = added s ++ new
            ∧ Z.of_nat (length new) = total_processed result
            ∧ Forall (stores_one_image backends images) new.
Proof.
  cbv zeta.
  pose proof (ingest_images_run directory s) as Hrun. cbv zeta in Hrun.
  destruct (ImageProcessor.list_images backends directory) as [images|e0].
  - split; [done|].
    destruct (ETLPipeline.ingest_images backends directory s)
      as [[result|e] s1]; simpl in Hrun |- *.
    + split; [done|]. intros ? [= <-]. exists images.
      destruct Hrun as (new & Hadd & Hnew & Hp & He & Hsum).
      split; [done|]. split; [done|].
      assert (stored_count s1 = stored_count s + total_processed result)
        as Hcount.
      { erewrite stored_count_app by done.
        erewrite sum_single_requests by done. lia. }
      split; [lia|]. split; [lia|]. split; [done|].
      exists new. split; [done|]. split; [lia|done].
    + split; [|done]. intros ? [= <-]. by right.
  - rewrite Hrun. simpl. split; [by intros ? [= <-]|].
    split; [|done]. intros ? [= <-]. by left.
Qed.

Lemma ingest_excel_files_run (xlsx_files : list Path)
    (acc : Z * Z * list string) (s : Store) :
  let run := ETLPipeline.ingest_excel_files backends xlsx_files acc s in
  match run.1 with
  | Ok acc' =>
      stored_count run.2 - stored_count s = acc'.1.1 - acc.1.1
      ∧ acc.1.1 ≤ acc'.1.1
      ∧ acc.1.2 ≤ acc'.1.2
      ∧ acc'.1.2 - acc.1.2 ≤ Z.of_nat (length xlsx_files)
      ∧ (length acc'.2 = length acc.2 + length xlsx_files)%nat
  | Raise e => is_Exception e = false
  end.
Proof.
  cbv zeta. revert acc s.
  induction xlsx_files as [|p xlsx_files IH]; intros acc s.
  - simpl. split; [lia|]. split; [lia|]. split; [lia|]. split; lia.
  - simpl ETLPipeline.ingest_excel_files. rewrite I_bind_run.
    pose proof (ingest_excel_run p s) as Hrun. cbv zeta in Hrun.
    destruct (ETLPipeline.ingest_excel backends p s)
      as [[result|e] s1]; simpl in Hrun; [|done].
    destruct Hrun as (Hcount & Hpos & Herr).
    match goal with
    | |- context [ETLPipeline.ingest_excel_files backends xlsx_files ?a s1]
      => specialize (IH a s1)
    end.
    destruct (ETLPipeline.ingest_excel_files backends xlsx_files _ s1)
      as [[acc'|e] s2]; simpl in IH |- *; [|done].
    destruct IH as (Hc & Ht & He & Hn & Hl). rewrite length_app in Hl.
    simpl in Hl.
    split; [lia|]. split; [lia|]. split; [lia|]. split; lia.
Qed.

Lemma ingest_images_loop_failing (image_paths : list Path)
    (counters : Z * Z) (s : Store) :
  (∀ n p, describe_image backends n p = Raise LLM.NotImplementedError) →
  Forall (λ p, ∀ e, path_exists backends p = Raise e → is_Exception e = true)
    image_paths →
  ∃ s',
    ETLPipeline.ingest_images_loop backends image_paths counters s
    = (Ok (counters.1, counters.2 + Z.of_nat (length image_paths)), s')
    ∧ added s' = added s.
Proof.
  intros Hfails Hprobe. revert counters s.
  induction Hprobe as [|p image_paths Hp _ IH]; intros [processed errors] s.
  - exists s. simpl. by rewrite Z.add_0_r.
  - simpl ETLPipeline.ingest_images_loop. rewrite I_bind_run.
    assert (∃ s1, ETLPipeline.ingest_image backends p (processed, errors) s
                  = (Ok (processed, errors + 1), s1)
                  ∧ added s1 = added s) as (s1 & -> & Hadd1).
    { unfold ETLPipeline.ingest_image, ImageProcessor.process_image,
        ImageProcessor.llm_describe_image, raise, pure_call, mbind, I_bind.
      destruct (path_exists backends p) as [[|]|e] eqn:Hexists; simpl;
        [|by eexists|rewrite (Hp e eq_refl); by eexists].
      destruct (ImageProcessor.supported p); simpl; [|by eexists].
      rewrite Hfails. simpl. by eexists. }
    destruct (IH (processed, errors + 1) s1) as (s' & -> & Hadd).
    exists s'. simpl. split; [|congruence].
    do 2 f_equal. f_equal. lia.
Qed.

(** X27: with a client that describes no image, as the Vertex AI client,
    [ingest_images] still returns on a directory that can be listed,
    whose images can be probed: it stores nothing and reports every
    listed image as an error. *)
Theorem ingest_images_without_describer (directory : Path)
    (images : list Path) (s : Store) :
  (∀ n p, describe_image backends n p = Raise LLM.NotImplementedError) →
  ImageProcessor.list_images backends directory = Ok images →
  Forall (λ p, ∀ e, path_exists backends p = Raise e → is_Exception e = true)
    images →
  ∃ result s',
    ETLPipeline.ingest_images backends directory s = (Ok result, s')
    ∧ total_processed result = 0
    ∧ error_count result = Z.of_nat (length images)
    ∧ added s' = added s.
Proof.
  intros Hfails Hlist Hprobe. unfold ETLPipeline.ingest_images.
  rewrite I_bind_run. unfold pure_call. rewrite Hlist.
  destruct images as [|p rest].
  - by eexists _, s.
  - rewrite I_bind_run.
    destruct (ingest_images_loop_failing (p :: rest) (0, 0) s Hfails Hprobe)
      as (s' & -> & Hadd).
    by eexists _, s'.
Qed.

Lemma pure_call_bind {A B} (o : Outcome A) (f : A → I B) (s : Store) :
  (pure_call o ≫= f) s
  = match o with
    | Ok a => f a s
    | Raise e => (Raise e, s)
    end.
Proof. rewrite I_bind_run. unfold pure_call. by destruct o. Qed.

(** X28: [ingest_all] raises what the search for workbooks raises, before
    anything is stored, and never returns when the image directory
    cannot be listed; apart from these two it never raises an
    [Exception].  When it returns, its report is exact on what was
    stored: over all workbooks and images, the number of documents that
    the store accepted during the call is the [total_processed] of the
    report, and the error count is at most one per workbook found plus
    one per image listed. *)
Theorem ingest_all_accounts (s : Store) :
  let run := ETLPipeline.ingest_all backends config s in
  let found := ETLPipeline.find_xlsx_files backends (faq_data_dir config) in
  let listed :=
    ImageProcessor.list_images backends (image_data_dir config) in
  (∀ e, found = Raise e → run = (Raise e, s))
  ∧ (∀ e, listed = Raise e → ∀ result, run.1 ≠ Ok result)
  ∧ (∀ e, run.1 = Raise e →
          found = Raise e ∨ listed = Raise e ∨ is_Exception e = false)
  ∧ ∀ result, run.1 = Ok result →
      ∃ xlsx_files images,
        found = Ok xlsx_files
        ∧ listed = Ok images
        ∧ stored_count run.2 = stored_count s + total_processed result
        ∧ 0 ≤ total_processed result
        ∧ 0 ≤ error_count result
          ≤ Z.of_nat (length xlsx_files) + Z.of_nat (length images).
Proof.
  cbv zeta. unfold ETLPipeline.ingest_all. rewrite pure_call_bind.
  destruct (ETLPipeline.find_xlsx_files backends (faq_data_dir config))
    as [xlsx_files|e0]; cycle 1.
  { split; [by intros ? [= <-]|]. split; [done|].
    split; [|done]. intros ? [= <-]. by left. }
  split; [done|].
  rewrite I_bind_run.
  pose proof (ingest_excel_files_run xlsx_files (0, 0, []) s) as Hfiles.
  cbv zeta in Hfiles.
  assert (∃ r1 s1,
            match xlsx_files with
            | [] => mret (0, 0, ["対象Excelファイルが見つかりません: "
                                 +:+ path_str (faq_data_dir config)])
            | _ :: _ =>
                ETLPipeline.ingest_excel_files backends xlsx_files (0, 0, [])
            end s = (r1, s1)
            ∧ match r1 with
              | Ok acc => stored_count s1 - stored_count s = acc.1.1
                          ∧ 0 ≤ acc.1.1
                          ∧ 0 ≤ acc.1.2 ≤ Z.of_nat (length xlsx_files)
              | Raise e => is_Exception e = false
              end) as (r1 & s1 & -> & Hacc).
  { destruct xlsx_files as [|p rest].
    - eexists _, _. split; [done|]. simpl. lia.
    - destruct (ETLPipeline.ingest_excel_files backends (p :: rest) _ s)
        as [[acc|e] s1]; eexists _, _; (split; [done|]);
        simpl in Hfiles |- *; [|done].
      destruct Hfiles as (Hc & Ht & He & Hn & _). lia. }
  clear Hfiles.
  destruct r1 as [acc|e]; cycle 1.
  { split; [done|]. split; [|done]. intros ? [= <-]. by right; right. }
  destruct Hacc as (Hc & Hp & He).
  rewrite I_bind_run.
  pose proof (ingest_images_run (image_data_dir config) s1) as Himg.
  cbv zeta in Himg.
  destruct (ImageProcessor.list_images backends (image_data_dir config))
    as [images|e1].
  - split; [done|].
    destruct (ETLPipeline.ingest_images backends (image_data_dir config) s1)
      as [[img_result|e] s2]; simpl in Himg |- *; cycle 1.
    { split; [|done]. intros ? [= <-]. by right; right. }
    split; [done|]. intros ? [= <-]. simpl.
    exists xlsx_files, images.
    destruct Himg as (new & Hadd & Hnew & Hq & Herr & Hsum).
    assert (stored_count s2 = stored_count s1 + total_processed img_result)
      as Hcount.
    { erewrite (stored_count_app s1 s2) by done.
      erewrite sum_single_requests by done. lia. }
    split; [done|]. split; [done|]. lia.
  - rewrite Himg. simpl. split; [done|].
    split; [|done]. intros ? [= <-]. right. by left.
Qed.

End PipelineProofs.

(* ===================================================================== *)
(** ** The further properties on concrete sessions and files *)
(* ===================================================================== *)

Section ConcreteSessions.
Import Scenario Desk.

Ltac find_event :=
  repeat first [ apply list_elem_of_here | apply list_elem_of_further ].

Lemma healthy_driver : ∀ tr, mongo_fault healthy tr = None.
Proof. intros tr. simpl. by destruct (existsb is_chat_event tr). Qed.

Lemma fresh_has_no_uuid :
  ∀ d, d ∈ sessions fresh → doc_session_id d ≠ uuid4 healthy (trace fresh).
Proof.
  intros d Hd. apply list_elem_of_singleton in Hd. subst d. discriminate.
Qed.

Lemma nothing_yet_has_no_uuid :
  ∀ d, d ∈ sessions nothing_yet
       → doc_session_id d ≠ uuid4 healthy (trace nothing_yet).
Proof. intros d Hd. by apply elem_of_nil in Hd. Qed.

(** [answer_records_what_it_returns] when everything works. *)
Lemma answer_records_what_it_returns_witness :
  let run := ChatService.answer healthy config "q?" sid fresh in
  ∃ m,
    EvUpdateOne sid m None ∈ trace run.2
    ∧ run.1 = Ok {| cr_answer := cm_answer m;
                    cr_sources := cm_sources m;
                    cr_session_id := sid |}
    ∧ cm_question m = "q?"
    ∧ sessions run.2 = SessionManager.push_message sid m (sessions fresh).
Proof.
  intros run.
  assert (∃ m, EvUpdateOne sid m None ∈ trace run.2) as [m Hin].
  { vm_compute. eexists. find_event. }
  exists m. split; [exact Hin|].
  destruct (answer_records_what_it_returns healthy config "q?" sid fresh
              run.2 run.1 (trace run.2) sid m)
    as (Hr & _ & Hq & Hs).
  - apply surjective_pairing.
  - reflexivity.
  - exact Hin.
  - split; [exact Hr|]. split; [exact Hq|exact Hs].
Defined.

(** [answer_calls_at_most_once] when everything works. *)
Lemma answer_calls_at_most_once_witness :
  let new := trace (ChatService.answer healthy config "q?" sid fresh).2 in
  (length (List.filter is_update_event new)
   ≤ length (List.filter is_provider_event new))%nat
  ∧ (length (List.filter is_provider_event new) ≤ 1)%nat.
Proof.
  intros new.
  apply (answer_calls_at_most_once healthy config "q?" sid fresh
           (ChatService.answer healthy config "q?" sid fresh).2
           (ChatService.answer healthy config "q?" sid fresh).1 new).
  - apply surjective_pairing.
  - reflexivity.
Defined.

(** [answer_prompt_sent] when everything works. *)
Lemma answer_prompt_sent_witness :
  let run := ChatService.answer healthy config "q?" sid fresh in
  ∃ messages o,
    EvChatCompletion messages o ∈ trace run.2
    ∧ (∃ middle,
         messages
         = {| role := "system"; content := ChatService.SYSTEM_PROMPT |}
           :: middle ++ [{| role := "user"; content := "q?" |}])
    ∧ ∃ tr, o = llm_chat_completion healthy tr messages.
Proof.
  intros run.
  assert (∃ messages o, EvChatCompletion messages o ∈ trace run.2)
    as (messages & o & Hin).
  { vm_compute. eexists _, _. find_event. }
  exists messages, o. split; [exact Hin|].
  apply (answer_prompt_sent healthy config "q?" sid fresh run.2 run.1
           (trace run.2) messages o).
  - apply surjective_pairing.
  - reflexivity.
  - exact Hin.
Defined.

(** [answer_unknown_session_records_nothing] for an id that the store
    does not hold. *)
Lemma answer_unknown_session_records_nothing_witness :
  (∀ d, d ∈ sessions fresh → doc_session_id d ≠ "unknown")
  ∧ sessions (ChatService.answer healthy config "q?" "unknown" fresh).2
    = sessions fresh.
Proof.
  assert (∀ d, d ∈ sessions fresh → doc_session_id d ≠ "unknown") as Hno.
  { intros d Hd. apply list_elem_of_singleton in Hd. subst d. discriminate. }
  split; [exact Hno|].
  apply (answer_unknown_session_records_nothing healthy config "q?"
           "unknown" fresh Hno).
Defined.

(** [answer_raises_only] when the request is cancelled. *)
Lemma answer_raises_only_witness :
  (ChatService.answer cancelled config "q?" sid fresh).1
  = Raise CancelledError
  ∧ (chroma_count cancelled (trace fresh) = Raise CancelledError
     ∨ is_Exception CancelledError = false).
Proof.
  assert ((ChatService.answer cancelled config "q?" sid fresh).1
          = Raise CancelledError) as Hraise.
  { vm_compute. reflexivity. }
  split; [exact Hraise|].
  apply (answer_raises_only cancelled config "q?" sid fresh CancelledError
           Hraise).
Defined.

(** [create_session_starts_empty] beside one existing session. *)
Lemma create_session_starts_empty_witness :
  ∃ w',
    SessionManager.create_session healthy fresh
    = (Ok (uuid4 healthy (trace fresh)), w')
    ∧ (SessionManager.get_full_history healthy (uuid4 healthy (trace fresh))
         w').1 = Ok []
    ∧ (SessionManager.get_recent_history healthy
         (uuid4 healthy (trace fresh)) 5 w').1 = Ok []
    ∧ ∀ other, other ≠ uuid4 healthy (trace fresh) →
        List.find (SessionManager.matches other) (sessions w')
        = List.find (SessionManager.matches other) (sessions fresh).
Proof.
  apply (create_session_starts_empty healthy 5 fresh healthy_driver
           fresh_has_no_uuid).
Defined.

(** [add_message_appends_to_its_session] on the first of two sessions. *)
Lemma add_message_appends_to_its_session_witness :
  let run := SessionManager.add_message healthy "s1" "q3" "a3" [] talked in
  run.1 = Ok ()
  ∧ (∃ m,
       List.find (SessionManager.matches "s1") (sessions run.2)
       = Some {| doc_session_id := "s1";
                 doc_messages := [turn "q1" "a1"; turn "q2" "a2"] ++ [m];
                 doc_created_at := "2025-01-01T00:00:00+00:00" |}
       ∧ recorded m ("q3", "a3", []))
  ∧ ∀ other, other ≠ "s1" →
      List.find (SessionManager.matches other) (sessions run.2)
      = List.find (SessionManager.matches other) (sessions talked).
Proof.
  apply (add_message_appends_to_its_session healthy "s1" "q3" "a3" [] talked
           {| doc_session_id := "s1";
              doc_messages := [turn "q1" "a1"; turn "q2" "a2"];
              doc_created_at := "2025-01-01T00:00:00+00:00" |});
    reflexivity.
Defined.

(** [delete_session_removes_one] on the first of two sessions. *)
Lemma delete_session_removes_one_witness :
  ∃ (deleted : bool) w',
    SessionManager.delete_session healthy "s1" talked = (Ok deleted, w')
    ∧ (deleted = true
       ↔ ∃ d, d ∈ sessions talked ∧ doc_session_id d = "s1")
    ∧ other_sessions "s1" (sessions w') = other_sessions "s1" (sessions talked)
    ∧ (length (sessions w') + (if deleted then 1 else 0)
       = length (sessions talked))%nat
    ∧ (deleted = false → sessions w' = sessions talked).
Proof.
  apply (delete_session_removes_one healthy "s1" talked). reflexivity.
Defined.

Lemma talked_ids_unique : NoDup (doc_session_id <$> sessions talked).
Proof.
  apply NoDup_cons. split; [|apply NoDup_singleton].
  intros Hin. apply list_elem_of_singleton in Hin. discriminate.
Qed.

(** [delete_session_forgets] on the first of two sessions. *)
Lemma delete_session_forgets_witness :
  let w' := (SessionManager.delete_session healthy "s1" talked).2 in
  (SessionManager.get_full_history healthy "s1" w').1 = Ok []
  ∧ (SessionManager.get_recent_history healthy "s1" 5 w').1 = Ok [].
Proof.
  apply (delete_session_forgets healthy "s1" 5 talked healthy_driver
           talked_ids_unique).
Defined.

(** [get_recent_history_nonpositive] with [n = -1] on two turns: the
    first turn is left out. *)
Lemma get_recent_history_nonpositive_witness :
  (SessionManager.get_recent_history healthy "s1" (-1) talked).1
  = Ok (drop (Z.to_nat (- -1)) [turn "q1" "a1"; turn "q2" "a2"]).
Proof.
  apply (get_recent_history_nonpositive healthy "s1" (-1) talked
           {| doc_session_id := "s1";
              doc_messages := [turn "q1" "a1"; turn "q2" "a2"];
              doc_created_at := "2025-01-01T00:00:00+00:00" |});
    [reflexivity|reflexivity|lia].
Defined.

(** [full_history_round_trip] on two turns. *)
Lemma full_history_round_trip_witness :
  ∃ history,
    (record_and_read_all healthy two_turns nothing_yet).1 = Ok history
    ∧ Forall2 recorded history two_turns.
Proof.
  apply (full_history_round_trip healthy two_turns nothing_yet healthy_driver
           nothing_yet_has_no_uuid).
Defined.

(** [history_round_trip] on two turns, the last one asked for. *)
Lemma history_round_trip_witness :
  ∃ history,
    (record_and_recall healthy two_turns 1 nothing_yet).1 = Ok history
    ∧ Forall2 recorded history
        (drop (length two_turns
               - Z.to_nat (Z.min 1 (Z.of_nat (length two_turns))))
              two_turns).
Proof.
  apply (history_round_trip healthy two_turns 1 nothing_yet healthy_driver
           nothing_yet_has_no_uuid).
  lia.
Defined.

Lemma substring_all (n : nat) (s : string) :
  (String.length s ≤ n)%nat → String.substring 0 n s = s.
Proof.
  revert n. induction s as [|c s IH]; intros [|n] Hn; simpl in *;
    try done; try lia.
  f_equal. apply IH. lia.
Qed.

Lemma length_substring (n : nat) (s : string) :
  String.length (String.substring 0 n s) = (n `min` String.length s)%nat.
Proof.
  revert n. induction s as [|c s IH]; intros [|n]; simpl; try done.
  by rewrite IH.
Qed.

Lemma length_string_app (a b : string) :
  String.length (a +:+ b) = (String.length a + String.length b)%nat.
Proof.
  induction a as [|c a IH]; [done|].
  change (String c a +:+ b) with (String c (a +:+ b)). simpl. by rewrite IH.
Qed.

(** Strings read as one character per byte satisfy the laws of [len]
    and slicing. *)
Lemma byte_str_laws : @StrLaws SessionManager.byte_str.
Proof.
  split.
  - apply substring_all.
  - apply length_substring.
  - apply length_string_app.
  - reflexivity.
  - vm_compute. lia.
Qed.

(** [get_all_sessions_summaries] on two sessions, the newer first. *)
Lemma get_all_sessions_summaries_witness :
  ∃ summaries,
    SessionManager.get_all_sessions healthy reverse talked
    = (Ok summaries, talked)
    ∧ Forall2 summarises summaries (reverse (sessions talked)).
Proof.
  apply (get_all_sessions_summaries healthy reverse talked byte_str_laws).
  reflexivity.
Defined.

(** [get_session_history_404_iff_absent] on a fresh session. *)
Lemma get_session_history_404_iff_absent_witness :
  let r := (Routes.get_session_history healthy sid fresh).1 in
  (r = Raise (Routes.HTTPException 404)
   ↔ ∀ d, d ∈ sessions fresh → doc_session_id d ≠ sid)
  ∧ ∀ d, List.find (SessionManager.matches sid) (sessions fresh) = Some d →
      r = Ok {| Routes.shr_session_id := sid;
                Routes.shr_messages := doc_messages d |}.
Proof.
  apply (get_session_history_404_iff_absent healthy sid fresh healthy_driver).
Defined.

(** [delete_session_route] on the first of two sessions. *)
Lemma delete_session_route_witness :
  let run := Routes.delete_session healthy "s1" talked in
  if existsb (SessionManager.matches "s1") (sessions talked)
  then (∃ message, run.1 = Ok {| Routes.dsr_success := true;
                                 Routes.dsr_message := message |})
       ∧ S (length (sessions run.2)) = length (sessions talked)
       ∧ other_sessions "s1" (sessions run.2)
         = other_sessions "s1" (sessions talked)
  else run.1 = Raise (Routes.HTTPException 404)
       ∧ sessions run.2 = sessions talked.
Proof.
  apply (delete_session_route healthy "s1" talked). reflexivity.
Defined.

(** [created_session_opens_empty] beside one existing session. *)
Lemma created_session_opens_empty_witness :
  (Routes.create_then_open healthy fresh).1
  = Ok {| Routes.shr_session_id := uuid4 healthy (trace fresh);
          Routes.shr_messages := [] |}.
Proof.
  apply (created_session_opens_empty healthy fresh healthy_driver
           fresh_has_no_uuid).
Defined.

(** [deleted_session_is_not_found] on the first of two sessions. *)
Lemma deleted_session_is_not_found_witness :
  (Routes.delete_then_open healthy "s1" talked).1
  = Raise (Routes.HTTPException 404).
Proof.
  apply (deleted_session_is_not_found healthy "s1" talked healthy_driver
           talked_ids_unique).
Defined.

(** [vertexai_never_answers] for the provider name written "VertexAI". *)
Lemma vertexai_never_answers_witness :
  LLM.lower "VertexAI" = "vertexai"
  ∧ ∃ client,
      LLM.create_llm_client "VertexAI" = Ok client
      ∧ let run :=
          ChatService.answer (LLM.with_client healthy client one_choice)
            config "q?" sid fresh in
        sessions run.2 = sessions fresh
        ∧ ∀ resp, run.1 = Ok resp →
            cr_sources resp = []
            ∧ (cr_answer resp = ChatService.KNOWLEDGE_BASE_NOT_BUILT
               ∨ cr_answer resp = ChatService.GENERATION_FAILED).
Proof.
  split; [reflexivity|].
  apply (vertexai_never_answers healthy config "VertexAI" one_choice "q?"
           sid fresh).
  reflexivity.
Defined.

(** [openai_first_choice] on a completion with one choice. *)
Lemma openai_first_choice_witness :
  let run :=
    ChatService.answer (LLM.with_client healthy LLM.OpenAIClient one_choice)
      config "q?" sid fresh in
  ∃ messages resp,
    EvChatCompletion messages (Ok resp) ∈ trace run.2
    ∧ ∃ tr completion content rest,
        one_choice tr messages = Ok completion
        ∧ LLM.cc_choices completion = content :: rest
        ∧ llm_content resp = default "" content
        ∧ llm_model resp = LLM.cc_model completion.
Proof.
  intros run.
  assert (∃ messages resp, EvChatCompletion messages (Ok resp) ∈ trace run.2)
    as (messages & resp & Hin).
  { vm_compute. eexists _, _. find_event. }
  exists messages, resp. split; [exact Hin|].
  apply (openai_first_choice healthy config one_choice "q?" sid fresh run.2
           run.1 (trace run.2) messages resp).
  - apply surjective_pairing.
  - reflexivity.
  - exact Hin.
Defined.

End ConcreteSessions.

Section ConcreteIngestion.
Import Desk.

(** [stored_chunk_is_retrievable] on one chunk. *)
Lemma stored_chunk_is_retrievable_witness :
  ∃ request meta,
    added (VectorStoreWrite.add_chunks backends [vpn_chunk] empty).2
    = added empty ++ [request]
    ∧ add_ids request !! 0%nat = Some "id-1"
    ∧ add_documents request !! 0%nat = Some (chunk_text vpn_chunk)
    ∧ add_metadatas request !! 0%nat = Some meta
    ∧ retrievable_as (chunk_text vpn_chunk) meta TEXT "faq.xlsx" None.
Proof.
  apply (stored_chunk_is_retrievable backends [vpn_chunk] 0 vpn_chunk empty);
    reflexivity.
Defined.

(** [stored_image_is_retrievable] on one image document. *)
Lemma stored_image_is_retrievable_witness :
  ∃ request meta,
    added (VectorStoreWrite.add_image_documents backends [vpn_document]
             empty).2
    = added empty ++ [request]
    ∧ add_ids request !! 0%nat = Some "id-2"
    ∧ add_documents request !! 0%nat = Some "VPN settings screen"
    ∧ add_metadatas request !! 0%nat = Some meta
    ∧ retrievable_as "VPN settings screen" meta IMAGE "vpn.PNG"
        (Some "data/images/vpn.PNG").
Proof.
  apply (stored_image_is_retrievable backends [vpn_document] 0 vpn_document
           empty);
    reflexivity.
Defined.

(** [read_faq_excel_entries] on a sheet of three rows, the second one
    without number. *)
Lemma read_faq_excel_entries_witness :
  (reads_to_the_end workbook →
   Forall (readable backends) (numbered_rows workbook) →
   ∃ entries,
     (ExcelReader.read_faq_excel backends faq_file empty).1 = Ok entries)
  ∧ ∀ entries,
      (ExcelReader.read_faq_excel backends faq_file empty).1 = Ok entries →
      reads_to_the_end workbook
      ∧ Forall2 (entry_of_row backends faq_file) entries
          (List.filter non_blank (numbered_rows workbook)).
Proof.
  apply (read_faq_excel_entries backends faq_file workbook empty);
    reflexivity.
Defined.

(** [ingest_excel_stores_published] on the same sheet: of the two
    entries read, the published one is stored. *)
Lemma ingest_excel_stores_published_witness :
  ExcelReader.read_faq_excel backends faq_file empty
  = (Ok entries, tick empty)
  ∧ let published :=
      List.filter (λ e, String.eqb (fe_status e) "公開") entries in
    let run := ETLPipeline.ingest_excel backends faq_file empty in
    ∃ chunks result,
      Forall2 chunk_of_entry chunks published
      ∧ run.1 = Ok result
      ∧ total_processed result = Z.of_nat (length published)
      ∧ error_count result = 0
      ∧ added run.2
        = added empty
          ++ match chunks with
             | [] => []
             | _ :: _ =>
                 [{| add_ids := chunk_id <$> chunks;
                     add_documents := chunk_text <$> chunks;
                     add_metadatas :=
                       VectorStoreWrite.chunk_metadata_dict <$> chunks |}]
             end.
Proof.
  assert (ExcelReader.read_faq_excel backends faq_file empty
          = (Ok entries, tick empty)) as Hread.
  { vm_compute. reflexivity. }
  split; [exact Hread|].
  apply (ingest_excel_stores_published backends faq_file entries empty
           (tick empty) Hread).
  reflexivity.
Defined.

(** [ingest_images_without_describer] on a directory with one image and
    one text file. *)
Lemma ingest_images_without_describer_witness :
  ImageProcessor.list_images vertexai_backends image_dir = Ok [vpn_image]
  ∧ ∃ result s',
      ETLPipeline.ingest_images vertexai_backends image_dir empty
      = (Ok result, s')
      ∧ total_processed result = 0
      ∧ error_count result = Z.of_nat (length [vpn_image])
      ∧ added s' = added empty.
Proof.
  assert (ImageProcessor.list_images vertexai_backends image_dir
          = Ok [vpn_image]) as Hlist.
  { vm_compute. reflexivity. }
  split; [exact Hlist|].
  apply (ingest_images_without_describer vertexai_backends image_dir
           [vpn_image] empty).
  - reflexivity.
  - exact Hlist.
  - repeat constructor. discriminate.
Defined.

(** The published entry of the workbook is stored and counted. *)
Example ingest_excel_counts_one :
  match (ETLPipeline.ingest_excel backends faq_file empty).1 with
  | Ok result => total_processed result = 1 ∧ error_count result = 0
  | Raise _ => False
  end.
Proof. vm_compute. by split. Qed.

(** The image is described and stored, the text file is not listed. *)
Example ingest_images_counts_one :
  match (ETLPipeline.ingest_images backends image_dir empty).1 with
  | Ok result => total_processed result = 1 ∧ error_count result = 0
  | Raise _ => False
  end.
Proof. vm_compute. by split. Qed.

(** A workbook with a chartsheet opens, and reading it raises
    [AttributeError]; [ingest_excel] reports it as one error and stores
    nothing. *)
Example chartsheet_is_an_error :
  (ExcelReader.read_faq_excel chart_backends faq_file empty).1
  = Raise AttributeError
  ∧ ETLPipeline.ingest_excel chart_backends faq_file empty
    = (Ok {| total_processed := 0; error_count := 1;
             details := "faq.xlsx: 取り込みエラー: error" |}, tick empty).
Proof. split; vm_compute; reflexivity. Qed.

(** When the image directory is a file, listing it raises
    [NotADirectoryError], which [ingest_images] and [ingest_all] raise
    to their caller. *)
Example no_directory_raises :
  ImageProcessor.list_images no_directory_backends image_dir
  = Raise NotADirectoryError
  ∧ (ETLPipeline.ingest_images no_directory_backends image_dir empty).1
    = Raise NotADirectoryError
  ∧ (ETLPipeline.ingest_all no_directory_backends directories empty).1
    = Raise NotADirectoryError.
Proof. split; [|split]; vm_compute; reflexivity. Qed.

End ConcreteIngestion.
